(** * Workflow server: query and lifecycle control plane

    A shallow embedding of [server/workflow/workflow_server.go] and of
    [cmd/argo/commands/archive/retry.go].

    Conventions of the embedding:
    - a Go [error] value is an [option error] ([None] is [nil]);
    - a Go pair [(x, err)] of which exactly one side is read is a [result];
      where the source tests the pointer against [nil] as well
      ([wf == nil || err != nil]) the pair is kept as a pair of options;
    - Go [int] and [int64] are 64-bit two's complement integers: [Z] with the
      wrap-around written out in [wrap64];
    - interfaces of collaborators are records of functions;
    - code of the repository that is not part of the embedded files is
      either a field of such a record or a definition whose comment starts
      with "Modelled from the spec". *)

From Stdlib Require Import ZArith Lia List Permutation.
From stdpp Require Import base tactics option list strings pretty gmap.

Open Scope string_scope.
Open Scope Z_scope.
Open Scope list_scope.

(** ** Status codes and errors *)

Module Status.

(** [google.golang.org/grpc/codes]. *)
Inductive Code :=
| OK | Canceled | Unknown | InvalidArgument | DeadlineExceeded | NotFound
| AlreadyExists | PermissionDenied | ResourceExhausted | FailedPrecondition
| Aborted | OutOfRange | Unimplemented | Internal | Unavailable | DataLoss
| Unauthenticated.

(** [metav1.StatusReason] of a Kubernetes API error, as far as the server
    inspects it ([apierr.IsServerTimeout], [apierr.IsNotFound]). *)
Inductive StatusReason :=
| StatusReasonUnknown | StatusReasonNotFound | StatusReasonAlreadyExists
| StatusReasonConflict | StatusReasonForbidden | StatusReasonServerTimeout
| StatusReasonTimeout | StatusReasonInternalError.

(** The dynamic types of [error] values that reach the server. *)
Inductive error :=
| statusError (c : Code) (msg : string)
    (* status.Error(c, msg): carries a gRPC status *)
| apiStatusError (reason : StatusReason) (msg : string)
    (* *apierr.StatusError returned by the Kubernetes client *)
| errorString (msg : string)
    (* errors.New(msg), fmt.Errorf without %w, io.EOF *)
| wrapError (msg : string) (inner : error).
    (* fmt.Errorf("... %w", inner): msg is the prefix before %w *)

(** [err.Error()]. *)
Fixpoint Error (e : error) : string :=
  match e with
  | statusError _ msg => msg
  | apiStatusError _ msg => msg
  | errorString msg => msg
  | wrapError msg inner => msg +:+ Error inner
  end.

(** [apierr.IsServerTimeout] and [apierr.IsNotFound] look for the reason of
    the API status in the error chain. *)
Fixpoint ReasonForError (e : error) : StatusReason :=
  match e with
  | apiStatusError r _ => r
  | wrapError _ inner => ReasonForError inner
  | _ => StatusReasonUnknown
  end.

Definition IsServerTimeout (e : error) : bool :=
  match ReasonForError e with StatusReasonServerTimeout => true | _ => false end.

Definition IsNotFound (e : error) : bool :=
  match ReasonForError e with StatusReasonNotFound => true | _ => false end.

(** The gRPC status an error carries itself, if any. *)
Definition GRPCStatus (e : error) : option Code :=
  match e with statusError c _ => Some c | _ => None end.

(** Modelled from the spec: [sutils.ToStatusError] of [server/utils], which
    is not among the embedded files. Lower-level errors are re-coded at the
    boundary with the code the caller passes; [nil] stays [nil]; an error
    that already carries a status code keeps it (the alias resolution's
    NotFound survives the Internal re-coding of its callers, and
    [getWorkflowOrigErr] relies on it "to preserve the original status
    code"). *)
Definition ToStatusError (err : option error) (code : Code) : option error :=
  match err with
  | None => None
  | Some (statusError c msg) => Some (statusError c msg)
  | Some e => Some (statusError code (Error e))
  end.

(** The double quote character, for messages that quote a name. *)
Definition dquote : string := String (Ascii.ascii_of_nat 34) EmptyString.

(** [io.EOF]. *)
Definition io_EOF : error := errorString "EOF".

End Status.
Export Status.

(** ** Results and machine integers *)

(** What a Go function returning a pointer and an [error] hands back: [Ok v] is
    [(v, nil)] with [v] not nil, [Err e] is [(nil, e)], where [e] itself may
    be [nil]; [Panic] is the run-time panic of a nil pointer dereference. *)
Inductive result (A : Type) :=
| Ok (a : A)
| Err (e : option error)
| Panic.
Arguments Ok {A} a.
Arguments Err {A} e.
Arguments Panic {A}.

(** 64-bit two's complement wrap-around of Go's [int] and [int64]. *)
Definition wrap64 (z : Z) : Z := (z + 2 ^ 63) mod 2 ^ 64 - 2 ^ 63.

Definition int64_add (a b : Z) : Z := wrap64 (a + b).
Definition int64_sub (a b : Z) : Z := wrap64 (a - b).

(** [len(l)] as an [int]. *)
Definition len {A} (l : list A) : Z := Z.of_nat (length l).


(** ** Data model *)

(** [metav1]: list options of a request and list metadata of a reply. *)
Module metav1.

Record ListOptions := {
  LabelSelector : string;
  FieldSelector : string;
  Limit : Z;               (* int64 *)
  Continue : string
}.

Definition emptyListOptions : ListOptions :=
  {| LabelSelector := ""; FieldSelector := ""; Limit := 0; Continue := "" |}.

Definition withFieldSelector (o : ListOptions) (sel : string) : ListOptions :=
  {| LabelSelector := LabelSelector o; FieldSelector := sel;
     Limit := Limit o; Continue := Continue o |}.

Record ListMeta := {
  ResourceVersion : string;
  ContinueToken : string;              (* ListMeta.Continue *)
  RemainingItemCount : option Z        (* *int64 *)
}.

(** [metav1.Time]: an instant, [0] being the zero time; [Before] is strict. *)
Definition Time := Z.
Definition IsZero (t : Time) : bool := t =? 0.
Definition Before (t u : Time) : bool := t <? u.

End metav1.

(** [wfv1]: workflows. *)
Module wfv1.

(** [NodePhase] is a string type; the three phases the server names. *)
Definition NodePhase := string.
Definition NodeSucceeded : NodePhase := "Succeeded".
Definition NodeFailed : NodePhase := "Failed".
Definition NodeError : NodePhase := "Error".

Definition Nodes := gmap string NodePhase.

Record Workflow := {
  Name : string;
  GenerateName : string;
  Namespace : string;
  UID : string;
  CreationTimestamp : metav1.Time;
  FinishedAt : metav1.Time;              (* Status.FinishedAt *)
  OffloadNodeStatusVersion : string;     (* Status.OffloadNodeStatusVersion *)
  StatusNodes : Nodes                    (* Status.Nodes *)
}.

(** [Status.IsOffloadNodeStatus] and [GetOffloadNodeStatusVersion]. *)
Definition IsOffloadNodeStatus (wf : Workflow) : bool :=
  negb (String.eqb (OffloadNodeStatusVersion wf) "").

Definition withNodes (wf : Workflow) (n : Nodes) : Workflow :=
  {| Name := Name wf; GenerateName := GenerateName wf;
     Namespace := Namespace wf; UID := UID wf;
     CreationTimestamp := CreationTimestamp wf; FinishedAt := FinishedAt wf;
     OffloadNodeStatusVersion := OffloadNodeStatusVersion wf;
     StatusNodes := n |}.

Definition withNamespace (wf : Workflow) (ns : string) : Workflow :=
  {| Name := Name wf; GenerateName := GenerateName wf;
     Namespace := ns; UID := UID wf;
     CreationTimestamp := CreationTimestamp wf; FinishedAt := FinishedAt wf;
     OffloadNodeStatusVersion := OffloadNodeStatusVersion wf;
     StatusNodes := StatusNodes wf |}.

Definition Workflows := list Workflow.

Record WorkflowList := {
  ListMeta : metav1.ListMeta;
  Items : Workflows
}.

Definition emptyWorkflowList : WorkflowList :=
  {| ListMeta := {| metav1.ResourceVersion := ""; metav1.ContinueToken := "";
                    metav1.RemainingItemCount := None |};
     Items := [] |}.

End wfv1.

(** [sutils.ListOptions]: what [sutils.BuildListOptions] makes of a request. *)
Module sutils.

Record ListOptions := {
  Namespace : string;
  NameFilter : string;
  CreatedAfter : string;
  FinishedBefore : string;
  LabelRequirements : string;
  Limit : Z;                 (* int *)
  Offset : Z;                (* int *)
  ShowRemainingItemCount : bool
}.

(** [WithLimit] and [WithOffset] return the options with one field replaced. *)
Definition WithLimit (l : ListOptions) (limit : Z) : ListOptions :=
  {| Namespace := Namespace l; NameFilter := NameFilter l;
     CreatedAfter := CreatedAfter l; FinishedBefore := FinishedBefore l;
     LabelRequirements := LabelRequirements l;
     Limit := limit; Offset := Offset l;
     ShowRemainingItemCount := ShowRemainingItemCount l |}.

Definition WithOffset (l : ListOptions) (offset : Z) : ListOptions :=
  {| Namespace := Namespace l; NameFilter := NameFilter l;
     CreatedAfter := CreatedAfter l; FinishedBefore := FinishedBefore l;
     LabelRequirements := LabelRequirements l;
     Limit := Limit l; Offset := offset;
     ShowRemainingItemCount := ShowRemainingItemCount l |}.

End sutils.

(** [workflowpkg]: the requests of the service. *)
Module workflowpkg.

Record WorkflowCreateRequest := {
  create_Namespace : string;
  create_Workflow : option wfv1.Workflow;      (* a pointer, may be nil *)
  create_ServerDryRun : bool;
  create_CreateOptions : option (list string)  (* CreateOptions.DryRun *)
}.

Record WorkflowSetRequest := {
  set_Name : string;
  set_Namespace : string;
  set_NodeFieldSelector : string;
  set_Message : string;
  set_Phase : string;
  set_OutputParameters : string
}.

Record WorkflowRetryRequest := {
  retry_Name : string;
  retry_Namespace : string;
  retry_RestartSuccessful : bool;
  retry_NodeFieldSelector : string;
  retry_Parameters : list string
}.

Record WatchWorkflowsRequest := {
  watch_Namespace : string;
  watch_ListOptions : option metav1.ListOptions;
  watch_Fields : string
}.

Record WorkflowListRequest := {
  Namespace : string;
  ListOptions : option metav1.ListOptions;     (* a pointer, may be nil *)
  Fields : string;
  NameFilter : string;
  CreatedAfter : string;
  FinishedBefore : string
}.

End workflowpkg.

(** ** Collaborators *)

(** [store.WorkflowLister], the live source. Both methods receive
    [(namespace, nameFilter, createdAfter, finishedBefore, listOptions)]. *)
Record WorkflowLister := {
  lister_ListWorkflows :
    string -> string -> string -> string -> metav1.ListOptions ->
    result wfv1.WorkflowList;
  lister_CountWorkflows :
    string -> string -> string -> string -> metav1.ListOptions ->
    Z * option error
}.

(** [sqldb.WorkflowArchive], the archive. [GetWorkflow] takes
    [(uid, namespace, name)]. *)
Record WorkflowArchive := {
  archive_ListWorkflows : sutils.ListOptions -> wfv1.Workflows * option error;
  archive_CountWorkflows : sutils.ListOptions -> Z * option error;
  archive_GetWorkflow :
    string -> string -> string -> option wfv1.Workflow * option error
}.

(** [sqldb.OffloadNodeStatusRepo]; [List] yields the node maps by
    [UUIDVersion{UID, Version}]. *)
Record OffloadNodeStatusRepo := {
  IsEnabled : bool;
  offload_List : string -> gmap (string * string) wfv1.Nodes * option error
}.

(** [hydrator.Interface]: the workflow is updated in place, the call returns
    the updated workflow next to the error. *)
Record Hydrator := {
  Hydrate : wfv1.Workflow -> wfv1.Workflow * option error;
  Dehydrate : wfv1.Workflow -> wfv1.Workflow * option error
}.

(** [instanceid.Service]. *)
Record InstanceIDService := {
  With : metav1.ListOptions -> metav1.ListOptions;
  Label : wfv1.Workflow -> wfv1.Workflow;
  Validate : option wfv1.Workflow -> option error
}.

(** [cache.Reflector], as far as it is read. *)
Record Reflector := {
  LastSyncResourceVersion : string
}.

(** [fields.Cleaner]. [Clean(x, &y)] returns [(ok, err)] and fills [y]. *)
Record Cleaner := {
  WillExclude : string -> bool;
  CleanList : wfv1.WorkflowList -> bool * wfv1.WorkflowList * option error;
  CleanWorkflow : wfv1.Workflow -> bool * wfv1.Workflow * option error
}.

(** The [workflowServer] struct. *)
Record workflowServer := {
  instanceIDService : InstanceIDService;
  offloadNodeStatusRepo : OffloadNodeStatusRepo;
  hydrator : Hydrator;
  wfArchive : WorkflowArchive;
  wfLister : WorkflowLister;
  wfReflector : option Reflector
}.

Definition latestAlias : string := "@latest".

(** [workflow.WorkflowPlural]. *)
Definition WorkflowPlural : string := "workflows".

(** ** Sorting a page *)

Section Sort.

(** [Workflows.Less] of [pkg/apis/workflow/v1alpha1], on the elements. *)
Variable Less : wfv1.Workflow -> wfv1.Workflow -> bool.

(** One pass of the inner loop of an insertion sort: [x] moves left past
    every element it is less than. [rp] is the sorted prefix, last
    element first. *)
Fixpoint insertLeft (x : wfv1.Workflow) (rp : list wfv1.Workflow)
  : list wfv1.Workflow :=
  match rp with
  | [] => [x]
  | y :: rp' => if Less x y then y :: insertLeft x rp' else x :: rp
  end.

(** [sort.Sort(wfs)]: the page is rearranged by comparisons with [Less].
    The standard library sorts a short slice (up to 12 elements) by this
    insertion sort and a longer one by a pattern-defeating quicksort, which
    also yields a rearrangement ordered by [Less]; the properties below
    use of the sort only that it rearranges. *)
Definition sort_Sort (wfs : wfv1.Workflows) : wfv1.Workflows :=
  rev (fold_left (fun rp x => insertLeft x rp) wfs []).

End Sort.

(** The error-propagating sequencing of [result]. *)
Definition bind {A B} (m : result A) (k : A -> result B) : result B :=
  match m with
  | Ok a => k a
  | Err e => Err e
  | Panic => Panic
  end.

Notation "'let*' x ':=' m 'in' k" := (bind m (fun x => k))
  (at level 10, x pattern, m at level 100, k at level 200,
   format "'[v' 'let*'  x  ':='  m  'in' '/' k ']'").

(** [if err != nil { return nil, sutils.ToStatusError(err, code) }] after a
    call that returned [(v, err)]. *)
Definition orStatus {A} (r : A * option error) (code : Code) : result A :=
  match r with
  | (_, Some err) => Err (ToStatusError (Some err) code)
  | (v, None) => Ok v
  end.

(** What [auth] reads from the request context: the permission check
    [auth.CanI(ctx, verb, resource, namespace, name)]. *)
Record Context := {
  CanI : string -> string -> string -> string -> bool * option error
}.

(** ** The hybrid paginator: [ListWorkflows] *)

Section ListWorkflows.

(** [sutils.BuildListOptions(options, ns, namePrefix, nameFilter,
    createdAfter, finishedBefore)], [fields.NewCleaner] and
    [Workflows.Less] are not among the embedded files. *)
Variable BuildListOptions :
  metav1.ListOptions -> string -> string -> string -> string -> string ->
  sutils.ListOptions * option error.
Variable NewCleaner : string -> Cleaner.
Variable Less : wfv1.Workflow -> wfv1.Workflow -> bool.

Definition permissionDeniedMessage (ns : string) : string :=
  "Permission denied, you are not allowed to list workflows in namespace "
  +:+ dquote +:+ ns +:+ dquote +:+
  ". Maybe you want to specify a namespace with query parameter `.namespace="
  +:+ ns +:+ "`?".

(** Lines 210-218: first fetch live workflows. Returns [liveWfList]. *)
Definition fetchLive (s : workflowServer) (req : workflowpkg.WorkflowListRequest)
    (listOption : metav1.ListOptions) (options : sutils.ListOptions)
    (liveWfCount : Z) : result wfv1.WorkflowList :=
  if (0 <? liveWfCount) &&
     ((sutils.Limit options =? 0) || (sutils.Offset options <? liveWfCount))
  then
    match lister_ListWorkflows (wfLister s)
            (workflowpkg.Namespace req) (workflowpkg.NameFilter req)
            (workflowpkg.CreatedAfter req) (workflowpkg.FinishedBefore req)
            listOption with
    | Ok l => Ok l
    | Err (Some err) => Err (ToStatusError (Some err) Internal)
    | Err None => Panic          (* liveWfList.Items on a nil list *)
    | Panic => Panic
    end
  else Ok wfv1.emptyWorkflowList.

(** Lines 220-234: then fetch archived workflows. Returns what is
    appended to [wfs]. *)
Definition fetchArchived (s : workflowServer) (options : sutils.ListOptions)
    (liveWfCount : Z) (liveWfList : wfv1.WorkflowList) : result wfv1.Workflows :=
  if (sutils.Limit options =? 0) ||
     (liveWfCount <? int64_add (sutils.Offset options) (sutils.Limit options))
  then
    let archivedOffset := int64_sub (sutils.Offset options) liveWfCount in
    let archivedLimit := sutils.Limit options in
    let '(archivedOffset, archivedLimit) :=
      if archivedOffset <? 0
      then (0, int64_sub (sutils.Limit options) (len (wfv1.Items liveWfList)))
      else (archivedOffset, archivedLimit) in
    orStatus
      (archive_ListWorkflows (wfArchive s)
         (sutils.WithOffset (sutils.WithLimit options archivedLimit) archivedOffset))
      Internal
  else Ok [].

(** Lines 235-248: the list metadata. *)
Definition listMeta (s : workflowServer) (options : sutils.ListOptions)
    (totalCount : Z) (liveWfList : wfv1.WorkflowList) (wfs : wfv1.Workflows)
  : metav1.ListMeta :=
  let resourceVersion :=
    match wfReflector s with
    | Some r => LastSyncResourceVersion r
    | None => metav1.ResourceVersion (wfv1.ListMeta liveWfList)
    end in
  let remainCount :=
    int64_sub (int64_sub totalCount (sutils.Offset options)) (len wfs) in
  let remainCount := if remainCount <? 0 then 0 else remainCount in
  {| metav1.ResourceVersion := resourceVersion;
     metav1.ContinueToken :=
       if 0 <? remainCount
       then pretty (int64_add (sutils.Offset options) (len wfs))
       else "";
     metav1.RemainingItemCount :=
       if sutils.ShowRemainingItemCount options then Some remainCount else None |}.

(** Lines 250-266: the node maps of offloaded workflows are filled in. *)
Definition fillOffloaded (s : workflowServer) (offloadedNodes : gmap (string * string) wfv1.Nodes)
    (wf : wfv1.Workflow) : wfv1.Workflow :=
  if wfv1.IsOffloadNodeStatus wf then
    if IsEnabled (offloadNodeStatusRepo s) then
      wfv1.withNodes wf
        (default ∅ (offloadedNodes !! (wfv1.UID wf, wfv1.OffloadNodeStatusVersion wf)))
    else wf
  else wf.

Definition loadOffloaded (s : workflowServer) (cleaner : Cleaner)
    (req : workflowpkg.WorkflowListRequest) (wfs : wfv1.Workflows)
  : result wfv1.Workflows :=
  if IsEnabled (offloadNodeStatusRepo s) &&
     negb (WillExclude cleaner "items.status.nodes")
  then
    let* offloadedNodes :=
      orStatus (offload_List (offloadNodeStatusRepo s) (workflowpkg.Namespace req))
               Internal in
    Ok (map (fillOffloaded s offloadedNodes) wfs)
  else Ok wfs.

Definition ListWorkflows (s : workflowServer) (ctx : Context)
    (req : workflowpkg.WorkflowListRequest) : result wfv1.WorkflowList :=
  let listOption := default metav1.emptyListOptions (workflowpkg.ListOptions req) in
  let listOption := With (instanceIDService s) listOption in
  match BuildListOptions listOption (workflowpkg.Namespace req) ""
          (workflowpkg.NameFilter req) (workflowpkg.CreatedAfter req)
          (workflowpkg.FinishedBefore req) with
  | (_, Some err) => Err (Some err)
  | (options, None) =>
    (* verify if we have permission to list Workflows *)
    let* allowed :=
      orStatus (CanI ctx "list" WorkflowPlural (sutils.Namespace options) "")
               Internal in
    if negb allowed then
      Err (Some (statusError PermissionDenied
                   (permissionDeniedMessage (sutils.Namespace options))))
    else
    let* liveWfCount :=
      orStatus (lister_CountWorkflows (wfLister s)
                  (workflowpkg.Namespace req) (workflowpkg.NameFilter req)
                  (workflowpkg.CreatedAfter req) (workflowpkg.FinishedBefore req)
                  listOption) Internal in
    let* archivedCount :=
      orStatus (archive_CountWorkflows (wfArchive s) options) Internal in
    let totalCount := int64_add liveWfCount archivedCount in
    let* liveWfList := fetchLive s req listOption options liveWfCount in
    let wfs := wfv1.Items liveWfList in
    let* archivedWfList := fetchArchived s options liveWfCount liveWfList in
    let wfs := wfs ++ archivedWfList in
    let meta := listMeta s options totalCount liveWfList wfs in
    let cleaner := NewCleaner (workflowpkg.Fields req) in
    let* wfs := loadOffloaded s cleaner req wfs in
    (* we make no promises about the overall list sorting, we just sort
       each page *)
    let wfs := sort_Sort Less wfs in
    let res := {| wfv1.ListMeta := meta; wfv1.Items := wfs |} in
    match CleanList cleaner res with
    | (_, _, Some err) =>
        Err (ToStatusError
               (Some (wrapError "unable to CleanFields in request: " err))
               Internal)
    | (true, newRes, None) => Ok newRes
    | (false, _, None) => Ok res
    end
  end.

End ListWorkflows.

(** ** Alias resolution: [getWorkflow] and [getLatestWorkflow] *)

(** [metav1.GetOptions]. *)
Record GetOptions := { getResourceVersion : string }.

Definition emptyGetOptions : GetOptions := {| getResourceVersion := "" |}.

(** [versioned.Interface], through [ArgoprojV1alpha1().Workflows(namespace)]:
    the reads and the create of the substrate. *)
Record WorkflowInterface := {
  wf_Get : string -> string -> GetOptions -> option wfv1.Workflow * option error;
  wf_List : string -> metav1.ListOptions -> result wfv1.WorkflowList;
  wf_Create : string -> wfv1.Workflow -> result wfv1.Workflow;
  wf_Watch : string -> metav1.ListOptions -> option error
    (* the error of opening the watch; its result channel is read in the
       loop of WatchWorkflows *)
}.

(** The loop of [getLatestWorkflow]: [latest] is replaced by a workflow
    only if [latest] was created strictly before it. *)
Definition latestOf (latest : wfv1.Workflow) (items : list wfv1.Workflow)
  : wfv1.Workflow :=
  fold_left
    (fun latest wf =>
       if metav1.Before (wfv1.CreationTimestamp latest) (wfv1.CreationTimestamp wf)
       then wf else latest)
    items latest.

Definition getLatestWorkflow (wfClient : WorkflowInterface) (namespace : string)
  : result wfv1.Workflow :=
  match wf_List wfClient namespace metav1.emptyListOptions with
  | Err (Some err) => Err (ToStatusError (Some err) Internal)
  | Err None => Panic                   (* len(wfList.Items) on a nil list *)
  | Panic => Panic
  | Ok wfList =>
    match wfv1.Items wfList with
    | [] => Err (ToStatusError (Some (errorString "no workflows found")) NotFound)
    | first :: _ => Ok (latestOf first (wfv1.Items wfList))
    end
  end.

(** [getWorkflowOrigErr] only returns the original error to preserve the
    original status code; the new error is only logged. *)
Definition getWorkflowOrigErr (origErr err : option error) : option error :=
  ToStatusError origErr Internal.

Definition getWorkflow (s : workflowServer) (ctx : Context)
    (wfClient : WorkflowInterface) (namespace name : string)
    (options : GetOptions) : result wfv1.Workflow :=
  if String.eqb name latestAlias then
    match getLatestWorkflow wfClient namespace with
    | Err (Some err) => Err (ToStatusError (Some err) Internal)
    | Err None => Panic                 (* latest.Name on a nil workflow *)
    | Panic => Panic
    | Ok latest => Ok latest
    end
  else
    let '(wf, origErr) := wf_Get wfClient namespace name options in
    match wf, origErr with
    | Some wf, None => Ok wf
    | _, _ =>
      (* fallback to retrieve from archived workflows *)
      match CanI ctx "get" WorkflowPlural namespace name with
      | (_, Some err) => Err (getWorkflowOrigErr origErr (Some err))
      | (false, None) =>
          Err (getWorkflowOrigErr origErr
                 (Some (statusError PermissionDenied "permission denied")))
      | (true, None) =>
        match archive_GetWorkflow (wfArchive s) "" namespace name with
        | (Some wf, None) => Ok wf
        | (_, err) => Err (getWorkflowOrigErr origErr err)
        end
      end
    end.

Definition validateWorkflow (s : workflowServer) (wf : option wfv1.Workflow)
  : option error :=
  ToStatusError (Validate (instanceIDService s) wf) InvalidArgument.

(** ** [CreateWorkflow] *)

Section CreateWorkflow.

(** [creator.LabelCreator], [validate.ValidateWorkflow] (with the template
    getters and the defaults of the server) and [util.CreateServerDryRun]
    are not among the embedded files. The first two work on the workflow
    in place. *)
Variable LabelCreator : Context -> wfv1.Workflow -> wfv1.Workflow.
Variable ValidateWorkflow :
  workflowServer -> Context -> wfv1.Workflow -> wfv1.Workflow * option error.
Variable CreateServerDryRun :
  wfv1.Workflow -> WorkflowInterface -> result wfv1.Workflow.

Definition timeoutHint (name : string) : string :=
  "create request failed due to timeout, but it's possible that workflow "
  +:+ dquote +:+ name +:+ dquote +:+ " already exists. Original error: ".

(** [wfClient] is [auth.GetWfClient(ctx)]. *)
Definition CreateWorkflow (s : workflowServer) (ctx : Context)
    (wfClient : WorkflowInterface) (req : workflowpkg.WorkflowCreateRequest)
  : result wfv1.Workflow :=
  match workflowpkg.create_Workflow req with
  | None =>
      Err (ToStatusError (Some (errorString "workflow body not specified"))
             InvalidArgument)
  | Some wf =>
    let wf :=
      if String.eqb (wfv1.Namespace wf) ""
      then wfv1.withNamespace wf (workflowpkg.create_Namespace req) else wf in
    let wf := Label (instanceIDService s) wf in
    let wf := LabelCreator ctx wf in
    match ValidateWorkflow s ctx wf with
    | (_, Some err) => Err (ToStatusError (Some err) InvalidArgument)
    | (wf, None) =>
      (* if we are doing a normal dryRun, just return the workflow
         un-altered *)
      if match workflowpkg.create_CreateOptions req with
         | Some dryRun => 0 <? len dryRun
         | None => false
         end
      then Ok wf
      else if workflowpkg.create_ServerDryRun req then
        match CreateServerDryRun wf wfClient with
        | Err (Some err) => Err (ToStatusError (Some err) InvalidArgument)
        | r => r
        end
      else
        match wf_Create wfClient (workflowpkg.create_Namespace req) wf with
        | Err (Some err) =>
          if IsServerTimeout err
             && negb (String.eqb (wfv1.GenerateName wf) "")
             && negb (String.eqb (wfv1.Name wf) "")
          then
            Err (ToStatusError
                   (Some (wrapError (timeoutHint (wfv1.Name wf)) err))
                   DeadlineExceeded)
          else Err (ToStatusError (Some err) Internal)
        | r => r
        end
    end
  end.

End CreateWorkflow.

(** ** Lifecycle operations on the substrate *)

(** [sync.WaitGroup] and the buffered channel of [RetryWorkflow] are shared
    by the goroutines that delete the pods; the fan-out is a transition
    system over the states below, one transition per atomic action of a
    goroutine, in any interleaving. *)

(** A goroutine of the fan-out, by the point it has reached. *)
Inductive goroutine :=
| Spawned (podName : string)
    (* started, about to call Delete *)
| Deleted (podName : string) (err : option error)
    (* Delete has returned err *)
| Exiting (podName : string).
    (* about to run the deferred wg.Done() *)

(** [util.SetOperationValues]. *)
Record SetOperationValues := {
  op_Phase : wfv1.NodePhase;
  op_Message : string;
  op_OutputParameters : gmap string string
}.

Section Lifecycle.

(** The state of the orchestration substrate. *)
Variable Cluster : Type.

(** The workflow client in a given state of the substrate. *)
Variable clientAt : Cluster -> WorkflowInterface.

(** [Workflows(namespace).Update(ctx, wf, opts)] and
    [CoreV1().Pods(namespace).Delete(ctx, podName, opts)]. *)
Variable wf_Update :
  Cluster -> string -> wfv1.Workflow -> Cluster * result wfv1.Workflow.
Variable pods_Delete : Cluster -> string -> string -> Cluster * option error.

(** [util.SetWorkflow(ctx, wfIf, hydrator, name, nodeFieldSelector,
    operation)] and [util.FormulateRetryWorkflow(ctx, wf,
    restartSuccessful, nodeFieldSelector, parameters)], which returns
    [(wf, podsToDelete, err)], are not among the embedded files; nor is
    [json.Unmarshal] into a map of strings. *)
Variable util_SetWorkflow :
  Cluster -> string -> Hydrator -> string -> string -> SetOperationValues ->
  Cluster * option error.
Variable FormulateRetryWorkflow :
  wfv1.Workflow -> bool -> string -> list string ->
  wfv1.Workflow * list string * option error.
Variable json_Unmarshal : string -> gmap string string * option error.

(** The [switch] on the phase of [SetWorkflow]. *)
Definition phasePassesValidation (phaseToSet : wfv1.NodePhase) : bool :=
  String.eqb phaseToSet wfv1.NodeSucceeded
  || String.eqb phaseToSet wfv1.NodeFailed
  || String.eqb phaseToSet wfv1.NodeError
  || String.eqb phaseToSet "".

(** The pointer a caller holds after [wf, err := s.getWorkflow(...)] when
    [err] is [nil]. *)
Definition pointerOf {A} (r : result A) : option A :=
  match r with Ok a => Some a | _ => None end.

(** What [return wf, nil] hands back for a pointer that may be nil. *)
Definition returnPointer {A} (p : option A) : result A :=
  match p with Some a => Ok a | None => Err None end.

(** [wf, err = Workflows(namespace).Get(ctx, name, opts)], then
    [Internal] on an error, else [return wf, nil]. *)
Definition refetch (c : Cluster) (namespace name : string)
  : result wfv1.Workflow :=
  match wf_Get (clientAt c) namespace name emptyGetOptions with
  | (_, Some err) => Err (ToStatusError (Some err) Internal)
  | (wf, None) => returnPointer wf
  end.

Definition SetWorkflow (s : workflowServer) (ctx : Context) (c : Cluster)
    (req : workflowpkg.WorkflowSetRequest) : Cluster * result wfv1.Workflow :=
  let wfClient := clientAt c in
  match getWorkflow s ctx wfClient (workflowpkg.set_Namespace req)
          (workflowpkg.set_Name req) emptyGetOptions with
  | Err (Some err) => (c, Err (ToStatusError (Some err) Internal))
  | Panic => (c, Panic)
  | r =>
    let wf := pointerOf r in
    match validateWorkflow s wf with
    | Some err => (c, Err (ToStatusError (Some err) InvalidArgument))
    | None =>
      let phaseToSet : wfv1.NodePhase := workflowpkg.set_Phase req in
      if phasePassesValidation phaseToSet then
        (* Do nothing, passes validation *)
        let '(outputParams, err) :=
          if negb (String.eqb (workflowpkg.set_OutputParameters req) "")
          then json_Unmarshal (workflowpkg.set_OutputParameters req)
          else (∅, None) in
        match err with
        | Some err =>
            (c, Err (ToStatusError
                       (Some (errorString
                                ("unable to parse output parameter set request: "
                                 +:+ Error err)))
                       InvalidArgument))
        | None =>
          let operation :=
            {| op_Phase := phaseToSet;
               op_Message := workflowpkg.set_Message req;
               op_OutputParameters := outputParams |} in
          match wf with
          | None => (c, Panic)                   (* wf.Name on a nil workflow *)
          | Some wf =>
            match util_SetWorkflow c (workflowpkg.set_Namespace req)
                    (hydrator s) (wfv1.Name wf)
                    (workflowpkg.set_NodeFieldSelector req) operation with
            | (c', Some err) => (c', Err (ToStatusError (Some err) Internal))
            | (c', None) =>
                (c', refetch c' (workflowpkg.set_Namespace req) (wfv1.Name wf))
            end
          end
        end
      else
        (c, Err (ToStatusError
                   (Some (errorString
                            (workflowpkg.set_Phase req
                             +:+ " is an invalid phase to set to")))
                   InvalidArgument))
    end
  end.

(** *** [RetryWorkflow] *)

(** [errorFromChannel]: a non-blocking receive, [nil] if the channel is
    empty. The channel is the list of the values sent and not yet
    received, oldest first. *)
Definition errorFromChannel (errCh : list error) : option error :=
  head errCh.

(** Lines 447-465: everything before the fan-out. *)
Definition retryPrepare (s : workflowServer) (ctx : Context) (c : Cluster)
    (req : workflowpkg.WorkflowRetryRequest)
  : result (wfv1.Workflow * list string) :=
  match getWorkflow s ctx (clientAt c) (workflowpkg.retry_Namespace req)
          (workflowpkg.retry_Name req) emptyGetOptions with
  | Err (Some err) => Err (ToStatusError (Some err) Internal)
  | Panic => Panic
  | r =>
    match validateWorkflow s (pointerOf r) with
    | Some err => Err (ToStatusError (Some err) InvalidArgument)
    | None =>
      match pointerOf r with
      | None => Panic            (* the nil workflow is dereferenced *)
      | Some wf =>
        match Hydrate (hydrator s) wf with
        | (_, Some err) => Err (ToStatusError (Some err) Internal)
        | (wf, None) =>
          match FormulateRetryWorkflow wf
                  (workflowpkg.retry_RestartSuccessful req)
                  (workflowpkg.retry_NodeFieldSelector req)
                  (workflowpkg.retry_Parameters req) with
          | (_, _, Some err) => Err (ToStatusError (Some err) Internal)
          | (wf, podsToDelete, None) => Ok (wf, podsToDelete)
          end
        end
      end
    end
  end.

(** The state of the fan-out of lines 467-481. *)
Record fanout := {
  fo_cluster : Cluster;
  fo_toSpawn : list string;          (* what is left of the range loop *)
  fo_running : list goroutine;       (* the goroutines that have not returned *)
  fo_errCh : list error;             (* the content of errCh, oldest first *)
  fo_wg : nat;                       (* the counter of the WaitGroup *)
  fo_calls : list (string * option error)
                                     (* the Delete calls made, with their results *)
}.

(** After [errCh := make(chan error, len(podsToDelete))] and
    [wg.Add(len(podsToDelete))]. *)
Definition fanoutStart (c : Cluster) (podsToDelete : list string) : fanout :=
  {| fo_cluster := c; fo_toSpawn := podsToDelete; fo_running := [];
     fo_errCh := []; fo_wg := length podsToDelete; fo_calls := [] |}.

Section Fanout.

(** [wf.Namespace] and the capacity of [errCh]. *)
Variable namespace : string.
Variable capacity : nat.

Inductive fanoutStep : fanout -> fanout -> Prop :=
| step_go c podName rest running errCh wg calls :
    (* the main goroutine: go func(podName string) {...}(podName) *)
    fanoutStep
      {| fo_cluster := c; fo_toSpawn := podName :: rest;
         fo_running := running; fo_errCh := errCh; fo_wg := wg;
         fo_calls := calls |}
      {| fo_cluster := c; fo_toSpawn := rest;
         fo_running := running ++ [Spawned podName]; fo_errCh := errCh;
         fo_wg := wg; fo_calls := calls |}
| step_delete c c' podName err toSpawn r1 r2 errCh wg calls :
    (* err := kubeClient.CoreV1().Pods(wf.Namespace).Delete(...) *)
    pods_Delete c namespace podName = (c', err) ->
    fanoutStep
      {| fo_cluster := c; fo_toSpawn := toSpawn;
         fo_running := r1 ++ Spawned podName :: r2; fo_errCh := errCh;
         fo_wg := wg; fo_calls := calls |}
      {| fo_cluster := c'; fo_toSpawn := toSpawn;
         fo_running := r1 ++ Deleted podName err :: r2; fo_errCh := errCh;
         fo_wg := wg; fo_calls := calls ++ [(podName, err)] |}
| step_send c podName err toSpawn r1 r2 errCh wg calls :
    (* err != nil && !apierr.IsNotFound(err): errCh <- err; return.
       The send blocks while the buffer is full. *)
    IsNotFound err = false ->
    (length errCh < capacity)%nat ->
    fanoutStep
      {| fo_cluster := c; fo_toSpawn := toSpawn;
         fo_running := r1 ++ Deleted podName (Some err) :: r2;
         fo_errCh := errCh; fo_wg := wg; fo_calls := calls |}
      {| fo_cluster := c; fo_toSpawn := toSpawn;
         fo_running := r1 ++ Exiting podName :: r2;
         fo_errCh := errCh ++ [err]; fo_wg := wg; fo_calls := calls |}
| step_skip c podName err toSpawn r1 r2 errCh wg calls :
    (* err == nil or a not-found error: nothing is sent *)
    match err with Some e => IsNotFound e = true | None => True end ->
    fanoutStep
      {| fo_cluster := c; fo_toSpawn := toSpawn;
         fo_running := r1 ++ Deleted podName err :: r2;
         fo_errCh := errCh; fo_wg := wg; fo_calls := calls |}
      {| fo_cluster := c; fo_toSpawn := toSpawn;
         fo_running := r1 ++ Exiting podName :: r2;
         fo_errCh := errCh; fo_wg := wg; fo_calls := calls |}
| step_done c podName toSpawn r1 r2 errCh wg calls :
    (* defer wg.Done() *)
    fanoutStep
      {| fo_cluster := c; fo_toSpawn := toSpawn;
         fo_running := r1 ++ Exiting podName :: r2;
         fo_errCh := errCh; fo_wg := S wg; fo_calls := calls |}
      {| fo_cluster := c; fo_toSpawn := toSpawn;
         fo_running := r1 ++ r2;
         fo_errCh := errCh; fo_wg := wg; fo_calls := calls |}.

(** Executions of the fan-out. *)
Inductive fanoutSteps : fanout -> fanout -> Prop :=
| steps_refl st : fanoutSteps st st
| steps_step st1 st2 st3 :
    fanoutStep st1 st2 -> fanoutSteps st2 st3 -> fanoutSteps st1 st3.

(** [wg.Wait()] returns: the loop is over and the counter is zero. *)
Definition pastBarrier (st : fanout) : Prop :=
  fo_toSpawn st = [] /\ fo_wg st = 0%nat.

End Fanout.

(** Lines 483-498: after the barrier. *)
Definition retryFinish (s : workflowServer)
    (req : workflowpkg.WorkflowRetryRequest) (wf : wfv1.Workflow)
    (st : fanout) : Cluster * result wfv1.Workflow :=
  let c := fo_cluster st in
  match errorFromChannel (fo_errCh st) with
  | Some err => (c, Err (ToStatusError (Some err) Internal))
  | None =>
    match Dehydrate (hydrator s) wf with
    | (_, Some err) => (c, Err (ToStatusError (Some err) Internal))
    | (wf, None) =>
      match wf_Update c (workflowpkg.retry_Namespace req) wf with
      | (c', Err (Some err)) => (c', Err (ToStatusError (Some err) Internal))
      | (c', r) => (c', r)
      end
    end
  end.

(** [RetryWorkflow]: from the state [c] of the substrate, the calls to
    Delete that were made, the state left behind and what is returned. *)
Inductive RetryWorkflow (s : workflowServer) (ctx : Context) (c : Cluster)
    (req : workflowpkg.WorkflowRetryRequest)
  : list (string * option error) -> Cluster -> result wfv1.Workflow -> Prop :=
| retry_rejected r :
    retryPrepare s ctx c req = r ->
    pointerOf r = None ->
    RetryWorkflow s ctx c req [] c
      (match r with Err e => Err e | _ => Panic end)
| retry_fanned_out wf podsToDelete st c' r :
    retryPrepare s ctx c req = Ok (wf, podsToDelete) ->
    fanoutSteps (wfv1.Namespace wf) (length podsToDelete)
      (fanoutStart c podsToDelete) st ->
    pastBarrier st ->
    retryFinish s req wf st = (c', r) ->
    RetryWorkflow s ctx c req (fo_calls st) c' r.

End Lifecycle.

(** How a call that does not return a value ends. *)
Inductive exit :=
| exitReturn (err : option error)
| exitPanic.

(** ** [WatchWorkflows] *)

(** [watch.Event]: the object is a workflow or something else, which
    [apierr.FromObject] turns into an error. *)
Inductive runtimeObject :=
| objWorkflow (wf : wfv1.Workflow)
| objOther (fromObject : error).

Record Event := {
  ev_Type : string;
  ev_Object : runtimeObject
}.

Record WorkflowWatchEvent := {
  wwe_Type : string;
  wwe_Object : wfv1.Workflow
}.

(** The case a [select] of the loop takes. *)
Inductive selected :=
| ctxDone                       (* <-ctx.Done() *)
| received (event : Event)      (* event, open := <-watch.ResultChan(), open *)
| closed.                       (* the same receive with open == false *)

Section WatchWorkflows.

(** The state of the stream [ws] to the caller. *)
Variable Stream : Type.
Variable ws_SendHeader : Stream -> Stream * option error.
Variable ws_Send : Stream -> WorkflowWatchEvent -> Stream * option error.

Variable NewCleaner : string -> Cleaner.
Variable WithoutPrefix : Cleaner -> string -> Cleaner.
Variable RecoverWorkflowNameFromSelectorStringIfAny : string -> string.
Variable GenerateFieldSelectorFromWorkflowName : string -> string.

(** The closure [clean]. *)
Definition clean (cleaner : Cleaner) (x : wfv1.Workflow)
  : wfv1.Workflow * option error :=
  match CleanWorkflow cleaner x with
  | (_, _, Some err) => (x, ToStatusError (Some err) Internal)
  | (true, y, None) => (y, None)
  | (false, _, None) => (x, None)
  end.

(** Lines 338-357: one event. [None] is another turn of the loop. *)
Definition watchEvent (s : workflowServer) (cleaner : Cleaner) (ws : Stream)
    (event : Event) : Stream * option exit :=
  match ev_Object event with
  | objOther fromObject =>
      (* object is probably metav1.Status, FromObject can deal with
         anything *)
      (ws, Some (exitReturn (ToStatusError (Some fromObject) Internal)))
  | objWorkflow wf =>
    let '(wf, err) :=
      if negb (WillExclude cleaner "status.nodes")
      then Hydrate (hydrator s) wf else (wf, None) in
    match err with
    | Some err => (ws, Some (exitReturn (ToStatusError (Some err) Internal)))
    | None =>
      match clean cleaner wf with
      | (_, Some err) =>
          (ws, Some (exitReturn
                       (ToStatusError
                          (Some (wrapError "unable to CleanFields in request: " err))
                          Internal)))
      | (newWf, None) =>
        match ws_Send ws {| wwe_Type := ev_Type event; wwe_Object := newWf |} with
        | (ws', Some err) =>
            (ws', Some (exitReturn (ToStatusError (Some err) Internal)))
        | (ws', None) => (ws', None)
        end
      end
    end
  end.

(** Lines 330-359: the loop, along the cases its [select]s take. [None]:
    the loop is blocked in a [select] at the end of the trace. *)
Fixpoint watchLoop (s : workflowServer) (cleaner : Cleaner) (ws : Stream)
    (trace : list selected) : Stream * option exit :=
  match trace with
  | [] => (ws, None)
  | ctxDone :: _ => (ws, Some (exitReturn None))
  | closed :: _ =>
      (ws, Some (exitReturn (ToStatusError (Some io_EOF) ResourceExhausted)))
  | received event :: trace =>
    match watchEvent s cleaner ws event with
    | (ws', Some e) => (ws', Some e)
    | (ws', None) => watchLoop s cleaner ws' trace
    end
  end.

(** Lines 284-297: the options of the watch, an alias in the field
    selector resolved. *)
Definition watchOptions (s : workflowServer) (ctx : Context)
    (wfClient : WorkflowInterface) (req : workflowpkg.WatchWorkflowsRequest)
  : metav1.ListOptions + exit :=
  match workflowpkg.watch_ListOptions req with
  | None => inl metav1.emptyListOptions
  | Some opts =>
    let wfName :=
      RecoverWorkflowNameFromSelectorStringIfAny (metav1.FieldSelector opts) in
    if negb (String.eqb wfName "") then
      (* If we are using an alias (such as `@latest`) we need to
         dereference it. s.getWorkflow does that for us *)
      match getWorkflow s ctx wfClient (workflowpkg.watch_Namespace req)
              wfName emptyGetOptions with
      | Err (Some err) => inr (exitReturn (ToStatusError (Some err) Internal))
      | Err None => inr exitPanic          (* wf.Name on a nil workflow *)
      | Panic => inr exitPanic
      | Ok wf =>
          inl (metav1.withFieldSelector opts
                 (GenerateFieldSelectorFromWorkflowName (wfv1.Name wf)))
      end
    else inl opts
  end.

(** [wfClient] is [auth.GetWfClient(ctx)]. *)
Definition WatchWorkflows (s : workflowServer) (ctx : Context)
    (wfClient : WorkflowInterface) (req : workflowpkg.WatchWorkflowsRequest)
    (ws : Stream) (trace : list selected) : Stream * option exit :=
  match watchOptions s ctx wfClient req with
  | inr e => (ws, Some e)
  | inl opts =>
    let opts := With (instanceIDService s) opts in
    match wf_Watch wfClient (workflowpkg.watch_Namespace req) opts with
    | Some err => (ws, Some (exitReturn (ToStatusError (Some err) Internal)))
    | None =>
      let cleaner :=
        WithoutPrefix (NewCleaner (workflowpkg.watch_Fields req))
          "result.object." in
      (* Eagerly send the headers *)
      match ws_SendHeader ws with
      | (ws', Some err) => (ws', Some (exitReturn (Some err)))
      | (ws', None) => watchLoop s cleaner ws' trace
      end
    end
  end.

End WatchWorkflows.

(** ** The archive retry command: [retryArchivedWorkflows] *)

Module archive.

Record retryOps := {
  nodeFieldSelector : string;        (* --node-field-selector *)
  restartSuccessful : bool;          (* --restart-successful *)
  namespace : string;                (* --namespace *)
  labelSelector : string;            (* --selector *)
  fieldSelector : string             (* --field-selector *)
}.

(** [hasSelector] returns true if the CLI arguments selects multiple
    workflows. *)
Definition hasSelector (o : retryOps) : bool :=
  if negb (String.eqb (labelSelector o) "") || negb (String.eqb (fieldSelector o) "")
  then true else false.

(** [common.CliSubmitOpts], as far as the command reads it. *)
Record CliSubmitOpts := {
  Parameters : list string;
  Output : string;
  Wait : bool;
  Watch : bool;
  Log : bool
}.

Record RetryArchivedWorkflowRequest := {
  req_Uid : string;
  req_Namespace : string;
  req_Name : string;
  req_RestartSuccessful : bool;
  req_NodeFieldSelector : string;
  req_Parameters : list string
}.

(** What the command does to the outside, in order. *)
Inductive call :=
| callRetry (req : RetryArchivedWorkflowRequest)
    (* archiveServiceClient.RetryArchivedWorkflow(ctx, req) *)
| callPrint (wf : option wfv1.Workflow) (output : string)
    (* printWorkflow(lastRetried, output) *)
| callWaitWatchOrLog (namespace : string) (names : list string).
    (* common.WaitWatchOrLog(ctx, serviceClient, namespace, names, opts) *)

(** The workflow the command makes of an argument. *)
Definition workflowOfUID (uid ns : string) : wfv1.Workflow :=
  {| wfv1.Name := ""; wfv1.GenerateName := ""; wfv1.Namespace := ns;
     wfv1.UID := uid; wfv1.CreationTimestamp := 0; wfv1.FinishedAt := 0;
     wfv1.OffloadNodeStatusVersion := ""; wfv1.StatusNodes := ∅ |}.

Section RetryArchived.

(** The state of the server the command talks to. *)
Variable Server : Type.

(** [fields.ParseSelector(s)] with the [String()] of the selector,
    [listArchivedWorkflows(ctx, client, fieldSelector, labelSelector,
    limit)] of the same package, the two service clients. *)
Variable ParseSelector : string -> string * option error.
Variable listArchivedWorkflows :
  Server -> string -> string -> Z -> wfv1.Workflows * option error.
Variable RetryArchivedWorkflow :
  Server -> RetryArchivedWorkflowRequest ->
  Server * (option wfv1.Workflow * option error).
Variable WaitWatchOrLog :
  Server -> string -> list string -> CliSubmitOpts -> Server * option error.

(** The variables of the loop of lines 129-150. *)
Record loopState := {
  server : Server;
  lastRetried : option wfv1.Workflow;
  retriedUids : gmap string bool;
  calls : list call
}.

(** The loop: [inr err] is the [return err] inside it. *)
Fixpoint retryEach (retryOpts : retryOps) (selector : string)
    (cliSubmitOpts : CliSubmitOpts) (wfs : list wfv1.Workflow)
    (st : loopState) : loopState * option error :=
  match wfs with
  | [] => (st, None)
  | wf :: wfs =>
    match retriedUids st !! wfv1.UID wf with
    | Some _ =>
        (* de-duplication in case there is an overlap between the selector
           and given workflow names *)
        retryEach retryOpts selector cliSubmitOpts wfs st
    | None =>
      let retried := <[wfv1.UID wf := true]> (retriedUids st) in
      let req :=
        {| req_Uid := wfv1.UID wf; req_Namespace := wfv1.Namespace wf;
           req_Name := wfv1.Name wf;
           req_RestartSuccessful := restartSuccessful retryOpts;
           req_NodeFieldSelector := selector;
           req_Parameters := Parameters cliSubmitOpts |} in
      let '(srv, (last, err)) := RetryArchivedWorkflow (server st) req in
      match err with
      | Some err =>
          ({| server := srv; lastRetried := last; retriedUids := retried;
              calls := calls st ++ [callRetry req] |}, Some err)
      | None =>
          retryEach retryOpts selector cliSubmitOpts wfs
            {| server := srv; lastRetried := last; retriedUids := retried;
               calls := calls st ++ [callRetry req;
                                     callPrint last (Output cliSubmitOpts)] |}
      end
    end
  end.

(** [retryArchivedWorkflows] retries workflows by given retryArgs or
    workflow names. It yields the state of the server, the calls made
    and how the command ends. *)
Definition retryArchivedWorkflows (srv : Server) (retryOpts : retryOps)
    (cliSubmitOpts : CliSubmitOpts) (args : list string)
  : Server * list call * exit :=
  match ParseSelector (nodeFieldSelector retryOpts) with
  | (_, Some err) =>
      (srv, [],
       exitReturn
         (Some (errorString
                  ("unable to parse node field selector '"
                   +:+ nodeFieldSelector retryOpts +:+ "': " +:+ Error err))))
  | (selector, None) =>
    match
      if hasSelector retryOpts
      then listArchivedWorkflows srv (fieldSelector retryOpts)
             (labelSelector retryOpts) 0
      else ([], None)
    with
    | (_, Some err) => (srv, [], exitReturn (Some err))
    | (wfs, None) =>
      let wfs := wfs ++ map (fun uid => workflowOfUID uid (namespace retryOpts)) args in
      let st0 := {| server := srv; lastRetried := None; retriedUids := ∅;
                    calls := [] |} in
      match retryEach retryOpts selector cliSubmitOpts wfs st0 with
      | (st, Some err) => (server st, calls st, exitReturn (Some err))
      | (st, None) =>
        if decide (size (retriedUids st) = 1%nat) then
          (* watch or wait when there is only one workflow retried *)
          match lastRetried st with
          | None => (server st, calls st, exitPanic)
              (* lastRetried.Namespace on a nil workflow *)
          | Some last =>
            let '(srv', err) :=
              WaitWatchOrLog (server st) (wfv1.Namespace last)
                [wfv1.Name last] cliSubmitOpts in
            (srv',
             calls st ++ [callWaitWatchOrLog (wfv1.Namespace last) [wfv1.Name last]],
             exitReturn err)
          end
        else (server st, calls st, exitReturn None)
      end
    end
  end.

End RetryArchived.

End archive.

(** ** Source adapters over a fixed data set *)

Section FixedData.

Variable BuildListOptions :
  metav1.ListOptions -> string -> string -> string -> string -> string ->
  sutils.ListOptions * option error.

(** Modelled from the spec: the page a source adapter returns from the
    workflows [data] that match the filter of the query, held fixed. A
    limit of 0 is unlimited and the unlimited page returns everything;
    so does a limit below 0, which is no limit either. Otherwise the page
    starts at the offset and has at most [limit] items. *)
Definition pageOf (data : wfv1.Workflows) (limit offset : Z) : wfv1.Workflows :=
  if limit <=? 0 then data
  else take (Z.to_nat limit) (drop (Z.to_nat offset) data).

(** Modelled from the spec: the live-source adapter (count and list of
    [server/workflow/store]), which reads offset and limit off the list
    options of the request as the server does. *)
Definition fixedLister (resourceVersion : string) (live : wfv1.Workflows)
  : WorkflowLister :=
  {| lister_ListWorkflows ns nameFilter createdAfter finishedBefore listOption :=
       match BuildListOptions listOption ns "" nameFilter createdAfter
               finishedBefore with
       | (_, Some err) => Err (Some err)
       | (options, None) =>
           Ok {| wfv1.ListMeta :=
                   {| metav1.ResourceVersion := resourceVersion;
                      metav1.ContinueToken := "";
                      metav1.RemainingItemCount := None |};
                 wfv1.Items :=
                   pageOf live (sutils.Limit options) (sutils.Offset options) |}
       end;
     lister_CountWorkflows _ _ _ _ _ := (len live, None) |}.

(** Modelled from the spec: the archive-source adapter (count, list and
    get of [persist/sqldb]). *)
Definition fixedArchive (archived : wfv1.Workflows) : WorkflowArchive :=
  {| archive_ListWorkflows options :=
       (pageOf archived (sutils.Limit options) (sutils.Offset options), None);
     archive_CountWorkflows _ := (len archived, None);
     archive_GetWorkflow _ ns name :=
       match
         filter (fun wf => wfv1.Namespace wf = ns /\ wfv1.Name wf = name) archived
       with
       | wf :: _ => (Some wf, None)
       | [] => (None, Some (errorString "not found"))
       end |}.

End FixedData.

(** ** Collaborators of the examples *)

Module Examples.

(** A decimal string as a number, [None] if it is not one. *)
Fixpoint atoi (s : string) (acc : Z) : option Z :=
  match s with
  | EmptyString => Some acc
  | String a s =>
      let d := Z.of_nat (Ascii.nat_of_ascii a) - 48 in
      if (0 <=? d) && (d <=? 9) then atoi s (10 * acc + d) else None
  end.

(** A builder of list options: the continue token is the offset, the field
    selector [ext.showRemainingItemCount=true] asks for the remaining
    count. *)
Definition buildListOptions (o : metav1.ListOptions)
    (ns namePrefix nameFilter createdAfter finishedBefore : string)
  : sutils.ListOptions * option error :=
  let mk offset :=
    {| sutils.Namespace := ns; sutils.NameFilter := nameFilter;
       sutils.CreatedAfter := createdAfter;
       sutils.FinishedBefore := finishedBefore;
       sutils.LabelRequirements := metav1.LabelSelector o;
       sutils.Limit := metav1.Limit o; sutils.Offset := offset;
       sutils.ShowRemainingItemCount :=
         String.eqb (metav1.FieldSelector o) "ext.showRemainingItemCount=true" |} in
  match atoi (metav1.Continue o) 0 with
  | Some offset => (mk offset, None)
  | None =>
      (mk 0, Some (statusError InvalidArgument "listOptions.continue must be int"))
  end.

Definition noCleaner : Cleaner :=
  {| WillExclude _ := false;
     CleanList l := (false, l, None);
     CleanWorkflow wf := (false, wf, None) |}.

Definition newCleaner (fields : string) : Cleaner := noCleaner.

(** Completion time descending, workflows that have not completed first. *)
Definition less (a b : wfv1.Workflow) : bool :=
  if metav1.IsZero (wfv1.FinishedAt a) then
    if metav1.IsZero (wfv1.FinishedAt b)
    then negb (metav1.Before (wfv1.CreationTimestamp a) (wfv1.CreationTimestamp b))
    else true
  else
    if metav1.IsZero (wfv1.FinishedAt b) then false
    else metav1.Before (wfv1.FinishedAt b) (wfv1.FinishedAt a).

Definition workflow (name : string) (created finished : Z) : wfv1.Workflow :=
  {| wfv1.Name := name; wfv1.GenerateName := ""; wfv1.Namespace := "ns1";
     wfv1.UID := name; wfv1.CreationTimestamp := created;
     wfv1.FinishedAt := finished; wfv1.OffloadNodeStatusVersion := "";
     wfv1.StatusNodes := ∅ |}.

Definition server (live archived : wfv1.Workflows) : workflowServer :=
  {| instanceIDService :=
       {| With o := o; Label wf := wf; Validate _ := None |};
     offloadNodeStatusRepo :=
       {| IsEnabled := false; offload_List _ := (∅, None) |};
     hydrator := {| Hydrate wf := (wf, None); Dehydrate wf := (wf, None) |};
     wfArchive := fixedArchive archived;
     wfLister := fixedLister buildListOptions "1" live;
     wfReflector := None |}.

Definition allowAll : Context := {| CanI _ _ _ _ := (true, None) |}.
Definition denyAll : Context := {| CanI _ _ _ _ := (false, None) |}.

Definition listRequest (limit : Z) (continue : string)
  : workflowpkg.WorkflowListRequest :=
  {| workflowpkg.Namespace := "ns1";
     workflowpkg.ListOptions :=
       Some {| metav1.LabelSelector := "";
               metav1.FieldSelector := "ext.showRemainingItemCount=true";
               metav1.Limit := limit; metav1.Continue := continue |};
     workflowpkg.Fields := ""; workflowpkg.NameFilter := "";
     workflowpkg.CreatedAfter := ""; workflowpkg.FinishedBefore := "" |}.

(** The scenario of the specification: one archived workflow, two live
    ones, of which one is running. *)
Definition wf_a := workflow "a" 10 20.
Definition wf_b := workflow "b" 30 40.
Definition wf_c := workflow "c" 50 0.

Definition list (live archived : wfv1.Workflows) (limit : Z) (continue : string) :=
  ListWorkflows buildListOptions newCleaner less (server live archived) allowAll
    (listRequest limit continue).

(** The lists of the scenario, by limit and continue token. *)
Definition scenarioServer : workflowServer := server [wf_b; wf_c] [wf_a].
Definition scenario : Z -> string -> result wfv1.WorkflowList :=
  list [wf_b; wf_c] [wf_a].

Definition page (resourceVersion continue : string) (remaining : Z)
    (items : wfv1.Workflows) : wfv1.WorkflowList :=
  {| wfv1.ListMeta :=
       {| metav1.ResourceVersion := resourceVersion;
          metav1.ContinueToken := continue;
          metav1.RemainingItemCount := Some remaining |};
     wfv1.Items := items |}.

End Examples.

(** * Properties *)

(** ** Machine integers and lists *)

Lemma wrap64_small z : - 2 ^ 63 <= z < 2 ^ 63 -> wrap64 z = z.
Proof. intros H. unfold wrap64. rewrite Z.mod_small; lia. Qed.

Lemma len_nonneg {A} (l : list A) : 0 <= len l.
Proof. unfold len. lia. Qed.

Lemma len_app {A} (l k : list A) : len (l ++ k) = len l + len k.
Proof. unfold len. rewrite length_app. lia. Qed.

Lemma len_map {A B} (f : A -> B) (l : list A) : len (map f l) = len l.
Proof. unfold len. now rewrite length_map. Qed.

Lemma len_Permutation {A} (l k : list A) : l ≡ₚ k -> len l = len k.
Proof. intros H. unfold len. now rewrite (Permutation_length H). Qed.

(** ** A sorted page is a rearrangement of the page *)

Lemma insertLeft_Permutation Less x rp : insertLeft Less x rp ≡ₚ x :: rp.
Proof.
  induction rp as [|y rp IH]; simpl; [reflexivity|].
  destruct (Less x y); [|reflexivity].
  rewrite IH. apply Permutation_swap.
Qed.

Lemma sort_Sort_Permutation Less wfs : sort_Sort Less wfs ≡ₚ wfs.
Proof.
  unfold sort_Sort. rewrite <- Permutation_rev.
  enough (H : forall acc,
             fold_left (fun rp x => insertLeft Less x rp) wfs acc ≡ₚ wfs ++ acc).
  { rewrite H, app_nil_r. reflexivity. }
  induction wfs as [|x wfs IH]; intros acc; simpl; [reflexivity|].
  rewrite IH, insertLeft_Permutation. now rewrite Permutation_middle.
Qed.

Lemma len_sort_Sort Less wfs : len (sort_Sort Less wfs) = len wfs.
Proof. apply len_Permutation, sort_Sort_Permutation. Qed.

(** The decimal form of a number is never the empty string. *)
Lemma pretty_N_go_nonempty (x : N) (s : string) :
  s <> EmptyString -> pretty_N_go x s <> EmptyString.
Proof.
  revert s. induction (N.lt_wf_0 x) as [x _ IH]; intros s Hs.
  destruct (decide (x = 0%N)) as [->|Hx].
  - now rewrite pretty_N_go_0.
  - rewrite pretty_N_go_step by lia.
    apply IH; [|discriminate].
    apply N.div_lt; lia.
Qed.

Lemma pretty_N_nonempty (x : N) : pretty x <> EmptyString.
Proof.
  unfold pretty, pretty_N. destruct (decide (x = 0%N)) as [->|Hx]; [discriminate|].
  rewrite pretty_N_go_step by lia. apply pretty_N_go_nonempty. discriminate.
Qed.

Lemma pretty_Z_nonempty (z : Z) : pretty z <> EmptyString.
Proof.
  destruct z as [|p|p]; unfold pretty, pretty_Z; [discriminate| |discriminate].
  apply (pretty_N_nonempty (Npos p)).
Qed.

(** The scenario of the specification. *)
Example scenario_first_page :
  Examples.list [Examples.wf_b; Examples.wf_c] [Examples.wf_a] 2 "0"
  = Ok {| wfv1.ListMeta :=
            {| metav1.ResourceVersion := "1"; metav1.ContinueToken := "2";
               metav1.RemainingItemCount := Some 1 |};
          wfv1.Items := [Examples.wf_c; Examples.wf_b] |}.
Proof. vm_compute. reflexivity. Qed.

Example scenario_second_page :
  Examples.list [Examples.wf_b; Examples.wf_c] [Examples.wf_a] 2 "2"
  = Ok {| wfv1.ListMeta :=
            {| metav1.ResourceVersion := ""; metav1.ContinueToken := "";
               metav1.RemainingItemCount := Some 0 |};
          wfv1.Items := [Examples.wf_a] |}.
Proof. vm_compute. reflexivity. Qed.

(** ** The hybrid paginator *)

Section ListWorkflowsProperties.

Variable BuildListOptions :
  metav1.ListOptions -> string -> string -> string -> string -> string ->
  sutils.ListOptions * option error.
Variable NewCleaner : string -> Cleaner.
Variable Less : wfv1.Workflow -> wfv1.Workflow -> bool.

(** The list options the server passes on for a request. *)
Definition listOptionOf (s : workflowServer)
    (req : workflowpkg.WorkflowListRequest) : metav1.ListOptions :=
  With (instanceIDService s)
    (default metav1.emptyListOptions (workflowpkg.ListOptions req)).

(** The request is well formed and [options] is what is built from it. *)
Definition builds (s : workflowServer) (req : workflowpkg.WorkflowListRequest)
    (options : sutils.ListOptions) : Prop :=
  BuildListOptions (listOptionOf s req) (workflowpkg.Namespace req) ""
    (workflowpkg.NameFilter req) (workflowpkg.CreatedAfter req)
    (workflowpkg.FinishedBefore req) = (options, None).

(** The caller may list, and the two sources count [liveWfCount] and
    [archivedCount] workflows for the filter of the request. *)
Definition counts (s : workflowServer) (ctx : Context)
    (req : workflowpkg.WorkflowListRequest) (options : sutils.ListOptions)
    (liveWfCount archivedCount : Z) : Prop :=
  CanI ctx "list" WorkflowPlural (sutils.Namespace options) "" = (true, None)
  /\ lister_CountWorkflows (wfLister s) (workflowpkg.Namespace req)
       (workflowpkg.NameFilter req) (workflowpkg.CreatedAfter req)
       (workflowpkg.FinishedBefore req) (listOptionOf s req)
     = (liveWfCount, None)
  /\ archive_CountWorkflows (wfArchive s) options = (archivedCount, None).

(** The request asks for no field projection. *)
Definition noProjection (req : workflowpkg.WorkflowListRequest) : Prop :=
  forall l, CleanList (NewCleaner (workflowpkg.Fields req)) l = (false, l, None).

(** What [ListWorkflows] does once the options are built, the permission
    is granted and the counts are known. *)
Definition listPage (s : workflowServer) (req : workflowpkg.WorkflowListRequest)
    (options : sutils.ListOptions) (liveWfCount archivedCount : Z)
  : result wfv1.WorkflowList :=
  let* liveWfList := fetchLive s req (listOptionOf s req) options liveWfCount in
  let* archivedWfList := fetchArchived s options liveWfCount liveWfList in
  let wfs := wfv1.Items liveWfList ++ archivedWfList in
  let* wfs' := loadOffloaded s (NewCleaner (workflowpkg.Fields req)) req wfs in
  Ok {| wfv1.ListMeta :=
          listMeta s options (int64_add liveWfCount archivedCount) liveWfList wfs;
        wfv1.Items := sort_Sort Less wfs' |}.

Lemma ListWorkflows_listPage s ctx req options liveWfCount archivedCount :
  builds s req options ->
  counts s ctx req options liveWfCount archivedCount ->
  noProjection req ->
  ListWorkflows BuildListOptions NewCleaner Less s ctx req
  = listPage s req options liveWfCount archivedCount.
Proof.
  intros Hb (Hcan & Hlive & Harch) Hclean.
  unfold ListWorkflows, listPage, builds, listOptionOf in *.
  rewrite Hb, Hcan. cbn [orStatus bind negb].
  rewrite Hlive, Harch. cbn [orStatus bind].
  destruct (fetchLive _ _ _ _ _) as [liveWfList| |]; cbn [bind]; try reflexivity.
  destruct (fetchArchived _ _ _ _) as [archivedWfList| |]; cbn [bind];
    try reflexivity.
  destruct (loadOffloaded _ _ _ _) as [wfs'| |]; cbn [bind]; try reflexivity.
  now rewrite Hclean.
Qed.

Lemma loadOffloaded_len s cleaner req wfs wfs' :
  loadOffloaded s cleaner req wfs = Ok wfs' -> len wfs' = len wfs.
Proof.
  unfold loadOffloaded. destruct (_ && _).
  - destruct (offload_List _ _) as [m [e|]]; cbn; [discriminate|].
    intros [= <-]. apply len_map.
  - now intros [= <-].
Qed.

(** The page of a reply and its metadata. *)
Lemma listPage_inv s req options liveWfCount archivedCount res :
  listPage s req options liveWfCount archivedCount = Ok res ->
  exists liveWfList archivedWfList,
    fetchLive s req (listOptionOf s req) options liveWfCount = Ok liveWfList
    /\ fetchArchived s options liveWfCount liveWfList = Ok archivedWfList
    /\ len (wfv1.Items res) = len (wfv1.Items liveWfList ++ archivedWfList)
    /\ wfv1.ListMeta res
       = listMeta s options (int64_add liveWfCount archivedCount) liveWfList
           (wfv1.Items liveWfList ++ archivedWfList).
Proof.
  unfold listPage.
  destruct (fetchLive _ _ _ _ _) as [liveWfList| |] eqn:Hlive; cbn [bind];
    try discriminate.
  destruct (fetchArchived _ _ _ _) as [archivedWfList| |] eqn:Harch; cbn [bind];
    try discriminate.
  destruct (loadOffloaded _ _ _ _) as [wfs'| |] eqn:Hoff; cbn [bind];
    try discriminate.
  intros [= <-]. exists liveWfList, archivedWfList.
  cbn [wfv1.Items wfv1.ListMeta]. repeat split; try assumption.
  rewrite len_sort_Sort. eapply loadOffloaded_len, Hoff.
Qed.

(** C3. The remaining count of a reply is
    [max(0, total - offset - len(page))] with
    [total = liveCount + archiveCount]; the reply carries a continuation
    token if and only if the remaining count is positive, and the token is
    then the decimal form of [offset + len(page)]; the remaining count is
    attached exactly when the request asked for it. The counts, the offset
    and the length of the page are those of a store: they are not negative
    and below 2^62. *)
Theorem ListWorkflows_remaining_and_continue
    s ctx req options liveWfCount archivedCount res :
  builds s req options ->
  counts s ctx req options liveWfCount archivedCount ->
  noProjection req ->
  0 <= liveWfCount < 2 ^ 62 ->
  0 <= archivedCount < 2 ^ 62 ->
  0 <= sutils.Offset options < 2 ^ 62 ->
  ListWorkflows BuildListOptions NewCleaner Less s ctx req = Ok res ->
  len (wfv1.Items res) < 2 ^ 62 ->
  let page := wfv1.Items res in
  let total := liveWfCount + archivedCount in
  let remaining := Z.max 0 (total - sutils.Offset options - len page) in
  (metav1.ContinueToken (wfv1.ListMeta res) <> EmptyString <-> 0 < remaining)
  /\ (0 < remaining ->
      metav1.ContinueToken (wfv1.ListMeta res)
      = pretty (sutils.Offset options + len page))
  /\ metav1.RemainingItemCount (wfv1.ListMeta res)
     = if sutils.ShowRemainingItemCount options then Some remaining else None.
Proof.
  intros Hb Hc Hclean Hl Ha Ho Hres Hlen page total remaining.
  rewrite (ListWorkflows_listPage _ _ _ _ _ _ Hb Hc Hclean) in Hres.
  apply listPage_inv in Hres as (liveWfList & archivedWfList & _ & _ & Hpage & ->).
  unfold listMeta.
  cbn [metav1.ContinueToken metav1.RemainingItemCount]. rewrite <- Hpage.
  pose proof (len_nonneg (wfv1.Items res)) as Hp.
  subst remaining total page. revert Hp Hlen.
  generalize (len (wfv1.Items res)) as n. intros n Hp Hlen.
  unfold int64_add, int64_sub.
  rewrite (wrap64_small (liveWfCount + archivedCount)) by lia.
  rewrite (wrap64_small (liveWfCount + archivedCount - _)) by lia.
  rewrite (wrap64_small (liveWfCount + archivedCount - _ - _)) by lia.
  rewrite (wrap64_small (_ + n)) by lia.
  set (r := liveWfCount + archivedCount - sutils.Offset options - n).
  destruct (Z.ltb_spec r 0) as [Hneg|Hneg].
  - rewrite Z.max_l by lia. cbn. repeat split; try tauto; lia.
  - rewrite Z.max_r by lia.
    destruct (Z.ltb_spec 0 r) as [Hpos|Hpos].
    + repeat split; auto using pretty_Z_nonempty.
    + repeat split; try tauto; lia.
Qed.

End ListWorkflowsProperties.

Section UnlimitedPage.

Variable BuildListOptions :
  metav1.ListOptions -> string -> string -> string -> string -> string ->
  sutils.ListOptions * option error.
Variable NewCleaner : string -> Cleaner.
Variable Less : wfv1.Workflow -> wfv1.Workflow -> bool.

(** The offload store, if it is read, answers. *)
Definition offloadLoads (s : workflowServer)
    (req : workflowpkg.WorkflowListRequest) : Prop :=
  snd (offload_List (offloadNodeStatusRepo s) (workflowpkg.Namespace req)) = None.

(** The contract of an unlimited page, for the live source: asked with the
    list options of a request without limit, it returns the workflows
    [live], which are all those that match the filter of the request. *)
Definition liveReturnsEverything (s : workflowServer)
    (req : workflowpkg.WorkflowListRequest) (live : wfv1.Workflows) : Prop :=
  exists l,
    lister_ListWorkflows (wfLister s) (workflowpkg.Namespace req)
      (workflowpkg.NameFilter req) (workflowpkg.CreatedAfter req)
      (workflowpkg.FinishedBefore req)
      (listOptionOf s req) = Ok l
    /\ wfv1.Items l = live.

(** The same contract for the archive: asked without a limit (a limit
    that is not positive), it returns the workflows [archived], which are
    all those that match the filter. *)
Definition archiveReturnsEverything (s : workflowServer)
    (options : sutils.ListOptions) (archived : wfv1.Workflows) : Prop :=
  forall limit offset,
    limit <= 0 ->
    archive_ListWorkflows (wfArchive s)
      (sutils.WithOffset (sutils.WithLimit options limit) offset)
    = (archived, None).

(** What the reply shows of the workflows [wfs]: each one as it is, or,
    where node maps are offloaded and the fields asked for include them,
    with its node map filled in from the offload store. *)
Definition withNodesLoaded (s : workflowServer)
    (req : workflowpkg.WorkflowListRequest) (wfs : wfv1.Workflows)
  : wfv1.Workflows :=
  if IsEnabled (offloadNodeStatusRepo s) &&
     negb (WillExclude (NewCleaner (workflowpkg.Fields req)) "items.status.nodes")
  then
    map (fillOffloaded s
           (fst (offload_List (offloadNodeStatusRepo s) (workflowpkg.Namespace req))))
      wfs
  else wfs.

Lemma loadOffloaded_ok s cleaner req wfs :
  offloadLoads s req ->
  exists wfs', loadOffloaded s cleaner req wfs = Ok wfs'.
Proof.
  unfold offloadLoads, loadOffloaded. intros H.
  destruct (_ && _); [|eauto].
  destruct (offload_List _ _) as [m e]. cbn in H. subst e. cbn. eauto.
Qed.

Lemma loadOffloaded_withNodesLoaded s req wfs :
  offloadLoads s req ->
  loadOffloaded s (NewCleaner (workflowpkg.Fields req)) req wfs
  = Ok (withNodesLoaded s req wfs).
Proof.
  unfold offloadLoads, loadOffloaded, withNodesLoaded. intros H.
  destruct (_ && _); [|reflexivity].
  destruct (offload_List _ _) as [m e]. cbn in H. subst e. reflexivity.
Qed.

Lemma len_0_nil {A} (l : list A) : len l <= 0 -> l = [].
Proof. destruct l; [reflexivity|]. unfold len. cbn [length]. lia. Qed.

Lemma fetchLive_unlimited s req options live :
  sutils.Limit options = 0 ->
  liveReturnsEverything s req live ->
  exists liveWfList,
    fetchLive s req (listOptionOf s req) options (len live) = Ok liveWfList
    /\ wfv1.Items liveWfList = live.
Proof.
  intros Hlim (l & Hl & Hitems). unfold fetchLive. rewrite Hlim. cbn [Z.eqb orb].
  rewrite andb_true_r.
  destruct (Z.ltb_spec 0 (len live)) as [Hpos|Hpos].
  - rewrite Hl. eauto.
  - exists wfv1.emptyWorkflowList. split; [reflexivity|].
    now rewrite (len_0_nil live Hpos).
Qed.

Lemma fetchArchived_unlimited s options liveWfList archived :
  sutils.Limit options = 0 ->
  len (wfv1.Items liveWfList) < 2 ^ 63 ->
  archiveReturnsEverything s options archived ->
  fetchArchived s options (len (wfv1.Items liveWfList)) liveWfList = Ok archived.
Proof.
  intros Hlim Hrange Harch. unfold fetchArchived.
  rewrite Hlim. cbn [Z.eqb orb].
  pose proof (len_nonneg (wfv1.Items liveWfList)) as Hnn.
  assert (Hneg : int64_sub 0 (len (wfv1.Items liveWfList)) <= 0).
  { unfold int64_sub. rewrite wrap64_small; lia. }
  destruct (_ <? 0).
  - now rewrite (Harch _ 0 Hneg).
  - now rewrite (Harch 0 _ (Z.le_refl 0)).
Qed.

(** C1. For a request whose limit is 0, both sources are asked for an
    unlimited page, and the page of the reply is the union of what they
    return: it holds every workflow the live source returns for the
    filter and every workflow the archive returns for it, each as often as
    the sources return it, in the order of the sort, and nothing else; its
    length is [liveCount + archiveCount]. A workflow whose node map is
    offloaded is shown with the node map loaded; where nothing is
    offloaded the page is a rearrangement of the workflows themselves. *)
Theorem ListWorkflows_unlimited_returns_everything
    s ctx req options live archived :
  builds BuildListOptions s req options ->
  counts s ctx req options (len live) (len archived) ->
  noProjection NewCleaner req ->
  offloadLoads s req ->
  sutils.Limit options = 0 ->
  len live < 2 ^ 63 ->
  liveReturnsEverything s req live ->
  archiveReturnsEverything s options archived ->
  exists res,
    ListWorkflows BuildListOptions NewCleaner Less s ctx req = Ok res
    /\ len (wfv1.Items res) = len live + len archived
    /\ wfv1.Items res ≡ₚ withNodesLoaded s req (live ++ archived)
    /\ (IsEnabled (offloadNodeStatusRepo s) = false ->
        wfv1.Items res ≡ₚ live ++ archived)
    /\ (forall wf, In wf (live ++ archived) ->
        exists wf', In wf' (wfv1.Items res)
                    /\ wfv1.withNodes wf' (wfv1.StatusNodes wf) = wf).
Proof.
  intros Hb Hc Hclean Hoff Hlim Hrange Hlive Harch.
  rewrite (ListWorkflows_listPage _ _ _ _ _ _ _ _ _ Hb Hc Hclean).
  unfold listPage.
  destruct (fetchLive_unlimited _ _ _ _ Hlim Hlive) as (liveWfList & -> & Hitems).
  cbn [bind]. rewrite <- Hitems in Hrange |- *.
  rewrite (fetchArchived_unlimited _ _ _ _ Hlim Hrange Harch).
  cbn [bind]. rewrite (loadOffloaded_withNodesLoaded _ _ _ Hoff). cbn [bind].
  eexists. split; [reflexivity|]. cbn [wfv1.Items].
  assert (Hperm : sort_Sort Less
                    (withNodesLoaded s req (wfv1.Items liveWfList ++ archived))
                  ≡ₚ withNodesLoaded s req (wfv1.Items liveWfList ++ archived))
    by apply sort_Sort_Permutation.
  repeat split.
  - rewrite len_sort_Sort. unfold withNodesLoaded.
    destruct (_ && _); [rewrite len_map|]; apply len_app.
  - exact Hperm.
  - intros Hdisabled. rewrite Hperm. unfold withNodesLoaded.
    now rewrite Hdisabled.
  - intros wf Hin. unfold withNodesLoaded in Hperm |- *.
    destruct (_ && _).
    + exists (fillOffloaded s
                (fst (offload_List (offloadNodeStatusRepo s)
                        (workflowpkg.Namespace req))) wf).
      split.
      * apply list_elem_of_In. rewrite Hperm. apply list_elem_of_In.
        now apply in_map.
      * unfold fillOffloaded.
        destruct (wfv1.IsOffloadNodeStatus wf);
          [destruct (IsEnabled (offloadNodeStatusRepo s))|]; now destruct wf.
    + exists wf. split.
      * apply list_elem_of_In. rewrite Hperm. now apply list_elem_of_In.
      * now destruct wf.
Qed.

(** The adapters over a fixed data set keep the contract of an unlimited
    page. *)
Lemma fixedLister_returns_everything s req options resourceVersion live :
  wfLister s = fixedLister BuildListOptions resourceVersion live ->
  builds BuildListOptions s req options ->
  sutils.Limit options = 0 ->
  liveReturnsEverything s req live.
Proof.
  intros Hlister Hb Hlim. unfold liveReturnsEverything. rewrite Hlister.
  cbn [fixedLister lister_ListWorkflows]. unfold builds in Hb. rewrite Hb.
  eexists. split; [reflexivity|]. cbn [wfv1.Items]. unfold pageOf.
  now rewrite Hlim.
Qed.

Lemma fixedArchive_returns_everything s options archived :
  wfArchive s = fixedArchive archived ->
  archiveReturnsEverything s options archived.
Proof.
  intros Harchive limit offset Hlimit. rewrite Harchive.
  cbn. unfold pageOf.
  destruct (Z.leb_spec limit 0); [reflexivity|lia].
Qed.

End UnlimitedPage.

(** ** Pages over a fixed data set *)

Lemma window_app {A} (live archived : list A) (O L : nat) :
  take L (drop O (live ++ archived))
  = take L (drop O live)
    ++ take (L - (length live - O)) (drop (O - length live) archived).
Proof. now rewrite drop_app, take_app, length_drop. Qed.

Section FixedDataProperties.

Variable BuildListOptions :
  metav1.ListOptions -> string -> string -> string -> string -> string ->
  sutils.ListOptions * option error.
Variable NewCleaner : string -> Cleaner.
Variable Less : wfv1.Workflow -> wfv1.Workflow -> bool.

Variable s : workflowServer.
Variable resourceVersion : string.
Variables live archived : wfv1.Workflows.
Hypothesis s_lister : wfLister s = fixedLister BuildListOptions resourceVersion live.
Hypothesis s_archive : wfArchive s = fixedArchive archived.

(** The request is well formed, the caller may list, and the window asked
    for starts at [offset] and has the size [limit]. *)
Definition asks (ctx : Context) (req : workflowpkg.WorkflowListRequest)
    (offset limit : Z) : Prop :=
  exists options,
    builds BuildListOptions s req options
    /\ CanI ctx "list" WorkflowPlural (sutils.Namespace options) "" = (true, None)
    /\ sutils.Offset options = offset
    /\ sutils.Limit options = limit.

(** What the loading of offloaded node maps makes of a page. *)
Definition offloadedView (req : workflowpkg.WorkflowListRequest)
    (wfs : wfv1.Workflows) : wfv1.Workflows :=
  if IsEnabled (offloadNodeStatusRepo s) &&
     negb (WillExclude (NewCleaner (workflowpkg.Fields req)) "items.status.nodes")
  then map (fillOffloaded s
              (fst (offload_List (offloadNodeStatusRepo s)
                      (workflowpkg.Namespace req)))) wfs
  else wfs.

Lemma loadOffloaded_view req wfs :
  offloadLoads s req ->
  loadOffloaded s (NewCleaner (workflowpkg.Fields req)) req wfs
  = Ok (offloadedView req wfs).
Proof.
  unfold offloadLoads, loadOffloaded, offloadedView. intros H.
  destruct (_ && _); [|reflexivity].
  destruct (offload_List _ _) as [m e]. cbn in H. now subst e.
Qed.

Lemma offloadedView_app req l k :
  offloadedView req (l ++ k) = offloadedView req l ++ offloadedView req k.
Proof. unfold offloadedView. destruct (_ && _); [apply map_app|reflexivity]. Qed.

Lemma offloadedView_same req req' wfs :
  workflowpkg.Namespace req = workflowpkg.Namespace req' ->
  workflowpkg.Fields req = workflowpkg.Fields req' ->
  offloadedView req wfs = offloadedView req' wfs.
Proof. unfold offloadedView. now intros -> ->. Qed.

Lemma pageOf_window data limit offset :
  0 < limit ->
  pageOf data limit offset = take (Z.to_nat limit) (drop (Z.to_nat offset) data).
Proof. intros H. unfold pageOf. destruct (Z.leb_spec limit 0); [lia|reflexivity]. Qed.

(** The live part of a page with a positive limit. *)
Lemma fetchLive_window req options :
  builds BuildListOptions s req options ->
  0 <= sutils.Offset options ->
  0 < sutils.Limit options ->
  exists liveWfList,
    fetchLive s req (listOptionOf s req) options (len live) = Ok liveWfList
    /\ wfv1.Items liveWfList
       = take (Z.to_nat (sutils.Limit options))
           (drop (Z.to_nat (sutils.Offset options)) live).
Proof.
  intros Hb Ho Hl. unfold fetchLive.
  destruct (Z.eqb_spec (sutils.Limit options) 0) as [|_]; [lia|]. cbn [orb].
  destruct (Z.ltb_spec 0 (len live)) as [Hn|Hn]; cbn [andb];
    [destruct (Z.ltb_spec (sutils.Offset options) (len live)) as [Hlt|Hge]|].
  - rewrite s_lister. cbn [fixedLister lister_ListWorkflows].
    unfold builds in Hb. rewrite Hb. eexists. split; [reflexivity|].
    cbn [wfv1.Items]. now apply pageOf_window.
  - exists wfv1.emptyWorkflowList. split; [reflexivity|].
    rewrite drop_ge; [now rewrite take_nil|]. unfold len in Hge. lia.
  - exists wfv1.emptyWorkflowList. split; [reflexivity|].
    rewrite drop_ge; [now rewrite take_nil|]. unfold len in Hn. lia.
Qed.

(** The archived part of a page with a positive limit. *)
Lemma fetchArchived_window options liveWfList :
  0 <= sutils.Offset options < 2 ^ 62 ->
  0 < sutils.Limit options < 2 ^ 62 ->
  len live < 2 ^ 62 ->
  wfv1.Items liveWfList
  = take (Z.to_nat (sutils.Limit options))
      (drop (Z.to_nat (sutils.Offset options)) live) ->
  fetchArchived s options (len live) liveWfList
  = Ok (take (Z.to_nat (sutils.Limit options)
              - (length live - Z.to_nat (sutils.Offset options)))
          (drop (Z.to_nat (sutils.Offset options) - length live) archived)).
Proof.
  intros Ho Hl Hn Hitems. unfold fetchArchived.
  set (offset := sutils.Offset options) in *.
  set (limit := sutils.Limit options) in *.
  pose proof (len_nonneg live) as Hnn.
  destruct (Z.eqb_spec limit 0) as [|_]; [lia|]. cbn [orb].
  unfold int64_add, int64_sub. rewrite !wrap64_small by lia.
  assert (Hlen : len (wfv1.Items liveWfList)
                 = Z.min limit (Z.max 0 (len live - offset))).
  { rewrite Hitems. unfold len. rewrite length_take, length_drop. lia. }
  rewrite Hlen. rewrite wrap64_small by lia. unfold len in *.
  destruct (Z.ltb_spec (Z.of_nat (length live)) (offset + limit)) as [Hlt|Hge].
  - destruct (Z.ltb_spec (offset - Z.of_nat (length live)) 0) as [Hneg|Hpos].
    + rewrite s_archive. cbn. rewrite pageOf_window by lia.
      do 2 f_equal; [f_equal; lia|].
      replace (Z.to_nat offset - length live)%nat with 0%nat by lia.
      reflexivity.
    + rewrite s_archive. cbn. rewrite pageOf_window by lia.
      do 2 f_equal; [f_equal; lia|f_equal; lia].
  - replace (Z.to_nat limit - (length live - Z.to_nat offset))%nat with 0%nat
      by lia.
    now rewrite take_0.
Qed.

(** A page with a positive limit is the window of the concatenation of
    the live and the archived workflows, with the node maps loaded, and
    sorted on its own. *)
Lemma ListWorkflows_window ctx req offset limit :
  asks ctx req offset limit ->
  noProjection NewCleaner req ->
  offloadLoads s req ->
  0 <= offset < 2 ^ 62 ->
  0 < limit < 2 ^ 62 ->
  len live < 2 ^ 62 ->
  exists res,
    ListWorkflows BuildListOptions NewCleaner Less s ctx req = Ok res
    /\ wfv1.Items res
       = sort_Sort Less
           (offloadedView req
              (take (Z.to_nat limit) (drop (Z.to_nat offset) (live ++ archived)))).
Proof.
  intros (options & Hb & Hcan & <- & <-) Hclean Hoff Ho Hl Hn.
  assert (Hc : counts s ctx req options (len live) (len archived)).
  { repeat split; [assumption| |]; [rewrite s_lister|rewrite s_archive];
      reflexivity. }
  rewrite (ListWorkflows_listPage _ _ _ _ _ _ _ _ _ Hb Hc Hclean).
  unfold listPage.
  destruct (fetchLive_window req options Hb) as (liveWfList & -> & Hitems);
    [lia..|].
  cbn [bind]. rewrite (fetchArchived_window _ _ Ho Hl Hn Hitems). cbn [bind].
  rewrite loadOffloaded_view by assumption. cbn [bind].
  eexists. split; [reflexivity|]. cbn [wfv1.Items].
  now rewrite Hitems, window_app.
Qed.

End FixedDataProperties.

Section Contiguity.

Variable BuildListOptions :
  metav1.ListOptions -> string -> string -> string -> string -> string ->
  sutils.ListOptions * option error.
Variable NewCleaner : string -> Cleaner.
Variable Less : wfv1.Workflow -> wfv1.Workflow -> bool.

(** Two requests that differ at most in their list options. *)
Definition sameQuery (req req' : workflowpkg.WorkflowListRequest) : Prop :=
  workflowpkg.Namespace req = workflowpkg.Namespace req'
  /\ workflowpkg.Fields req = workflowpkg.Fields req'
  /\ workflowpkg.NameFilter req = workflowpkg.NameFilter req'
  /\ workflowpkg.CreatedAfter req = workflowpkg.CreatedAfter req'
  /\ workflowpkg.FinishedBefore req = workflowpkg.FinishedBefore req'.

(** C2, as amended. Over a fixed data set and for positive limits [k] and
    [m], the page at offset 0 with limit [k] followed by the page at
    offset [k] with limit [m] holds exactly the items of the page at
    offset 0 with limit [k + m], each as often; the order is that of the
    pages, each sorted on its own. *)
Theorem ListWorkflows_pages_contiguous
    (s : workflowServer) resourceVersion (live archived : wfv1.Workflows)
    ctx r1 r2 r3 k m :
  wfLister s = fixedLister BuildListOptions resourceVersion live ->
  wfArchive s = fixedArchive archived ->
  asks BuildListOptions s ctx r1 0 k ->
  asks BuildListOptions s ctx r2 k m ->
  asks BuildListOptions s ctx r3 0 (k + m) ->
  sameQuery r1 r3 -> sameQuery r2 r3 ->
  noProjection NewCleaner r3 ->
  offloadLoads s r3 ->
  0 < k -> 0 < m -> k + m < 2 ^ 62 ->
  len live < 2 ^ 62 ->
  exists p1 p2 p3,
    ListWorkflows BuildListOptions NewCleaner Less s ctx r1 = Ok p1
    /\ ListWorkflows BuildListOptions NewCleaner Less s ctx r2 = Ok p2
    /\ ListWorkflows BuildListOptions NewCleaner Less s ctx r3 = Ok p3
    /\ wfv1.Items p1 ++ wfv1.Items p2 ≡ₚ wfv1.Items p3.
Proof.
  intros Hlister Harchive H1 H2 H3 (Hns1 & Hf1 & _) (Hns2 & Hf2 & _)
    Hclean Hoff Hk Hm Hkm Hn.
  assert (Hclean1 : noProjection NewCleaner r1)
    by (unfold noProjection in *; now rewrite Hf1).
  assert (Hclean2 : noProjection NewCleaner r2)
    by (unfold noProjection in *; now rewrite Hf2).
  assert (Hoff1 : offloadLoads s r1)
    by (unfold offloadLoads in *; now rewrite Hns1).
  assert (Hoff2 : offloadLoads s r2)
    by (unfold offloadLoads in *; now rewrite Hns2).
  destruct (ListWorkflows_window BuildListOptions NewCleaner Less s
              resourceVersion live archived Hlister Harchive ctx r1 0 k)
    as (p1 & Hp1 & Hi1); [assumption|assumption|assumption|lia|lia|lia|].
  destruct (ListWorkflows_window BuildListOptions NewCleaner Less s
              resourceVersion live archived Hlister Harchive ctx r2 k m)
    as (p2 & Hp2 & Hi2); [assumption|assumption|assumption|lia|lia|lia|].
  destruct (ListWorkflows_window BuildListOptions NewCleaner Less s
              resourceVersion live archived Hlister Harchive ctx r3 0 (k + m))
    as (p3 & Hp3 & Hi3); [assumption|assumption|assumption|lia|lia|lia|].
  exists p1, p2, p3. repeat split; try assumption.
  rewrite Hi1, Hi2, Hi3, !sort_Sort_Permutation.
  rewrite (offloadedView_same _ _ r1 r3), (offloadedView_same _ _ r2 r3)
    by assumption.
  rewrite <- offloadedView_app. cbn [Z.to_nat]. rewrite !drop_0.
  rewrite take_take_drop. replace (Z.to_nat (k + m)) with (Z.to_nat k + Z.to_nat m)%nat
    by lia.
  reflexivity.
Qed.

End Contiguity.

(** C2, as stated, fails on the data set of the scenario: a limit of 0 is
    no limit, so the page with offset 0 and limit 0 already holds
    everything; and with the limits 1 and 1 the two pages hold the items of
    the page with limit 2, in another order. *)
Lemma ListWorkflows_pages_not_contiguous :
  (exists p1 p2 p3,
      Examples.scenario 0 "0" = Ok p1
      /\ Examples.scenario 1 "0" = Ok p2
      /\ Examples.scenario (0 + 1) "0" = Ok p3
      /\ wfv1.Items p1 ++ wfv1.Items p2 <> wfv1.Items p3)
  /\ (exists p1 p2 p3,
      Examples.scenario 1 "0" = Ok p1
      /\ Examples.scenario 1 "1" = Ok p2
      /\ Examples.scenario (1 + 1) "0" = Ok p3
      /\ wfv1.Items p1 ++ wfv1.Items p2 <> wfv1.Items p3).
Proof.
  split; do 3 eexists;
    (split; [vm_compute; reflexivity|]);
    (split; [vm_compute; reflexivity|]);
    (split; [vm_compute; reflexivity|]);
    vm_compute; intros H; discriminate H.
Qed.

(** ** The theorems of the paginator on the scenario *)

Lemma ListWorkflows_unlimited_returns_everything_witness :
  exists res,
    Examples.scenario 0 "0" = Ok res
    /\ len (wfv1.Items res) = 2 + 1
    /\ wfv1.Items res
       ≡ₚ withNodesLoaded Examples.newCleaner Examples.scenarioServer
            (Examples.listRequest 0 "0")
            ([Examples.wf_b; Examples.wf_c] ++ [Examples.wf_a])
    /\ (IsEnabled (offloadNodeStatusRepo Examples.scenarioServer) = false ->
        wfv1.Items res ≡ₚ [Examples.wf_b; Examples.wf_c] ++ [Examples.wf_a])
    /\ (forall wf, In wf ([Examples.wf_b; Examples.wf_c] ++ [Examples.wf_a]) ->
        exists wf', In wf' (wfv1.Items res)
                    /\ wfv1.withNodes wf' (wfv1.StatusNodes wf) = wf).
Proof.
  apply (ListWorkflows_unlimited_returns_everything
           Examples.buildListOptions Examples.newCleaner Examples.less
           Examples.scenarioServer Examples.allowAll
           (Examples.listRequest 0 "0")
           (fst (Examples.buildListOptions
                   (listOptionOf Examples.scenarioServer (Examples.listRequest 0 "0"))
                   "ns1" "" "" "" ""))
           [Examples.wf_b; Examples.wf_c] [Examples.wf_a]).
  - reflexivity.
  - repeat split; reflexivity.
  - intros l. reflexivity.
  - reflexivity.
  - reflexivity.
  - change (2 < 2 ^ 63). lia.
  - eexists. split; reflexivity.
  - intros limit offset Hlimit.
    cbn. unfold pageOf. destruct (Z.leb_spec limit 0); [reflexivity|lia].
Defined.

Lemma ListWorkflows_remaining_and_continue_witness :
  let res := Examples.page "1" "2" 1 [Examples.wf_c; Examples.wf_b] in
  let remaining := Z.max 0 (2 + 1 - 0 - len (wfv1.Items res)) in
  (metav1.ContinueToken (wfv1.ListMeta res) <> EmptyString <-> 0 < remaining)
  /\ (0 < remaining ->
      metav1.ContinueToken (wfv1.ListMeta res) = pretty (0 + len (wfv1.Items res)))
  /\ metav1.RemainingItemCount (wfv1.ListMeta res) = Some remaining.
Proof.
  apply (ListWorkflows_remaining_and_continue
           Examples.buildListOptions Examples.newCleaner Examples.less
           Examples.scenarioServer Examples.allowAll
           (Examples.listRequest 2 "0")
           (fst (Examples.buildListOptions
                   (listOptionOf Examples.scenarioServer (Examples.listRequest 2 "0"))
                   "ns1" "" "" "" ""))
           2 1).
  - reflexivity.
  - repeat split; reflexivity.
  - intros l. reflexivity.
  - lia.
  - lia.
  - change (0 <= 0 < 2 ^ 62). lia.
  - vm_compute. reflexivity.
  - change (2 < 2 ^ 62). lia.
Defined.

Lemma ListWorkflows_pages_contiguous_witness :
  exists p1 p2 p3,
    Examples.scenario 1 "0" = Ok p1
    /\ Examples.scenario 1 "1" = Ok p2
    /\ Examples.scenario (1 + 1) "0" = Ok p3
    /\ wfv1.Items p1 ++ wfv1.Items p2 ≡ₚ wfv1.Items p3.
Proof.
  apply (ListWorkflows_pages_contiguous
           Examples.buildListOptions Examples.newCleaner Examples.less
           Examples.scenarioServer "1" [Examples.wf_b; Examples.wf_c]
           [Examples.wf_a] Examples.allowAll
           (Examples.listRequest 1 "0") (Examples.listRequest 1 "1")
           (Examples.listRequest (1 + 1) "0") 1 1).
  - reflexivity.
  - reflexivity.
  - eexists. repeat split; reflexivity.
  - eexists. repeat split; reflexivity.
  - eexists. repeat split; reflexivity.
  - repeat split; reflexivity.
  - repeat split; reflexivity.
  - intros l. reflexivity.
  - reflexivity.
  - lia.
  - lia.
  - lia.
  - change (2 < 2 ^ 62). lia.
Defined.

(** ** Status codes *)

(** An error of a lower level: no error of its chain carries a gRPC
    status. *)
Fixpoint carriesStatus (e : error) : bool :=
  match e with
  | statusError _ _ => true
  | wrapError _ inner => carriesStatus inner
  | _ => false
  end.

Lemma ToStatusError_code e code :
  carriesStatus e = false ->
  ToStatusError (Some e) code = Some (statusError code (Error e)).
Proof. destruct e; cbn; intros H; try reflexivity; discriminate. Qed.

Lemma ToStatusError_message e code :
  exists e',
    ToStatusError (Some e) code = Some e'
    /\ Error e' = Error e
    /\ GRPCStatus e' = Some (default code (GRPCStatus e)).
Proof. destruct e; cbn; eauto. Qed.

(** ** Alias resolution *)

(** The archive fallback of [getWorkflow] does not yield a workflow: the
    permission check fails or denies, or the archive has no such
    workflow. *)
Definition fallbackFails (s : workflowServer) (ctx : Context)
    (namespace name : string) : Prop :=
  match CanI ctx "get" WorkflowPlural namespace name with
  | (_, Some _) => True
  | (false, None) => True
  | (true, None) =>
    match archive_GetWorkflow (wfArchive s) "" namespace name with
    | (Some _, None) => False
    | _ => True
    end
  end.

(** C4. When the live lookup by name fails and the permission check denies
    the read (or fails), or the permitted archive lookup fails as well, the
    error returned is the original live error: its message and, if it
    carries one, its status code; the permission error and the archive
    error are only logged. *)
Theorem getWorkflow_surfaces_original_error
    s ctx wfClient namespace name options wf origErr :
  name <> latestAlias ->
  wf_Get wfClient namespace name options = (wf, Some origErr) ->
  fallbackFails s ctx namespace name ->
  getWorkflow s ctx wfClient namespace name options
  = Err (ToStatusError (Some origErr) Internal)
  /\ exists e,
      ToStatusError (Some origErr) Internal = Some e
      /\ Error e = Error origErr
      /\ GRPCStatus e = Some (default Internal (GRPCStatus origErr)).
Proof.
  intros Hname Hget Hfail. split; [|apply ToStatusError_message].
  unfold getWorkflow, fallbackFails, getWorkflowOrigErr in *.
  destruct (String.eqb_spec name latestAlias) as [|_]; [contradiction|].
  rewrite Hget.
  assert (Hfallback :
    match CanI ctx "get" WorkflowPlural namespace name with
    | (_, Some _) => Err (ToStatusError (Some origErr) Internal)
    | (false, None) => Err (ToStatusError (Some origErr) Internal)
    | (true, None) =>
      match archive_GetWorkflow (wfArchive s) "" namespace name with
      | (Some wf, None) => Ok wf
      | (_, _) => Err (ToStatusError (Some origErr) Internal)
      end
    end = Err (ToStatusError (Some origErr) Internal)).
  { destruct (CanI ctx _ _ _ _) as [[|] [e|]]; try reflexivity.
    destruct (archive_GetWorkflow _ _ _ _) as [[awf|] [e|]];
      try reflexivity; contradiction. }
  destruct wf; exact Hfallback.
Qed.

Lemma getWorkflow_surfaces_original_error_witness :
  getWorkflow Examples.scenarioServer Examples.denyAll
    {| wf_Get _ _ _ := (None, Some (apiStatusError StatusReasonNotFound "workflows b not found"));
       wf_List _ _ := Err None; wf_Create _ _ := Err None;
       wf_Watch _ _ := None |}
    "ns1" "b" emptyGetOptions
  = Err (Some (statusError Internal "workflows b not found")).
Proof.
  refine (proj1 (getWorkflow_surfaces_original_error
                   Examples.scenarioServer Examples.denyAll _ "ns1" "b"
                   emptyGetOptions None
                   (apiStatusError StatusReasonNotFound "workflows b not found")
                   _ _ _)).
  - discriminate.
  - reflexivity.
  - exact I.
Defined.

(** The latest of a list lies in it, after workflows created strictly
    earlier and before workflows created no later. *)
Lemma latestOf_spec items :
  forall before cur after,
    (forall wf, In wf before ->
                wfv1.CreationTimestamp wf < wfv1.CreationTimestamp cur) ->
    (forall wf, In wf after ->
                wfv1.CreationTimestamp wf <= wfv1.CreationTimestamp cur) ->
    exists before' after',
      before ++ cur :: after ++ items = before' ++ latestOf cur items :: after'
      /\ (forall wf, In wf before' ->
            wfv1.CreationTimestamp wf
            < wfv1.CreationTimestamp (latestOf cur items))
      /\ (forall wf, In wf after' ->
            wfv1.CreationTimestamp wf
            <= wfv1.CreationTimestamp (latestOf cur items)).
Proof.
  induction items as [|wf items IH]; intros before cur after Hb Ha.
  - exists before, after. rewrite app_nil_r. auto.
  - unfold latestOf. cbn [fold_left]. fold (latestOf
      (if metav1.Before (wfv1.CreationTimestamp cur) (wfv1.CreationTimestamp wf)
       then wf else cur) items).
    unfold metav1.Before.
    destruct (Z.ltb_spec (wfv1.CreationTimestamp cur) (wfv1.CreationTimestamp wf))
      as [Hlt|Hge].
    + destruct (IH (before ++ cur :: after) wf []) as (b' & a' & Heq & Hb' & Ha').
      * intros x Hx. apply in_app_or in Hx as [Hx|[<-|Hx]];
          [specialize (Hb x Hx)|idtac|specialize (Ha x Hx)]; lia.
      * intros x [].
      * exists b', a'. split; [|auto].
        rewrite <- Heq. cbn [app]. now rewrite <- app_assoc.
    + destruct (IH before cur (after ++ [wf])) as (b' & a' & Heq & Hb' & Ha').
      * assumption.
      * intros x Hx. apply in_app_or in Hx as [Hx|[<-|[]]];
          [specialize (Ha x Hx)|idtac]; lia.
      * exists b', a'. split; [|auto].
        rewrite <- Heq. now rewrite <- app_assoc.
Qed.

(** C5. The alias of the most recent workflow is resolved by one list of
    the namespace with empty list options; an empty list is the NotFound
    error [no workflows found]; otherwise the result is a workflow of the
    list whose creation time is the largest, and the first such in the
    order of the list. [getWorkflow] hands the workflow on. *)
Theorem getLatestWorkflow_first_of_the_latest wfClient namespace wfList :
  wf_List wfClient namespace metav1.emptyListOptions = Ok wfList ->
  (wfv1.Items wfList = [] ->
   getLatestWorkflow wfClient namespace
   = Err (Some (statusError NotFound "no workflows found")))
  /\ (wfv1.Items wfList <> [] ->
      exists before latest after,
        wfv1.Items wfList = before ++ latest :: after
        /\ getLatestWorkflow wfClient namespace = Ok latest
        /\ (forall s ctx options,
              getWorkflow s ctx wfClient namespace latestAlias options = Ok latest)
        /\ (forall wf, In wf before ->
              wfv1.CreationTimestamp wf < wfv1.CreationTimestamp latest)
        /\ (forall wf, In wf after ->
              wfv1.CreationTimestamp wf <= wfv1.CreationTimestamp latest)).
Proof.
  intros Hlist. unfold getLatestWorkflow. rewrite Hlist. split.
  - now intros ->.
  - intros Hne. destruct (wfv1.Items wfList) as [|first rest] eqn:Hitems;
      [contradiction|].
    destruct (latestOf_spec rest [] first []) as (b & a & Heq & Hb & Ha);
      [intros x []..|].
    assert (Hlatest : latestOf first (first :: rest) = latestOf first rest).
    { unfold latestOf. cbn [fold_left]. unfold metav1.Before.
      now rewrite Z.ltb_irrefl. }
    exists b, (latestOf first rest), a. rewrite Hlatest.
    repeat split; try assumption.
    intros s ctx options. unfold getWorkflow, getLatestWorkflow.
    rewrite Hlist, Hitems, Hlatest. reflexivity.
Qed.

Lemma getLatestWorkflow_first_of_the_latest_witness :
  getLatestWorkflow
    {| wf_Get _ _ _ := (None, None);
       wf_List _ _ := Ok (Examples.page "1" "" 0 []);
       wf_Create _ _ := Err None; wf_Watch _ _ := None |} "ns1"
  = Err (Some (statusError NotFound "no workflows found")).
Proof.
  refine (proj1 (getLatestWorkflow_first_of_the_latest _ "ns1"
                   (Examples.page "1" "" 0 []) _) _); reflexivity.
Defined.

(** Of two workflows created at the same time, the first in the list is
    the latest. *)
Example getLatestWorkflow_tie :
  getLatestWorkflow
    {| wf_Get _ _ _ := (None, None);
       wf_List _ _ :=
         Ok (Examples.page "1" "" 0
               [Examples.workflow "x" 5 0; Examples.workflow "y" 7 0;
                Examples.workflow "z" 7 0]);
       wf_Create _ _ := Err None; wf_Watch _ _ := None |} "ns1"
  = Ok (Examples.workflow "y" 7 0).
Proof. reflexivity. Qed.

(** ** [CreateWorkflow] *)

Section CreateWorkflowProperties.

Variable LabelCreator : Context -> wfv1.Workflow -> wfv1.Workflow.
Variable ValidateWorkflow :
  workflowServer -> Context -> wfv1.Workflow -> wfv1.Workflow * option error.
Variable CreateServerDryRun :
  wfv1.Workflow -> WorkflowInterface -> result wfv1.Workflow.

(** The request reaches the Create call of the substrate, with [wf], and
    the call fails with [err]: the body is there, it is valid, and no dry
    run is asked for. *)
Definition createFails (s : workflowServer) (ctx : Context)
    (wfClient : WorkflowInterface) (req : workflowpkg.WorkflowCreateRequest)
    (wf : wfv1.Workflow) (err : error) : Prop :=
  exists body,
    workflowpkg.create_Workflow req = Some body
    /\ ValidateWorkflow s ctx
         (LabelCreator ctx
            (Label (instanceIDService s)
               (if String.eqb (wfv1.Namespace body) ""
                then wfv1.withNamespace body (workflowpkg.create_Namespace req)
                else body)))
       = (wf, None)
    /\ match workflowpkg.create_CreateOptions req with
       | Some dryRun => dryRun = []
       | None => True
       end
    /\ workflowpkg.create_ServerDryRun req = false
    /\ wf_Create wfClient (workflowpkg.create_Namespace req) wf = Err (Some err).

(** C9, as amended. When the Create call fails with a server timeout and
    the workflow has a generate-name as well as a name, the reply is
    DeadlineExceeded, with a message that hints that the named workflow may
    already exist, in front of the original message. Any other failure of
    the Create call is re-coded with Internal: a server timeout for a
    workflow without a generate-name or without a name too, and in
    particular every error of the substrate, which carries no gRPC status,
    is returned as Internal. *)
Theorem CreateWorkflow_create_failure s ctx wfClient req wf err :
  createFails s ctx wfClient req wf err ->
  let reply :=
    CreateWorkflow LabelCreator ValidateWorkflow CreateServerDryRun
      s ctx wfClient req in
  (IsServerTimeout err = true ->
   wfv1.GenerateName wf <> "" -> wfv1.Name wf <> "" ->
   reply = Err (Some (statusError DeadlineExceeded
                        (timeoutHint (wfv1.Name wf) +:+ Error err))))
  /\ (IsServerTimeout err = false \/ wfv1.GenerateName wf = ""
      \/ wfv1.Name wf = "" ->
      reply = Err (ToStatusError (Some err) Internal)
      /\ (carriesStatus err = false ->
          reply = Err (Some (statusError Internal (Error err))))).
Proof.
  intros (body & Hbody & Hvalid & Hdry & Hserver & Hcreate) reply.
  assert (Hreply :
    reply
    = if IsServerTimeout err
         && negb (String.eqb (wfv1.GenerateName wf) "")
         && negb (String.eqb (wfv1.Name wf) "")
      then Err (ToStatusError
                  (Some (wrapError (timeoutHint (wfv1.Name wf)) err))
                  DeadlineExceeded)
      else Err (ToStatusError (Some err) Internal)).
  { subst reply. unfold CreateWorkflow. rewrite Hbody, Hvalid.
    destruct (workflowpkg.create_CreateOptions req) as [dryRun|];
      [subst dryRun; cbn [len length Z.of_nat Z.ltb Z.compare]|];
      rewrite Hserver, Hcreate; reflexivity. }
  rewrite Hreply. split.
  - intros -> Hg Hn.
    destruct (String.eqb_spec (wfv1.GenerateName wf) ""); [contradiction|].
    destruct (String.eqb_spec (wfv1.Name wf) ""); [contradiction|].
    reflexivity.
  - intros Hother.
    assert (Hcond : IsServerTimeout err
                    && negb (String.eqb (wfv1.GenerateName wf) "")
                    && negb (String.eqb (wfv1.Name wf) "") = false).
    { destruct Hother as [->|[->| ->]]; cbn;
        rewrite ?andb_false_r; reflexivity. }
    rewrite Hcond. split; [reflexivity|].
    intros Hlow. now rewrite ToStatusError_code.
Qed.

End CreateWorkflowProperties.

Module CreateExamples.

(** A valid workflow with a name of its own, and a substrate that answers
    every Create with a server timeout. *)
Definition named : wfv1.Workflow := Examples.workflow "hello" 0 0.

Definition generated : wfv1.Workflow :=
  {| wfv1.Name := "hello-x7k2p"; wfv1.GenerateName := "hello-";
     wfv1.Namespace := "ns1"; wfv1.UID := ""; wfv1.CreationTimestamp := 0;
     wfv1.FinishedAt := 0; wfv1.OffloadNodeStatusVersion := "";
     wfv1.StatusNodes := ∅ |}.

Definition timeout : error :=
  apiStatusError StatusReasonServerTimeout "the server was unable to respond".

Definition timingOut : WorkflowInterface :=
  {| wf_Get _ _ _ := (None, None); wf_List _ _ := Err None;
     wf_Create _ _ := Err (Some timeout); wf_Watch _ _ := None |}.

Definition request (wf : wfv1.Workflow) : workflowpkg.WorkflowCreateRequest :=
  {| workflowpkg.create_Namespace := "ns1";
     workflowpkg.create_Workflow := Some wf;
     workflowpkg.create_ServerDryRun := false;
     workflowpkg.create_CreateOptions := None |}.

Definition create (wf : wfv1.Workflow) : result wfv1.Workflow :=
  CreateWorkflow (fun _ wf => wf) (fun _ _ wf => (wf, None)) (fun wf _ => Ok wf)
    Examples.scenarioServer Examples.allowAll timingOut (request wf).

End CreateExamples.

(** C9, as stated, fails for a workflow that has a name and no
    generate-name: the server timeout of the Create call is returned as
    Internal. *)
Lemma CreateWorkflow_timeout_of_named_workflow_is_Internal :
  IsServerTimeout CreateExamples.timeout = true
  /\ CreateExamples.create CreateExamples.named
     = Err (Some (statusError Internal "the server was unable to respond")).
Proof. split; reflexivity. Qed.

Lemma CreateWorkflow_create_failure_witness :
  CreateExamples.create CreateExamples.generated
  = Err (Some (statusError DeadlineExceeded
                 (timeoutHint "hello-x7k2p" +:+ "the server was unable to respond"))).
Proof.
  refine (proj1 (CreateWorkflow_create_failure
                   (fun _ wf => wf) (fun _ _ wf => (wf, None)) (fun wf _ => Ok wf)
                   Examples.scenarioServer Examples.allowAll
                   CreateExamples.timingOut
                   (CreateExamples.request CreateExamples.generated)
                   CreateExamples.generated CreateExamples.timeout _) _ _ _).
  - exists CreateExamples.generated. repeat split; reflexivity.
  - reflexivity.
  - discriminate.
  - discriminate.
Defined.

(** ** [SetWorkflow] *)

Lemma phasePassesValidation_spec (phase : string) :
  phasePassesValidation phase = true
  <-> phase = "Succeeded" \/ phase = "Failed" \/ phase = "Error" \/ phase = "".
Proof.
  unfold phasePassesValidation, wfv1.NodeSucceeded, wfv1.NodeFailed,
    wfv1.NodeError.
  destruct (String.eqb_spec phase "Succeeded"), (String.eqb_spec phase "Failed"),
    (String.eqb_spec phase "Error"), (String.eqb_spec phase "");
    cbn; intuition congruence.
Qed.

Section SetWorkflowProperties.

Variable Cluster : Type.
Variable clientAt : Cluster -> WorkflowInterface.
Variable util_SetWorkflow :
  Cluster -> string -> Hydrator -> string -> string -> SetOperationValues ->
  Cluster * option error.
Variable json_Unmarshal : string -> gmap string string * option error.

(** The workflow of the request exists and passes the validation of its
    identity. *)
Definition found (s : workflowServer) (ctx : Context) (c : Cluster)
    (req : workflowpkg.WorkflowSetRequest) (wf : wfv1.Workflow) : Prop :=
  getWorkflow s ctx (clientAt c) (workflowpkg.set_Namespace req)
    (workflowpkg.set_Name req) emptyGetOptions = Ok wf
  /\ Validate (instanceIDService s) (Some wf) = None.

(** C6. A request whose phase is none of Succeeded, Failed, Error and the
    empty phase leaves the substrate as it is, and for a workflow that
    exists the reply is InvalidArgument; for the four phases the check
    passes: the operation goes on to set the values. *)
Theorem SetWorkflow_phase_check s ctx c req :
  let phase := workflowpkg.set_Phase req in
  let reply := SetWorkflow Cluster clientAt util_SetWorkflow json_Unmarshal s ctx c req in
  (~ (phase = "Succeeded" \/ phase = "Failed" \/ phase = "Error" \/ phase = "") ->
   fst reply = c
   /\ forall wf,
       found s ctx c req wf ->
       snd reply
       = Err (Some (statusError InvalidArgument
                      (phase +:+ " is an invalid phase to set to"))))
  /\ (phase = "Succeeded" \/ phase = "Failed" \/ phase = "Error" \/ phase = "" ->
      phasePassesValidation phase = true
      /\ forall wf,
          found s ctx c req wf ->
          workflowpkg.set_OutputParameters req = "" ->
          reply
          = match util_SetWorkflow c (workflowpkg.set_Namespace req)
                    (hydrator s) (wfv1.Name wf)
                    (workflowpkg.set_NodeFieldSelector req)
                    {| op_Phase := phase;
                       op_Message := workflowpkg.set_Message req;
                       op_OutputParameters := ∅ |} with
            | (c', Some err) => (c', Err (ToStatusError (Some err) Internal))
            | (c', None) =>
                (c', refetch Cluster clientAt c' (workflowpkg.set_Namespace req)
                       (wfv1.Name wf))
            end).
Proof.
  intros phase reply. split.
  - intros Hphase.
    assert (Hcheck : phasePassesValidation phase = false).
    { destruct (phasePassesValidation phase) eqn:E; [|reflexivity].
      apply phasePassesValidation_spec in E. contradiction. }
    subst reply. unfold SetWorkflow. fold phase. split.
    + destruct (getWorkflow _ _ _ _ _ _) as [wf|[e|]|]; try reflexivity;
        destruct (validateWorkflow _ _); try reflexivity;
        rewrite Hcheck; reflexivity.
    + intros wf (Hget & Hvalid). rewrite Hget.
      unfold validateWorkflow, pointerOf. rewrite Hvalid. cbn [ToStatusError].
      rewrite Hcheck. reflexivity.
  - intros Hphase.
    assert (Hcheck : phasePassesValidation phase = true)
      by now apply phasePassesValidation_spec.
    split; [assumption|].
    intros wf (Hget & Hvalid) Hparams. subst reply. unfold SetWorkflow.
    fold phase. rewrite Hget.
    unfold validateWorkflow, pointerOf. rewrite Hvalid. cbn [ToStatusError].
    rewrite Hcheck, Hparams. cbn [String.eqb negb]. reflexivity.
Qed.

End SetWorkflowProperties.

Module SetExamples.

(** A substrate that counts the mutations made to it and holds every
    workflow asked for. *)
Definition Cluster := nat.

Definition clientAt (c : Cluster) : WorkflowInterface :=
  {| wf_Get _ name _ := (Some (Examples.workflow name 0 0), None);
     wf_List _ _ := Err None; wf_Create _ _ := Err None;
     wf_Watch _ _ := None |}.

Definition setWorkflow (c : Cluster) (ns : string) (h : Hydrator)
    (name selector : string) (op : SetOperationValues)
  : Cluster * option error := (S c, None).

Definition unmarshal (s : string) : gmap string string * option error :=
  (∅, None).

Definition request (phase : string) : workflowpkg.WorkflowSetRequest :=
  {| workflowpkg.set_Name := "b"; workflowpkg.set_Namespace := "ns1";
     workflowpkg.set_NodeFieldSelector := ""; workflowpkg.set_Message := "";
     workflowpkg.set_Phase := phase; workflowpkg.set_OutputParameters := "" |}.

Definition set (phase : string) : Cluster * result wfv1.Workflow :=
  SetWorkflow Cluster clientAt setWorkflow unmarshal
    Examples.scenarioServer Examples.allowAll 0%nat (request phase).

End SetExamples.

Lemma SetWorkflow_phase_check_witness :
  SetExamples.set "Unknown"
  = (0%nat, Err (Some (statusError InvalidArgument
                         "Unknown is an invalid phase to set to"))).
Proof.
  pose proof (SetWorkflow_phase_check SetExamples.Cluster SetExamples.clientAt
                SetExamples.setWorkflow SetExamples.unmarshal
                Examples.scenarioServer Examples.allowAll 0%nat
                (SetExamples.request "Unknown")) as [Hbad _].
  destruct Hbad as [Hstate Hreply].
  - cbn. intros [H|[H|[H|H]]]; discriminate H.
  - apply injective_projections; [exact Hstate|].
    apply (Hreply (Examples.workflow "b" 0 0)). split; reflexivity.
Defined.

(** Before the phase is looked at the workflow is looked up: for a workflow
    that is neither live nor archived the reply is the error of the lookup,
    re-coded with Internal, whatever the phase; nothing is mutated. *)
Example SetWorkflow_of_a_missing_workflow :
  SetWorkflow SetExamples.Cluster
    (fun _ =>
       {| wf_Get _ _ _ :=
            (None, Some (apiStatusError StatusReasonNotFound "workflows b not found"));
          wf_List _ _ := Err None; wf_Create _ _ := Err None;
          wf_Watch _ _ := None |})
    SetExamples.setWorkflow SetExamples.unmarshal
    (Examples.server [] []) Examples.allowAll 0%nat (SetExamples.request "Unknown")
  = (0%nat, Err (Some (statusError Internal "workflows b not found"))).
Proof. reflexivity. Qed.

Example SetWorkflow_sets_a_valid_phase :
  SetExamples.set "Failed" = (1%nat, Ok (Examples.workflow "b" 0 0)).
Proof. reflexivity. Qed.

(** ** [WatchWorkflows] *)

Section WatchWorkflowsProperties.

Variable Stream : Type.
Variable ws_SendHeader : Stream -> Stream * option error.
Variable ws_Send : Stream -> WorkflowWatchEvent -> Stream * option error.
Variable NewCleaner : string -> Cleaner.
Variable WithoutPrefix : Cleaner -> string -> Cleaner.
Variable RecoverWorkflowNameFromSelectorStringIfAny : string -> string.
Variable GenerateFieldSelectorFromWorkflowName : string -> string.

Local Abbreviation watchLoop' := (watchLoop Stream ws_Send).
Local Abbreviation watchEvent' := (watchEvent Stream ws_Send).
Local Abbreviation WatchWorkflows' :=
  (WatchWorkflows Stream ws_SendHeader ws_Send NewCleaner WithoutPrefix
     RecoverWorkflowNameFromSelectorStringIfAny
     GenerateFieldSelectorFromWorkflowName).

(** The cleaner of a watch. *)
Definition cleanerOf (req : workflowpkg.WatchWorkflowsRequest) : Cleaner :=
  WithoutPrefix (NewCleaner (workflowpkg.watch_Fields req)) "result.object.".

(** The watch is open and the headers are sent: the stream, in the state
    [ws'], enters the loop. *)
Definition opened (s : workflowServer) (ctx : Context)
    (wfClient : WorkflowInterface) (req : workflowpkg.WatchWorkflowsRequest)
    (ws ws' : Stream) : Prop :=
  exists opts,
    watchOptions RecoverWorkflowNameFromSelectorStringIfAny
      GenerateFieldSelectorFromWorkflowName s ctx wfClient req = inl opts
    /\ wf_Watch wfClient (workflowpkg.watch_Namespace req)
         (With (instanceIDService s) opts) = None
    /\ ws_SendHeader ws = (ws', None).

(** The workflow of an event once the loop has hydrated it, if it had to. *)
Definition hydrated (s : workflowServer) (cleaner : Cleaner)
    (wf wf' : wfv1.Workflow) : Prop :=
  if WillExclude cleaner "status.nodes" then wf' = wf
  else Hydrate (hydrator s) wf = (wf', None).

Lemma WatchWorkflows_opened s ctx wfClient req ws ws' trace :
  opened s ctx wfClient req ws ws' ->
  WatchWorkflows' s ctx wfClient req ws trace
  = watchLoop' s (cleanerOf req) ws' trace.
Proof.
  intros (opts & Hopts & Hwatch & Hheader). unfold WatchWorkflows.
  now rewrite Hopts, Hwatch, Hheader.
Qed.

Lemma watchLoop_app s cleaner ws pre ws1 rest :
  watchLoop' s cleaner ws pre = (ws1, None) ->
  watchLoop' s cleaner ws (pre ++ rest) = watchLoop' s cleaner ws1 rest.
Proof.
  revert ws. induction pre as [|x pre IH]; intros ws; cbn [watchLoop app].
  - now intros [= ->].
  - destruct x as [|event|]; try discriminate.
    destruct (watchEvent' s cleaner ws event) as [ws2 [e|]]; [discriminate|].
    apply IH.
Qed.

Lemma ToStatusError_plain e code :
  GRPCStatus e = None ->
  ToStatusError (Some e) code = Some (statusError code (Error e)).
Proof. destruct e; cbn; intros H; try reflexivity; discriminate. Qed.

Lemma ToStatusError_kept e c code :
  GRPCStatus e = Some c -> ToStatusError (Some e) code = Some e.
Proof. destruct e; cbn; intros H; try discriminate; reflexivity. Qed.

(** C8, amended. A stream that is open and has handled the selections
    [pre]: when the next selection is the cancellation of the context it
    returns without an error; when it is the closed event channel it
    returns a ResourceExhausted status; when the hydration, the projection
    or the send of the next event fails it returns the failure re-coded
    with Internal. That is an Internal status for every failure of the
    projection and for a failure of the hydration or of the send that
    carries no gRPC status of its own; a failure of the hydration or of the
    send that carries a gRPC status ends the stream with that status. *)
Theorem WatchWorkflows_termination
    s ctx wfClient req ws ws' pre ws1 rest :
  opened s ctx wfClient req ws ws' ->
  WatchWorkflows' s ctx wfClient req ws pre = (ws1, None) ->
  let cleaner := cleanerOf req in
  let next x := WatchWorkflows' s ctx wfClient req ws (pre ++ x :: rest) in
  next ctxDone = (ws1, Some (exitReturn None))
  /\ next closed
     = (ws1, Some (exitReturn (Some (statusError ResourceExhausted "EOF"))))
  /\ (forall type wf wf' err,
        WillExclude cleaner "status.nodes" = false ->
        Hydrate (hydrator s) wf = (wf', Some err) ->
        let reply :=
          next (received {| ev_Type := type; ev_Object := objWorkflow wf |}) in
        (GRPCStatus err = None ->
         reply = (ws1, Some (exitReturn (Some (statusError Internal (Error err))))))
        /\ (forall c,
              GRPCStatus err = Some c ->
              reply = (ws1, Some (exitReturn (Some err)))))
  /\ (forall type wf wf' ok y err,
        hydrated s cleaner wf wf' ->
        CleanWorkflow cleaner wf' = (ok, y, Some err) ->
        exists msg,
          next (received {| ev_Type := type; ev_Object := objWorkflow wf |})
          = (ws1, Some (exitReturn (Some (statusError Internal msg)))))
  /\ (forall type wf wf' newWf ws2 err,
        hydrated s cleaner wf wf' ->
        clean cleaner wf' = (newWf, None) ->
        ws_Send ws1 {| wwe_Type := type; wwe_Object := newWf |} = (ws2, Some err) ->
        let reply :=
          next (received {| ev_Type := type; ev_Object := objWorkflow wf |}) in
        (GRPCStatus err = None ->
         reply = (ws2, Some (exitReturn (Some (statusError Internal (Error err))))))
        /\ (forall c,
              GRPCStatus err = Some c ->
              reply = (ws2, Some (exitReturn (Some err))))).
Proof.
  intros Hopen Hpre cleaner next.
  rewrite (WatchWorkflows_opened _ _ _ _ _ _ _ Hopen) in Hpre.
  assert (Hnext : forall x, next x = watchLoop' s cleaner ws1 (x :: rest)).
  { intros x. subst next. cbn beta.
    rewrite (WatchWorkflows_opened _ _ _ _ _ _ _ Hopen).
    now apply watchLoop_app. }
  split; [now rewrite Hnext|]. split; [now rewrite Hnext|].
  split; [|split].
  - intros type wf wf' err Hex Hhyd reply. subst reply. rewrite Hnext.
    cbn [watchLoop]. unfold watchEvent. cbn [ev_Object].
    rewrite Hex. cbn [negb]. rewrite Hhyd. split.
    + intros Hlow. now rewrite ToStatusError_plain.
    + intros c Hc. now rewrite (ToStatusError_kept _ c).
  - intros type wf wf' ok y err Hhyd Hclean.
    destruct (ToStatusError_message err Internal) as (e' & He' & _).
    exists ("unable to CleanFields in request: " +:+ Error e').
    rewrite Hnext. cbn [watchLoop]. unfold watchEvent, hydrated in *.
    cbn [ev_Object].
    destruct (WillExclude cleaner "status.nodes"); cbn [negb];
      [subst wf'|rewrite Hhyd]; unfold clean; rewrite Hclean, He';
      destruct ok; reflexivity.
  - intros type wf wf' newWf ws2 err Hhyd Hclean Hsend reply. subst reply.
    rewrite Hnext. cbn [watchLoop]. unfold watchEvent, hydrated in *.
    cbn [ev_Object ev_Type].
    destruct (WillExclude cleaner "status.nodes"); cbn [negb];
      [subst wf'|rewrite Hhyd]; rewrite Hclean, Hsend;
      (split; [intros Hlow; now rewrite ToStatusError_plain
              |intros c Hc; now rewrite (ToStatusError_kept _ c)]).
Qed.

End WatchWorkflowsProperties.

Module WatchExamples.

(** A stream that records what is sent and fails from the third event on;
    a watch on every workflow of the namespace. *)
Definition Stream := list WorkflowWatchEvent.

Definition sendHeader (ws : Stream) : Stream * option error := (ws, None).

Definition send (ws : Stream) (e : WorkflowWatchEvent) : Stream * option error :=
  if (length ws <? 2)%nat then (ws ++ [e], None)
  else (ws, Some (errorString "transport is closing")).

Definition client : WorkflowInterface :=
  {| wf_Get _ _ _ := (None, None); wf_List _ _ := Err None;
     wf_Create _ _ := Err None; wf_Watch _ _ := None |}.

Definition request : workflowpkg.WatchWorkflowsRequest :=
  {| workflowpkg.watch_Namespace := "ns1";
     workflowpkg.watch_ListOptions := None;
     workflowpkg.watch_Fields := "" |}.

Definition event (wf : wfv1.Workflow) : Event :=
  {| ev_Type := "MODIFIED"; ev_Object := objWorkflow wf |}.

Definition watch (trace : list selected) : Stream * option exit :=
  WatchWorkflows Stream sendHeader send Examples.newCleaner (fun c _ => c)
    (fun _ => "") (fun name => name)
    Examples.scenarioServer Examples.allowAll client request [] trace.

End WatchExamples.

Lemma WatchWorkflows_termination_witness :
  WatchExamples.watch [received (WatchExamples.event Examples.wf_c); closed]
  = ([{| wwe_Type := "MODIFIED"; wwe_Object := Examples.wf_c |}],
     Some (exitReturn (Some (statusError ResourceExhausted "EOF")))).
Proof.
  refine (proj1 (proj2 (WatchWorkflows_termination
                          WatchExamples.Stream WatchExamples.sendHeader
                          WatchExamples.send Examples.newCleaner (fun c _ => c)
                          (fun _ => "") (fun name => name)
                          Examples.scenarioServer Examples.allowAll
                          WatchExamples.client WatchExamples.request [] []
                          [received (WatchExamples.event Examples.wf_c)]
                          _ [] _ _))).
  - eexists. repeat split; reflexivity.
  - reflexivity.
Defined.

Example WatchWorkflows_send_failure :
  WatchExamples.watch
    [received (WatchExamples.event Examples.wf_c);
     received (WatchExamples.event Examples.wf_b);
     received (WatchExamples.event Examples.wf_a); ctxDone]
  = ([{| wwe_Type := "MODIFIED"; wwe_Object := Examples.wf_c |};
      {| wwe_Type := "MODIFIED"; wwe_Object := Examples.wf_b |}],
     Some (exitReturn (Some (statusError Internal "transport is closing")))).
Proof. reflexivity. Qed.

Module WatchStatusExamples.

(** A stream whose transport is gone: every send fails with the gRPC
    status Unavailable. *)
Definition send (ws : WatchExamples.Stream) (e : WorkflowWatchEvent)
  : WatchExamples.Stream * option error :=
  (ws, Some (statusError Unavailable "transport is closing")).

Definition watch (trace : list selected) : WatchExamples.Stream * option exit :=
  WatchWorkflows WatchExamples.Stream WatchExamples.sendHeader send
    Examples.newCleaner (fun c _ => c) (fun _ => "") (fun name => name)
    Examples.scenarioServer Examples.allowAll WatchExamples.client
    WatchExamples.request [] trace.

End WatchStatusExamples.

(** C8, as stated, fails for a send failure that carries a gRPC status of
    its own: the stream ends with that status, here Unavailable, and not
    with Internal. *)
Lemma WatchWorkflows_send_failure_keeps_its_status :
  WatchStatusExamples.watch [received (WatchExamples.event Examples.wf_c)]
  = ([], Some (exitReturn (Some (statusError Unavailable "transport is closing"))))
  /\ GRPCStatus (statusError Unavailable "transport is closing") = Some Unavailable
  /\ Unavailable <> Internal.
Proof. split; [reflexivity|]. split; [reflexivity|discriminate]. Qed.

(** ** The archive retry command *)

(** The UIDs of the retry calls, in the order of the calls. *)
Definition retriedUIDs (calls : list archive.call) : list string :=
  flat_map (fun c => match c with
                     | archive.callRetry req => [archive.req_Uid req]
                     | _ => []
                     end) calls.

(** The command has gone on to wait for, watch or log a workflow. *)
Definition followsUp (calls : list archive.call) : Prop :=
  exists namespace names, In (archive.callWaitWatchOrLog namespace names) calls.

Section RetryArchivedProperties.

Variable Server : Type.
Variable ParseSelector : string -> string * option error.
Variable listArchivedWorkflows :
  Server -> string -> string -> Z -> wfv1.Workflows * option error.
Variable RetryArchivedWorkflow :
  Server -> archive.RetryArchivedWorkflowRequest ->
  Server * (option wfv1.Workflow * option error).
Variable WaitWatchOrLog :
  Server -> string -> list string -> archive.CliSubmitOpts -> Server * option error.

(** The invariant of the loop: the keys of [retriedUids] are the UIDs of
    the retry calls made, each of which was made once, and nothing else has
    been awaited. *)
Definition retriedOnce (st : archive.loopState Server) : Prop :=
  NoDup (retriedUIDs (archive.calls Server st))
  /\ dom (archive.retriedUids Server st)
     = list_to_set (retriedUIDs (archive.calls Server st))
  /\ ~ followsUp (archive.calls Server st).

Lemma retriedUIDs_app calls calls' :
  retriedUIDs (calls ++ calls') = retriedUIDs calls ++ retriedUIDs calls'.
Proof. apply flat_map_app. Qed.

Lemma followsUp_app calls calls' :
  followsUp (calls ++ calls') <-> followsUp calls \/ followsUp calls'.
Proof.
  unfold followsUp. split.
  - intros (ns & names & H). apply in_app_or in H as [H|H]; eauto.
  - intros [(ns & names & H)|(ns & names & H)]; exists ns, names;
      apply in_or_app; auto.
Qed.

Lemma retriedOnce_retry st req calls' :
  retriedOnce st ->
  archive.retriedUids Server st !! archive.req_Uid req = None ->
  retriedUIDs calls' = [] ->
  ~ followsUp calls' ->
  forall srv last,
    retriedOnce
      {| archive.server := srv; archive.lastRetried := last;
         archive.retriedUids :=
           <[archive.req_Uid req := true]> (archive.retriedUids Server st);
         archive.calls :=
           archive.calls Server st ++ archive.callRetry req :: calls' |}.
Proof.
  intros (Hnodup & Hdom & Hfollow) Hfresh Hcalls' Hfollow' srv last.
  unfold retriedOnce. cbn [archive.calls archive.retriedUids].
  rewrite retriedUIDs_app. cbn [retriedUIDs flat_map app].
  fold (retriedUIDs calls'). rewrite Hcalls'.
  assert (Hnew : archive.req_Uid req ∉ retriedUIDs (archive.calls Server st)).
  { intros Hin. apply not_elem_of_dom in Hfresh. apply Hfresh.
    rewrite Hdom. apply elem_of_list_to_set. exact Hin. }
  repeat split.
  - apply NoDup_app. repeat split.
    + assumption.
    + intros x Hx Hx'. apply list_elem_of_singleton in Hx'. now subst x.
    + apply NoDup_singleton.
  - rewrite dom_insert_L, Hdom, list_to_set_app_L. cbn [list_to_set foldr].
    rewrite (right_id_L ∅ (∪)). apply (comm_L (∪)).
  - rewrite followsUp_app. intros [H|(ns & names & [H|H])];
      [now apply Hfollow|discriminate H|].
    apply Hfollow'. now exists ns, names.
Qed.

Lemma retryEach_retriedOnce retryOpts selector cliSubmitOpts wfs :
  forall st st' err,
    archive.retryEach Server RetryArchivedWorkflow retryOpts selector
      cliSubmitOpts wfs st = (st', err) ->
    retriedOnce st -> retriedOnce st'.
Proof.
  induction wfs as [|wf wfs IH]; intros st st' err; cbn [archive.retryEach].
  - now intros [= <- _].
  - destruct (archive.retriedUids Server st !! wfv1.UID wf) eqn:Hseen;
      [apply IH|].
    destruct (RetryArchivedWorkflow _ _) as [srv [last [e|]]].
    + intros [= <- _] Hinv.
      apply (retriedOnce_retry st
               {| archive.req_Uid := wfv1.UID wf |} [] Hinv Hseen eq_refl).
      intros (ns & names & []).
    + intros Hrun Hinv. apply (IH _ _ _ Hrun).
      apply (retriedOnce_retry st
               {| archive.req_Uid := wfv1.UID wf |}
               [archive.callPrint last (archive.Output cliSubmitOpts)]
               Hinv Hseen eq_refl).
      intros (ns & names & [H|[]]). discriminate H.
Qed.

Lemma retriedOnce_size st :
  retriedOnce st ->
  size (archive.retriedUids Server st)
  = length (retriedUIDs (archive.calls Server st)).
Proof.
  intros (Hnodup & Hdom & _).
  rewrite <- size_dom, Hdom. now apply size_list_to_set.
Qed.

(** C10. Whatever the selector matches and whatever the arguments are, the
    retry calls of the command carry pairwise distinct UIDs: a UID that
    comes up again is skipped; and the command goes on to wait, watch or
    log only when it has retried exactly one UID. *)
Theorem retryArchivedWorkflows_retries_each_UID_once
    srv retryOpts cliSubmitOpts args :
  let calls :=
    snd (fst (archive.retryArchivedWorkflows Server ParseSelector
                listArchivedWorkflows RetryArchivedWorkflow WaitWatchOrLog
                srv retryOpts cliSubmitOpts args)) in
  NoDup (retriedUIDs calls)
  /\ (followsUp calls -> length (retriedUIDs calls) = 1%nat).
Proof.
  cbn zeta. unfold archive.retryArchivedWorkflows.
  assert (Hnone : NoDup (retriedUIDs []) /\
                  (followsUp [] -> length (retriedUIDs []) = 1%nat)).
  { split; [apply NoDup_nil_2|]. intros (ns & names & []). }
  destruct (ParseSelector _) as [selector [e|]]; [exact Hnone|].
  destruct (if archive.hasSelector retryOpts then _ else _) as [wfs [e|]];
    [exact Hnone|].
  destruct (archive.retryEach _ _ _ _ _ _ _) as [st err] eqn:Hrun.
  assert (Hinv : retriedOnce st).
  { apply (retryEach_retriedOnce _ _ _ _ _ _ _ Hrun).
    split; [apply NoDup_nil_2|].
    split; [apply dom_empty_L|]. intros (ns & names & []). }
  pose proof (retriedOnce_size st Hinv) as Hsize.
  destruct Hinv as (Hnodup & _ & Hfollow).
  destruct err as [err|]; [cbn; tauto|].
  destruct (decide (size (archive.retriedUids Server st) = 1%nat)) as [Hone|_];
    [|cbn; tauto].
  destruct (archive.lastRetried Server st) as [last|]; [|cbn; tauto].
  destruct (WaitWatchOrLog _ _ _ _) as [srv' err]. cbn [fst snd].
  rewrite retriedUIDs_app, app_nil_r. split; [assumption|]. intros _. lia.
Qed.

End RetryArchivedProperties.

Module ArchiveExamples.

(** A server that retries whatever it is asked to, and an archive whose
    selector matches the workflow [u1]. *)
Definition retry (srv : unit) (req : archive.RetryArchivedWorkflowRequest)
  : unit * (option wfv1.Workflow * option error) :=
  (tt, (Some (Examples.workflow (archive.req_Uid req) 0 0), None)).

Definition command (args : list string) : unit * list archive.call * exit :=
  archive.retryArchivedWorkflows unit (fun s => (s, None))
    (fun _ _ _ _ => ([Examples.workflow "u1" 0 0], None)) retry
    (fun _ _ _ _ => (tt, None))
    tt
    {| archive.nodeFieldSelector := ""; archive.restartSuccessful := false;
       archive.namespace := "ns1"; archive.labelSelector := "app=x";
       archive.fieldSelector := "" |}
    {| archive.Parameters := []; archive.Output := ""; archive.Wait := true;
       archive.Watch := false; archive.Log := false |}
    args.

End ArchiveExamples.

(** The workflow [u1] is matched by the selector and given as an argument:
    it is retried once, and so is [u2]; nothing is awaited after two
    retries, and [u1] is awaited when it is the only one. *)
Example retryArchivedWorkflows_overlap :
  retriedUIDs (snd (fst (ArchiveExamples.command ["u1"; "u2"; "u1"]))) = ["u1"; "u2"]
  /\ retriedUIDs (snd (fst (ArchiveExamples.command ["u1"]))) = ["u1"]
  /\ last (snd (fst (ArchiveExamples.command ["u1"])))
     = Some (archive.callWaitWatchOrLog "ns1" ["u1"])
  /\ last (snd (fst (ArchiveExamples.command ["u1"; "u2"; "u1"])))
     = Some (archive.callPrint (Some (Examples.workflow "u2" 0 0)) "").
Proof. repeat split; reflexivity. Qed.

(** ** The fan-out of [RetryWorkflow] *)

(** The goroutines that can still send an error: those that have not
    reached the deferred [wg.Done()]. *)
Fixpoint pendingSends (gs : list goroutine) : nat :=
  match gs with
  | [] => 0
  | Exiting _ :: gs => pendingSends gs
  | _ :: gs => S (pendingSends gs)
  end.

(** The pods of the goroutines that have not called Delete yet. *)
Fixpoint notYetDeleted (gs : list goroutine) : list string :=
  match gs with
  | [] => []
  | Spawned podName :: gs => podName :: notYetDeleted gs
  | _ :: gs => notYetDeleted gs
  end.

(** The error a deletion contributes: none for [nil] and for not-found. *)
Definition failure (err : option error) : list error :=
  match err with
  | Some e => if IsNotFound e then [] else [e]
  | None => []
  end.

(** The errors the goroutines are about to send. *)
Fixpoint toSend (gs : list goroutine) : list error :=
  match gs with
  | [] => []
  | Deleted _ err :: gs => failure err ++ toSend gs
  | _ :: gs => toSend gs
  end.

(** The errors of the Delete calls made that are not not-found errors. *)
Definition failures (calls : list (string * option error)) : list error :=
  flat_map (fun call => failure (snd call)) calls.

(** The atomic actions the goroutines still have to take. *)
Fixpoint actionsLeft (gs : list goroutine) : nat :=
  match gs with
  | [] => 0
  | Spawned _ :: gs => 3 + actionsLeft gs
  | Deleted _ _ :: gs => 2 + actionsLeft gs
  | Exiting _ :: gs => 1 + actionsLeft gs
  end.

Lemma pendingSends_app gs gs' :
  pendingSends (gs ++ gs') = (pendingSends gs + pendingSends gs')%nat.
Proof. induction gs as [|[] gs IH]; cbn; lia. Qed.

Lemma notYetDeleted_app gs gs' :
  notYetDeleted (gs ++ gs') = notYetDeleted gs ++ notYetDeleted gs'.
Proof. induction gs as [|[] gs IH]; cbn; congruence. Qed.

Lemma toSend_app gs gs' : toSend (gs ++ gs') = toSend gs ++ toSend gs'.
Proof.
  induction gs as [|[] gs IH]; cbn; rewrite <- ?app_assoc; congruence.
Qed.

Lemma actionsLeft_app gs gs' :
  actionsLeft (gs ++ gs') = (actionsLeft gs + actionsLeft gs')%nat.
Proof. induction gs as [|[] gs IH]; cbn; lia. Qed.

Lemma failures_app calls calls' :
  failures (calls ++ calls') = failures calls ++ failures calls'.
Proof. apply flat_map_app. Qed.

Lemma failure_length err : (length (failure err) <= 1)%nat.
Proof. destruct err as [e|]; cbn; [destruct (IsNotFound e)|]; cbn; lia. Qed.

Lemma toSend_length gs : (length (toSend gs) <= pendingSends gs)%nat.
Proof.
  induction gs as [|[p|p err|p] gs IH]; cbn; try lia.
  rewrite length_app. pose proof (failure_length err). lia.
Qed.

Section FanoutProperties.

Variable Cluster : Type.
Variable pods_Delete : Cluster -> string -> string -> Cluster * option error.

(** The namespace of the workflow, the state of the substrate before the
    fan-out and the pods to delete. *)
Variable namespace : string.
Variable c0 : Cluster.
Variable podsToDelete : list string.

Local Abbreviation step :=
  (fanoutStep Cluster pods_Delete namespace (length podsToDelete)).
Local Abbreviation steps :=
  (fanoutSteps Cluster pods_Delete namespace (length podsToDelete)).

(** The state of the substrate after the Delete calls [calls], made one
    after the other. *)
Definition clusterAfter (calls : list (string * option error)) : Cluster :=
  fold_left (fun c call => fst (pods_Delete c namespace (fst call))) calls c0.

(** Each of the calls has the result Delete gave in the state it was made
    in. *)
Definition recorded (calls : list (string * option error)) : Prop :=
  forall done podName err rest,
    calls = done ++ (podName, err) :: rest ->
    snd (pods_Delete (clusterAfter done) namespace podName) = err.

(** The invariant of the fan-out. *)
Definition fanoutInvariant (st : fanout Cluster) : Prop :=
  fo_wg Cluster st
  = (length (fo_toSpawn Cluster st) + length (fo_running Cluster st))%nat
  /\ (length (fo_errCh Cluster st) + length (fo_toSpawn Cluster st)
      + pendingSends (fo_running Cluster st) <= length podsToDelete)%nat
  /\ podsToDelete
     ≡ₚ map fst (fo_calls Cluster st)
        ++ notYetDeleted (fo_running Cluster st) ++ fo_toSpawn Cluster st
  /\ fo_errCh Cluster st ++ toSend (fo_running Cluster st)
     ≡ₚ failures (fo_calls Cluster st)
  /\ fo_cluster Cluster st = clusterAfter (fo_calls Cluster st)
  /\ recorded (fo_calls Cluster st).

Lemma clusterAfter_snoc calls podName err :
  clusterAfter (calls ++ [(podName, err)])
  = fst (pods_Delete (clusterAfter calls) namespace podName).
Proof. unfold clusterAfter. now rewrite fold_left_app. Qed.

Lemma recorded_snoc calls podName err :
  recorded calls ->
  snd (pods_Delete (clusterAfter calls) namespace podName) = err ->
  recorded (calls ++ [(podName, err)]).
Proof.
  intros Hrec Herr done p e rest Heq.
  induction rest as [|last' rest' _] using rev_ind.
  - apply app_inj_tail in Heq as [<- [= <- <-]]. exact Herr.
  - rewrite app_comm_cons, app_assoc in Heq.
    apply app_inj_tail in Heq as [-> _]. now apply (Hrec done p e rest').
Qed.

Lemma fanoutInvariant_start :
  fanoutInvariant (fanoutStart Cluster c0 podsToDelete).
Proof.
  unfold fanoutInvariant, fanoutStart. cbn. repeat split; try lia; try reflexivity.
  intros done p e rest Heq. now destruct done.
Qed.

Lemma fanoutInvariant_step st st' :
  fanoutInvariant st -> step st st' -> fanoutInvariant st'.
Proof.
  intros (Hwg & Hcap & Hpods & Herrs & Hcluster & Hrec) Hstep.
  destruct Hstep as
    [c podName rest running errCh wg calls
    |c c' podName err toSpawn r1 r2 errCh wg calls Hdelete
    |c podName err toSpawn r1 r2 errCh wg calls Hfound Hroom
    |c podName err toSpawn r1 r2 errCh wg calls Hfound
    |c podName toSpawn r1 r2 errCh wg calls];
    unfold fanoutInvariant in *;
    cbn [fo_cluster fo_toSpawn fo_running fo_errCh fo_wg fo_calls] in *;
    rewrite ?length_app, ?pendingSends_app, ?notYetDeleted_app, ?toSend_app,
      ?failures_app, ?map_app in *;
    cbn [length pendingSends notYetDeleted toSend failures flat_map map fst snd
           app] in *.
  - repeat split; try assumption; try lia.
    + rewrite Hpods. rewrite <- !app_assoc. cbn [app]. reflexivity.
    + now rewrite app_nil_r.
  - repeat split; try assumption; try lia.
    + rewrite Hpods. rewrite <- !app_assoc. apply Permutation_app_head.
      cbn [app]. rewrite <- !Permutation_middle. reflexivity.
    + rewrite app_nil_r.
      etransitivity; [|apply Permutation_app_tail, Herrs].
      rewrite <- !app_assoc. do 2 apply Permutation_app_head.
      apply Permutation_app_comm.
    + rewrite clusterAfter_snoc, <- Hcluster, Hdelete. reflexivity.
    + apply recorded_snoc; [assumption|]. now rewrite <- Hcluster, Hdelete.
  - cbn [failure] in Herrs. rewrite Hfound in Herrs.
    repeat split; try assumption; try lia.
    etransitivity; [|apply Herrs].
    rewrite <- !app_assoc. apply Permutation_app_head.
    cbn [app]. apply Permutation_middle.
  - assert (Hnone : failure err = []).
    { destruct err as [e|]; cbn in *; [now rewrite Hfound|reflexivity]. }
    rewrite Hnone in *. cbn [app] in *. repeat split; try assumption; lia.
  - repeat split; try assumption; lia.
Qed.

Lemma fanoutInvariant_steps st st' :
  steps st st' -> fanoutInvariant st -> fanoutInvariant st'.
Proof.
  induction 1 as [st|st1 st2 st3 Hstep _ IH]; [auto|].
  intros Hinv. apply IH. eapply fanoutInvariant_step; eassumption.
Qed.

(** No send blocks for good and no goroutine is stuck: before the barrier
    some action can always be taken. *)
Lemma fanout_progress st :
  fanoutInvariant st -> ~ pastBarrier Cluster st -> exists st', step st st'.
Proof.
  destruct st as [c toSpawn running errCh wg calls].
  unfold fanoutInvariant, pastBarrier.
  cbn [fo_cluster fo_toSpawn fo_running fo_errCh fo_wg fo_calls].
  intros (Hwg & Hcap & _) Hnot.
  destruct toSpawn as [|podName rest].
  - destruct running as [|g running].
    { exfalso. apply Hnot. split; [reflexivity|]. cbn in Hwg. lia. }
    destruct g as [podName|podName err|podName].
    + destruct (pods_Delete c namespace podName) as [c' err] eqn:Hdelete.
      eexists. apply (step_delete _ _ _ _ c c' podName err [] [] running);
        exact Hdelete.
    + destruct err as [e|]; [destruct (IsNotFound e) eqn:Hfound|].
      * eexists. apply (step_skip _ _ _ _ c podName (Some e) [] [] running).
        exact Hfound.
      * eexists. apply (step_send _ _ _ _ c podName e [] [] running);
          [exact Hfound|]. cbn in Hcap. lia.
      * eexists. apply (step_skip _ _ _ _ c podName None [] [] running).
        exact I.
    + cbn in Hwg. subst wg. eexists.
      apply (step_done _ _ _ _ c podName [] [] running).
  - eexists. apply step_go.
Qed.

(** Every action brings the fan-out closer to the barrier. *)
Definition actionsBeforeBarrier (st : fanout Cluster) : nat :=
  (4 * length (fo_toSpawn Cluster st) + actionsLeft (fo_running Cluster st))%nat.

Lemma fanout_step_decreases st st' :
  step st st' -> (actionsBeforeBarrier st' < actionsBeforeBarrier st)%nat.
Proof.
  intros Hstep. destruct Hstep; unfold actionsBeforeBarrier;
    cbn [fo_toSpawn fo_running]; rewrite ?actionsLeft_app; cbn; lia.
Qed.

(** From every state of the fan-out the barrier is reached. *)
Lemma fanout_completes n :
  forall st,
    (actionsBeforeBarrier st <= n)%nat ->
    fanoutInvariant st ->
    exists st', steps st st' /\ pastBarrier Cluster st'.
Proof.
  induction n as [|n IH]; intros st Hn Hinv.
  - exists st. split; [constructor|].
    destruct st as [c toSpawn running errCh wg calls].
    destruct Hinv as (Hwg & _). unfold actionsBeforeBarrier, pastBarrier in *.
    cbn [fo_toSpawn fo_running fo_wg] in *.
    destruct toSpawn; [|cbn in Hn; lia].
    destruct running as [|[] running]; [|cbn in Hn; lia..].
    now subst wg.
  - assert (Hdec : pastBarrier Cluster st \/ ~ pastBarrier Cluster st).
    { unfold pastBarrier. destruct (fo_toSpawn Cluster st), (fo_wg Cluster st);
        [left; tauto|right; intros [_ H]; discriminate H
        |right; intros [H _]; discriminate H..]. }
    destruct Hdec as [Hbarrier|Hnot].
    + exists st. split; [constructor|assumption].
    + destruct (fanout_progress st Hinv Hnot) as (st1 & Hstep).
      destruct (IH st1) as (st' & Hsteps & Hbarrier).
      * pose proof (fanout_step_decreases _ _ Hstep). lia.
      * eapply fanoutInvariant_step; eassumption.
      * exists st'. split; [econstructor; eassumption|assumption].
Qed.

(** At the barrier every pod has been the subject of one Delete call, and
    the channel holds the errors of the calls that are not not-found
    errors. *)
Lemma fanout_at_barrier st :
  steps (fanoutStart Cluster c0 podsToDelete) st ->
  pastBarrier Cluster st ->
  map fst (fo_calls Cluster st) ≡ₚ podsToDelete
  /\ fo_errCh Cluster st ≡ₚ failures (fo_calls Cluster st)
  /\ fo_cluster Cluster st = clusterAfter (fo_calls Cluster st)
  /\ recorded (fo_calls Cluster st).
Proof.
  intros Hsteps (Hspawn & Hwg).
  destruct (fanoutInvariant_steps _ _ Hsteps fanoutInvariant_start)
    as (Hwg' & _ & Hpods & Herrs & Hcluster & Hrec).
  rewrite Hspawn, Hwg in *.
  assert (Hrunning : fo_running Cluster st = []).
  { destruct (fo_running Cluster st); [reflexivity|cbn in Hwg'; lia]. }
  rewrite Hrunning in *. cbn [notYetDeleted toSend] in *.
  rewrite !app_nil_r in *. repeat split; try assumption. now symmetry.
Qed.

End FanoutProperties.

Section RetryWorkflowProperties.

Variable Cluster : Type.
Variable clientAt : Cluster -> WorkflowInterface.
Variable wf_Update :
  Cluster -> string -> wfv1.Workflow -> Cluster * result wfv1.Workflow.
Variable pods_Delete : Cluster -> string -> string -> Cluster * option error.
Variable FormulateRetryWorkflow :
  wfv1.Workflow -> bool -> string -> list string ->
  wfv1.Workflow * list string * option error.

Local Abbreviation RetryWorkflow' :=
  (RetryWorkflow Cluster clientAt wf_Update pods_Delete FormulateRetryWorkflow).
Local Abbreviation retryPrepare' :=
  (retryPrepare Cluster clientAt FormulateRetryWorkflow).

(** Lines 488-498 on the state [c] of the substrate: dehydrate and persist
    the update. *)
Definition dehydrateAndUpdate (s : workflowServer)
    (req : workflowpkg.WorkflowRetryRequest) (wf : wfv1.Workflow) (c : Cluster)
  : Cluster * result wfv1.Workflow :=
  match Dehydrate (hydrator s) wf with
  | (_, Some err) => (c, Err (ToStatusError (Some err) Internal))
  | (wf, None) =>
    match wf_Update c (workflowpkg.retry_Namespace req) wf with
    | (c', Err (Some err)) => (c', Err (ToStatusError (Some err) Internal))
    | (c', r) => (c', r)
    end
  end.

(** C7. A retry that has [podsToDelete] to delete returns, in every
    interleaving of its goroutines; by then it has made one Delete call for
    each of them, whatever the results of the other calls; the channel,
    whose capacity is their number, never blocks a send. When every call
    succeeded or failed with a not-found error the retry goes on to
    dehydrate and update. Otherwise it returns one error, re-coded with
    Internal: the first one of the channel, which is the error of one of
    the failed calls; the others stay in the channel, nothing is updated
    and the substrate is left as the Delete calls left it. *)
Theorem RetryWorkflow_fan_out s ctx c req wf podsToDelete :
  retryPrepare' s ctx c req = Ok (wf, podsToDelete) ->
  (exists calls c' r, RetryWorkflow' s ctx c req calls c' r)
  /\ (forall calls c' r,
        RetryWorkflow' s ctx c req calls c' r ->
        let after := clusterAfter Cluster pods_Delete (wfv1.Namespace wf) c calls in
        map fst calls ≡ₚ podsToDelete
        /\ recorded Cluster pods_Delete (wfv1.Namespace wf) c calls
        /\ match failures calls with
           | [] => (c', r) = dehydrateAndUpdate s req wf after
           | _ :: _ =>
               c' = after
               /\ exists e,
                   In e (failures calls)
                   /\ r = Err (ToStatusError (Some e) Internal)
           end)
  /\ (forall st e rest,
        fo_errCh Cluster st = e :: rest ->
        retryFinish Cluster wf_Update s req wf st
        = (fo_cluster Cluster st, Err (ToStatusError (Some e) Internal))).
Proof.
  intros Hprepare. repeat split.
  - destruct (fanout_completes Cluster pods_Delete (wfv1.Namespace wf) c
                podsToDelete _ (fanoutStart Cluster c podsToDelete)
                (Nat.le_refl _)
                (fanoutInvariant_start _ _ _ _ _))
      as (st & Hsteps & Hbarrier).
    destruct (retryFinish Cluster wf_Update s req wf st) as [c' r] eqn:Hfinish.
    exists (fo_calls Cluster st), c', r.
    eapply retry_fanned_out; eassumption.
  - destruct H as [r0 Hr0 Hnone|wf0 pods0 st c'0 r0 Hprepare0 Hsteps Hbarrier _].
    + rewrite Hprepare in Hr0. subst r0. discriminate Hnone.
    + rewrite Hprepare in Hprepare0. injection Hprepare0 as <- <-.
      now destruct (fanout_at_barrier _ _ _ _ _ _ Hsteps Hbarrier).
  - destruct H as [r0 Hr0 Hnone|wf0 pods0 st c'0 r0 Hprepare0 Hsteps Hbarrier _].
    + rewrite Hprepare in Hr0. subst r0. discriminate Hnone.
    + rewrite Hprepare in Hprepare0. injection Hprepare0 as <- <-.
      now destruct (fanout_at_barrier _ _ _ _ _ _ Hsteps Hbarrier)
        as (_ & _ & _ & ?).
  - destruct H as [r0 Hr0 Hnone|wf0 pods0 st c'0 r0 Hprepare0 Hsteps Hbarrier
                     Hfinish].
    + rewrite Hprepare in Hr0. subst r0. discriminate Hnone.
    + rewrite Hprepare in Hprepare0. injection Hprepare0 as <- <-.
      destruct (fanout_at_barrier _ _ _ _ _ _ Hsteps Hbarrier)
        as (_ & Herrs & Hcluster & _).
      unfold retryFinish, errorFromChannel in Hfinish.
      destruct (failures (fo_calls Cluster st)) as [|e0 es] eqn:Hfail.
      * apply Permutation_nil_r in Herrs. rewrite Herrs in Hfinish.
        cbn [head] in Hfinish. rewrite <- Hfinish, <- Hcluster. reflexivity.
      * destruct (fo_errCh Cluster st) as [|e errCh] eqn:HerrCh.
        { now apply Permutation_nil_cons in Herrs. }
        cbn [head] in Hfinish. injection Hfinish as <- <-.
        split; [assumption|]. exists e. split; [|reflexivity].
        apply (Permutation_in e Herrs). now left.
  - intros st e rest HerrCh. unfold retryFinish, errorFromChannel.
    now rewrite HerrCh.
Qed.

End RetryWorkflowProperties.

Module RetryExamples.

(** A substrate that is the list of its pods: deleting a pod that is there
    removes it, a pod that is not there is not found, and the pod [stuck]
    may not be deleted. *)
Definition Cluster := list string.

Definition forbidden : error :=
  apiStatusError StatusReasonForbidden "pods stuck is forbidden".

Definition notFound : error :=
  apiStatusError StatusReasonNotFound "pod not found".

Definition delete (c : Cluster) (ns podName : string) : Cluster * option error :=
  if String.eqb podName "stuck" then (c, Some forbidden)
  else if existsb (String.eqb podName) c
       then (List.filter (fun p => negb (String.eqb podName p)) c, None)
       else (c, Some notFound).

Definition update (c : Cluster) (ns : string) (wf : wfv1.Workflow)
  : Cluster * result wfv1.Workflow := (c, Ok wf).

Definition clientAt (c : Cluster) : WorkflowInterface :=
  {| wf_Get _ name _ := (Some (Examples.workflow name 0 0), None);
     wf_List _ _ := Err None; wf_Create _ _ := Err None;
     wf_Watch _ _ := None |}.

Definition formulate (wf : wfv1.Workflow) (restartSuccessful : bool)
    (selector : string) (parameters : list string)
  : wfv1.Workflow * list string * option error :=
  (wf, ["p1"; "gone"; "stuck"], None).

Definition request : workflowpkg.WorkflowRetryRequest :=
  {| workflowpkg.retry_Name := "b"; workflowpkg.retry_Namespace := "ns1";
     workflowpkg.retry_RestartSuccessful := false;
     workflowpkg.retry_NodeFieldSelector := "";
     workflowpkg.retry_Parameters := [] |}.

Definition retry :=
  RetryWorkflow Cluster clientAt update delete formulate
    Examples.scenarioServer Examples.allowAll ["p1"; "p2"] request.

End RetryExamples.

Lemma RetryWorkflow_fan_out_witness :
  exists calls c' r, RetryExamples.retry calls c' r.
Proof.
  refine (proj1 (RetryWorkflow_fan_out RetryExamples.Cluster
                   RetryExamples.clientAt RetryExamples.update
                   RetryExamples.delete RetryExamples.formulate
                   Examples.scenarioServer Examples.allowAll ["p1"; "p2"]
                   RetryExamples.request (Examples.workflow "b" 0 0)
                   ["p1"; "gone"; "stuck"] _)).
  reflexivity.
Defined.

(** One interleaving: the three goroutines are started; [stuck] is deleted
    first and fails, [gone] is not found, the error of [stuck] is sent,
    [p1] is deleted; the retry returns the error of [stuck], and [p1]
    stays deleted. *)
Example RetryWorkflow_interleaving :
  RetryExamples.retry
    [("stuck", Some RetryExamples.forbidden);
     ("gone", Some RetryExamples.notFound); ("p1", None)]
    ["p2"]
    (Err (Some (statusError Internal "pods stuck is forbidden"))).
Proof.
  pose (ns := "ns1"). pose (cap := 3%nat).
  apply (retry_fanned_out _ _ _ _ _ _ _ _ _
           (Examples.workflow "b" 0 0) ["p1"; "gone"; "stuck"]
           {| fo_cluster := ["p2"]; fo_toSpawn := []; fo_running := [];
              fo_errCh := [RetryExamples.forbidden]; fo_wg := 0;
              fo_calls := [("stuck", Some RetryExamples.forbidden);
                           ("gone", Some RetryExamples.notFound);
                           ("p1", None)] |});
    [reflexivity| |split; reflexivity|reflexivity].
  eapply steps_step; [apply step_go|]. cbn [app].
  eapply steps_step; [apply step_go|]. cbn [app].
  eapply steps_step; [apply step_go|]. cbn [app].
  eapply steps_step;
    [eapply (step_delete _ _ _ _ _ _ "stuck" _ _ [Spawned "p1"; Spawned "gone"] []);
     reflexivity|]. cbn [app].
  eapply steps_step;
    [eapply (step_delete _ _ _ _ _ _ "gone" _ _ [Spawned "p1"] [_]);
     reflexivity|]. cbn [app].
  eapply steps_step;
    [eapply (step_send _ _ _ _ _ "stuck" _ _ [Spawned "p1"; _] []);
     [reflexivity|cbn; lia]|]. cbn [app].
  eapply steps_step;
    [eapply (step_delete _ _ _ _ _ _ "p1" _ _ [] [_; _]); reflexivity|].
  cbn [app].
  eapply steps_step;
    [eapply (step_skip _ _ _ _ _ "gone" _ _ [_] [_]); reflexivity|]. cbn [app].
  eapply steps_step;
    [eapply (step_skip _ _ _ _ _ "p1" _ _ [] [_; _]); exact I|]. cbn [app].
  eapply steps_step; [eapply (step_done _ _ _ _ _ "gone" _ [_] [_])|]. cbn [app].
  eapply steps_step; [eapply (step_done _ _ _ _ _ "p1" _ [] [_])|]. cbn [app].
  eapply steps_step; [eapply (step_done _ _ _ _ _ "stuck" _ [] [])|]. cbn [app].
  apply steps_refl.
Qed.

(** * Further properties of the paginator *)

Section ListWorkflowsSources.

Variable BuildListOptions :
  metav1.ListOptions -> string -> string -> string -> string -> string ->
  sutils.ListOptions * option error.
Variable NewCleaner : string -> Cleaner.
Variable Less : wfv1.Workflow -> wfv1.Workflow -> bool.

(** The server with another list operation of the archive, or of the live
    source, everything else unchanged. *)
Definition withArchiveList (s : workflowServer)
    (f : sutils.ListOptions -> wfv1.Workflows * option error) : workflowServer :=
  {| instanceIDService := instanceIDService s;
     offloadNodeStatusRepo := offloadNodeStatusRepo s;
     hydrator := hydrator s;
     wfArchive :=
       {| archive_ListWorkflows := f;
          archive_CountWorkflows := archive_CountWorkflows (wfArchive s);
          archive_GetWorkflow := archive_GetWorkflow (wfArchive s) |};
     wfLister := wfLister s;
     wfReflector := wfReflector s |}.

Definition withLiveList (s : workflowServer)
    (f : string -> string -> string -> string -> metav1.ListOptions ->
         result wfv1.WorkflowList) : workflowServer :=
  {| instanceIDService := instanceIDService s;
     offloadNodeStatusRepo := offloadNodeStatusRepo s;
     hydrator := hydrator s;
     wfArchive := wfArchive s;
     wfLister :=
       {| lister_ListWorkflows := f;
          lister_CountWorkflows := lister_CountWorkflows (wfLister s) |};
     wfReflector := wfReflector s |}.

(** X1. A caller who may not list gets PermissionDenied, with a message
    that names the namespace of the query; neither source is counted or
    listed, so the reply is the same whatever the sources are. *)
Theorem ListWorkflows_permission_denied s ctx req options :
  builds BuildListOptions s req options ->
  CanI ctx "list" WorkflowPlural (sutils.Namespace options) "" = (false, None) ->
  forall s',
    instanceIDService s' = instanceIDService s ->
    ListWorkflows BuildListOptions NewCleaner Less s' ctx req
    = Err (Some (statusError PermissionDenied
                   (permissionDeniedMessage (sutils.Namespace options)))).
Proof.
  intros Hb Hcan s' Hid. unfold ListWorkflows, builds, listOptionOf in *.
  rewrite Hid, Hb, Hcan. reflexivity.
Qed.

Lemma fetchArchived_skipped s options liveWfCount liveWfList :
  0 < sutils.Limit options ->
  0 <= sutils.Offset options ->
  sutils.Offset options + sutils.Limit options <= liveWfCount ->
  liveWfCount < 2 ^ 63 ->
  fetchArchived s options liveWfCount liveWfList = Ok [].
Proof.
  intros Hl Ho Hfit Hn. unfold fetchArchived.
  destruct (Z.eqb_spec (sutils.Limit options) 0) as [|_]; [lia|]. cbn [orb].
  unfold int64_add. rewrite wrap64_small by lia.
  destruct (Z.ltb_spec liveWfCount (sutils.Offset options + sutils.Limit options));
    [lia|reflexivity].
Qed.

Lemma fetchLive_skipped s req listOption options liveWfCount :
  liveWfCount <= 0
  \/ (sutils.Limit options <> 0 /\ liveWfCount <= sutils.Offset options) ->
  fetchLive s req listOption options liveWfCount = Ok wfv1.emptyWorkflowList.
Proof.
  intros Hskip. unfold fetchLive.
  destruct (Z.ltb_spec 0 liveWfCount) as [Hpos|_]; [|reflexivity]. cbn [andb].
  destruct Hskip as [|[Hl Ho]]; [lia|].
  destruct (Z.eqb_spec (sutils.Limit options) 0) as [|_]; [contradiction|].
  destruct (Z.ltb_spec (sutils.Offset options) liveWfCount); [lia|reflexivity].
Qed.

(** X2. A page that fits in the live workflows (a positive limit, and
    offset + limit within the live count) is answered without listing the
    archive; and when the live source counts nothing, or the page starts
    at or after the live count, the live source is not listed. The reply
    does not depend on the list operation that is skipped. *)
Theorem ListWorkflows_skips_sources s ctx req options liveWfCount archivedCount :
  builds BuildListOptions s req options ->
  counts s ctx req options liveWfCount archivedCount ->
  (0 < sutils.Limit options ->
   0 <= sutils.Offset options ->
   sutils.Offset options + sutils.Limit options <= liveWfCount < 2 ^ 63 ->
   forall f,
     ListWorkflows BuildListOptions NewCleaner Less (withArchiveList s f) ctx req
     = ListWorkflows BuildListOptions NewCleaner Less s ctx req)
  /\ (liveWfCount <= 0
      \/ (sutils.Limit options <> 0 /\ liveWfCount <= sutils.Offset options) ->
      forall f,
        ListWorkflows BuildListOptions NewCleaner Less (withLiveList s f) ctx req
        = ListWorkflows BuildListOptions NewCleaner Less s ctx req).
Proof.
  intros Hb (Hcan & Hlive & Harch). unfold builds, listOptionOf in *. split.
  - intros Hl Ho Hfit f. unfold ListWorkflows.
    cbn [withArchiveList instanceIDService wfLister wfArchive
           archive_CountWorkflows].
    rewrite Hb, Hcan. cbn [orStatus bind negb]. rewrite Hlive, Harch.
    cbn [orStatus bind].
    replace (fetchLive (withArchiveList s f)) with (fetchLive s) by reflexivity.
    destruct (fetchLive s req _ options liveWfCount) as [liveWfList| |];
      [|reflexivity..].
    cbn [bind]. rewrite !fetchArchived_skipped by lia. reflexivity.
  - intros Hskip f. unfold ListWorkflows.
    cbn [withLiveList instanceIDService wfLister wfArchive
           lister_CountWorkflows].
    rewrite Hb, Hcan. cbn [orStatus bind negb]. rewrite Hlive, Harch.
    cbn [orStatus bind].
    rewrite !fetchLive_skipped by assumption. reflexivity.
Qed.

End ListWorkflowsSources.

Lemma ListWorkflows_permission_denied_witness :
  ListWorkflows Examples.buildListOptions Examples.newCleaner Examples.less
    (Examples.server [] []) Examples.denyAll (Examples.listRequest 2 "0")
  = Err (Some (statusError PermissionDenied (permissionDeniedMessage "ns1"))).
Proof.
  refine (ListWorkflows_permission_denied
            Examples.buildListOptions Examples.newCleaner Examples.less
            Examples.scenarioServer Examples.denyAll (Examples.listRequest 2 "0")
            (fst (Examples.buildListOptions
                    (listOptionOf Examples.scenarioServer (Examples.listRequest 2 "0"))
                    "ns1" "" "" "" ""))
            _ _ (Examples.server [] []) _); reflexivity.
Defined.

Lemma ListWorkflows_skips_sources_witness :
  ListWorkflows Examples.buildListOptions Examples.newCleaner Examples.less
    (withArchiveList Examples.scenarioServer
       (fun _ => ([], Some (errorString "archive is down"))))
    Examples.allowAll (Examples.listRequest 2 "0")
  = Ok (Examples.page "1" "2" 1 [Examples.wf_c; Examples.wf_b]).
Proof.
  refine (eq_trans
            (proj1 (ListWorkflows_skips_sources
                      Examples.buildListOptions Examples.newCleaner Examples.less
                      Examples.scenarioServer Examples.allowAll
                      (Examples.listRequest 2 "0")
                      (fst (Examples.buildListOptions
                              (listOptionOf Examples.scenarioServer
                                 (Examples.listRequest 2 "0"))
                              "ns1" "" "" "" ""))
                      2 1 _ _) _ _ _ _) _).
  - reflexivity.
  - repeat split; reflexivity.
  - reflexivity.
  - discriminate.
  - split; [discriminate|reflexivity].
  - vm_compute. reflexivity.
Defined.

(** The continue token and the remaining count of the list metadata, for
    counts, an offset and a page length of a store. *)
Lemma listMeta_in_range s options liveWfCount archivedCount liveWfList
    (wfs : wfv1.Workflows) :
  0 <= liveWfCount < 2 ^ 62 ->
  0 <= archivedCount < 2 ^ 62 ->
  0 <= sutils.Offset options < 2 ^ 62 ->
  len wfs < 2 ^ 62 ->
  let remaining :=
    Z.max 0 (liveWfCount + archivedCount - sutils.Offset options - len wfs) in
  let meta :=
    listMeta s options (int64_add liveWfCount archivedCount) liveWfList wfs in
  metav1.ContinueToken meta
  = (if 0 <? remaining then pretty (sutils.Offset options + len wfs) else "")
  /\ metav1.RemainingItemCount meta
     = (if sutils.ShowRemainingItemCount options then Some remaining else None).
Proof.
  intros Hl Ha Ho Hlen remaining meta. subst meta remaining. unfold listMeta.
  cbn [metav1.ContinueToken metav1.RemainingItemCount].
  pose proof (len_nonneg wfs) as Hp. revert Hp Hlen.
  generalize (len wfs) as n. intros n Hp Hlen.
  unfold int64_add, int64_sub.
  rewrite (wrap64_small (liveWfCount + archivedCount)) by lia.
  rewrite (wrap64_small (liveWfCount + archivedCount - _)) by lia.
  rewrite (wrap64_small (liveWfCount + archivedCount - _ - _)) by lia.
  rewrite (wrap64_small (_ + n)) by lia.
  set (r := liveWfCount + archivedCount - sutils.Offset options - n).
  destruct (Z.ltb_spec r 0) as [Hneg|Hneg].
  - now rewrite Z.max_l by lia.
  - now rewrite Z.max_r by lia.
Qed.

Section FixedDataPages.

Variable BuildListOptions :
  metav1.ListOptions -> string -> string -> string -> string -> string ->
  sutils.ListOptions * option error.
Variable NewCleaner : string -> Cleaner.
Variable Less : wfv1.Workflow -> wfv1.Workflow -> bool.

Variable s : workflowServer.
Variable resourceVersion : string.
Variables live archived : wfv1.Workflows.
Hypothesis s_lister : wfLister s = fixedLister BuildListOptions resourceVersion live.
Hypothesis s_archive : wfArchive s = fixedArchive archived.

(** The reply for a positive limit: its items and its metadata. *)
Lemma ListWorkflows_fixed_reply ctx req options :
  builds BuildListOptions s req options ->
  CanI ctx "list" WorkflowPlural (sutils.Namespace options) "" = (true, None) ->
  noProjection NewCleaner req ->
  offloadLoads s req ->
  0 <= sutils.Offset options < 2 ^ 62 ->
  0 < sutils.Limit options < 2 ^ 62 ->
  len live < 2 ^ 62 ->
  let window :=
    take (Z.to_nat (sutils.Limit options))
      (drop (Z.to_nat (sutils.Offset options)) (live ++ archived)) in
  exists res liveWfList,
    ListWorkflows BuildListOptions NewCleaner Less s ctx req = Ok res
    /\ wfv1.Items res
       = sort_Sort Less (offloadedView NewCleaner s req window)
    /\ wfv1.ListMeta res
       = listMeta s options (int64_add (len live) (len archived)) liveWfList
           window.
Proof.
  intros Hb Hcan Hclean Hoff Ho Hl Hn window.
  assert (Hc : counts s ctx req options (len live) (len archived)).
  { repeat split; [assumption| |]; [rewrite s_lister|rewrite s_archive];
      reflexivity. }
  rewrite (ListWorkflows_listPage _ _ _ _ _ _ _ _ _ Hb Hc Hclean).
  unfold listPage.
  destruct (fetchLive_window BuildListOptions s resourceVersion live s_lister
              req options Hb) as (liveWfList & -> & Hitems); [lia..|].
  cbn [bind].
  rewrite (fetchArchived_window s live archived s_archive _ _ Ho Hl Hn Hitems).
  cbn [bind]. rewrite loadOffloaded_view by assumption. cbn [bind].
  exists {| wfv1.ListMeta :=
              listMeta s options (int64_add (len live) (len archived))
                liveWfList window;
            wfv1.Items := sort_Sort Less (offloadedView NewCleaner s req window) |},
    liveWfList.
  subst window. rewrite window_app, <- Hitems. repeat split.
Qed.

(** X3. Over a fixed data set, a page with a positive limit holds
    [min(limit, total - offset)] workflows, none when the offset is at or
    beyond the total; it carries a continue token exactly when workflows
    are left beyond [offset + limit], and the token is then the decimal
    form of [offset + limit]: a page that is followed by another one is
    full. *)
Theorem ListWorkflows_page_size ctx req options :
  builds BuildListOptions s req options ->
  CanI ctx "list" WorkflowPlural (sutils.Namespace options) "" = (true, None) ->
  noProjection NewCleaner req ->
  offloadLoads s req ->
  0 <= sutils.Offset options < 2 ^ 62 ->
  0 < sutils.Limit options < 2 ^ 62 ->
  len live + len archived < 2 ^ 62 ->
  let offset := sutils.Offset options in
  let limit := sutils.Limit options in
  let total := len live + len archived in
  exists res,
    ListWorkflows BuildListOptions NewCleaner Less s ctx req = Ok res
    /\ len (wfv1.Items res) = Z.min limit (Z.max 0 (total - offset))
    /\ (metav1.ContinueToken (wfv1.ListMeta res) <> EmptyString
        <-> offset + limit < total)
    /\ (offset + limit < total ->
        metav1.ContinueToken (wfv1.ListMeta res) = pretty (offset + limit)
        /\ len (wfv1.Items res) = limit).
Proof.
  intros Hb Hcan Hclean Hoff Ho Hl Htotal offset limit total.
  pose proof (len_nonneg live) as Hlive.
  pose proof (len_nonneg archived) as Harch.
  destruct (ListWorkflows_fixed_reply ctx req options Hb Hcan Hclean Hoff Ho Hl)
    as (res & liveWfList & Hres & Hitems & Hmeta); [lia|].
  exists res. split; [assumption|].
  set (window := take (Z.to_nat (sutils.Limit options))
                   (drop (Z.to_nat (sutils.Offset options)) (live ++ archived)))
    in *.
  assert (Hwindow : len window = Z.min limit (Z.max 0 (total - offset))).
  { subst window total limit offset. unfold len.
    rewrite length_take, length_drop, length_app. lia. }
  assert (Hlen : len (wfv1.Items res) = len window).
  { rewrite Hitems, len_sort_Sort. unfold offloadedView.
    destruct (_ && _); [apply len_map|reflexivity]. }
  destruct (listMeta_in_range s options (len live) (len archived) liveWfList
              window) as [Htoken _]; [lia..|].
  cbn zeta in Htoken. rewrite Hmeta, Htoken, Hlen, Hwindow.
  fold offset limit total.
  destruct (Z.ltb_spec 0 (Z.max 0 (total - offset
              - Z.min limit (Z.max 0 (total - offset))))) as [Hpos|Hnone].
  - assert (offset + limit < total) by lia.
    replace (Z.min limit (Z.max 0 (total - offset))) with limit by lia.
    repeat split; auto using pretty_Z_nonempty.
  - repeat split; try tauto; lia.
Qed.

End FixedDataPages.

Lemma ListWorkflows_page_size_witness :
  exists res,
    Examples.scenario 2 "2" = Ok res
    /\ len (wfv1.Items res) = Z.min 2 (Z.max 0 (2 + 1 - 2))
    /\ (metav1.ContinueToken (wfv1.ListMeta res) <> EmptyString <-> 2 + 2 < 2 + 1)
    /\ (2 + 2 < 2 + 1 ->
        metav1.ContinueToken (wfv1.ListMeta res) = pretty (2 + 2)
        /\ len (wfv1.Items res) = 2).
Proof.
  refine (ListWorkflows_page_size
            Examples.buildListOptions Examples.newCleaner Examples.less
            Examples.scenarioServer "1" [Examples.wf_b; Examples.wf_c]
            [Examples.wf_a] _ _ Examples.allowAll (Examples.listRequest 2 "2")
            (fst (Examples.buildListOptions
                    (listOptionOf Examples.scenarioServer (Examples.listRequest 2 "2"))
                    "ns1" "" "" "" ""))
            _ _ _ _ _ _ _).
  - reflexivity.
  - reflexivity.
  - reflexivity.
  - reflexivity.
  - intros l. reflexivity.
  - reflexivity.
  - change (0 <= 2 < 2 ^ 62). lia.
  - change (0 < 2 < 2 ^ 62). lia.
  - change (2 + 1 < 2 ^ 62). lia.
Defined.

(** * Further properties of the alias resolution *)

(** X4. A lookup by name returns a workflow in two cases only: the live
    lookup returned it, or the live lookup failed, the caller is permitted
    to get the workflow and the archive holds it. An archived workflow is
    never returned to a caller who is not permitted, and a live workflow is
    returned without a permission check of the server's own. *)
Theorem getWorkflow_ok_iff s ctx wfClient namespace name options wf :
  name <> latestAlias ->
  getWorkflow s ctx wfClient namespace name options = Ok wf
  <-> wf_Get wfClient namespace name options = (Some wf, None)
      \/ ((forall w, wf_Get wfClient namespace name options <> (Some w, None))
          /\ CanI ctx "get" WorkflowPlural namespace name = (true, None)
          /\ archive_GetWorkflow (wfArchive s) "" namespace name = (Some wf, None)).
Proof.
  intros Hname. unfold getWorkflow, getWorkflowOrigErr.
  destruct (String.eqb_spec name latestAlias) as [|_]; [contradiction|].
  destruct (wf_Get wfClient namespace name options) as [live origErr].
  assert (Hfallback :
    forall r,
      r = match CanI ctx "get" WorkflowPlural namespace name with
          | (_, Some _) => Err (ToStatusError origErr Internal)
          | (false, None) => Err (ToStatusError origErr Internal)
          | (true, None) =>
            match archive_GetWorkflow (wfArchive s) "" namespace name with
            | (Some wf, None) => Ok wf
            | (_, _) => Err (ToStatusError origErr Internal)
            end
          end ->
      r = Ok wf
      <-> CanI ctx "get" WorkflowPlural namespace name = (true, None)
          /\ archive_GetWorkflow (wfArchive s) "" namespace name = (Some wf, None)).
  { intros r ->.
    destruct (CanI ctx _ _ _ _) as [[|] [e|]];
      try (split; [discriminate|intros [[=] _]]).
    destruct (archive_GetWorkflow _ _ _ _) as [[awf|] [e|]];
      try (split; [discriminate|intros [_ [=]]]).
    split; [intros [= ->]; auto|intros [_ [= ->]]; reflexivity]. }
  destruct live as [w|], origErr as [e|].
  - rewrite (Hfallback _ eq_refl). split.
    + intros H. right. split; [intros w' [=]|exact H].
    + intros [[=]|[_ H]]. exact H.
  - split.
    + intros [= ->]. now left.
    + intros [[= ->]|[H _]]; [reflexivity|]. now destruct (H w).
  - rewrite (Hfallback _ eq_refl). split.
    + intros H. right. split; [intros w' [=]|exact H].
    + intros [[=]|[_ H]]. exact H.
  - rewrite (Hfallback _ eq_refl). split.
    + intros H. right. split; [intros w' [=]|exact H].
    + intros [[=]|[_ H]]. exact H.
Qed.

Lemma getWorkflow_ok_iff_witness :
  getWorkflow Examples.scenarioServer Examples.allowAll
    {| wf_Get _ _ _ :=
         (None, Some (apiStatusError StatusReasonNotFound "workflows a not found"));
       wf_List _ _ := Err None; wf_Create _ _ := Err None;
       wf_Watch _ _ := None |}
    "ns1" "a" emptyGetOptions
  = Ok Examples.wf_a.
Proof.
  refine (proj2 (getWorkflow_ok_iff Examples.scenarioServer Examples.allowAll
                   _ "ns1" "a" emptyGetOptions Examples.wf_a _) _).
  - discriminate.
  - right. split; [intros w; discriminate|split; reflexivity].
Defined.

(** * [GetWorkflow] *)

(** [workflowpkg.WorkflowGetRequest]. *)
Record WorkflowGetRequest := {
  get_Name : string;
  get_Namespace : string;
  get_GetOptions : option GetOptions;       (* a pointer, may be nil *)
  get_Fields : string
}.

Section GetWorkflow.

Variable NewCleaner : string -> Cleaner.

(** [wfClient] is [auth.GetWfClient(ctx)]. *)
Definition GetWorkflow (s : workflowServer) (ctx : Context)
    (wfClient : WorkflowInterface) (req : WorkflowGetRequest)
  : result wfv1.Workflow :=
  let wfGetOption := default emptyGetOptions (get_GetOptions req) in
  match getWorkflow s ctx wfClient (get_Namespace req) (get_Name req)
          wfGetOption with
  | Err (Some err) => Err (ToStatusError (Some err) Internal)
  | Panic => Panic
  | r =>
    match validateWorkflow s (pointerOf r) with
    | Some err => Err (ToStatusError (Some err) InvalidArgument)
    | None =>
      match pointerOf r with
      | None => Panic     (* the nil workflow reaches the hydrator or the cleaner *)
      | Some wf =>
        let cleaner := NewCleaner (get_Fields req) in
        let '(wf, err) :=
          if negb (WillExclude cleaner "status.nodes")
          then Hydrate (hydrator s) wf else (wf, None) in
        match err with
        | Some err => Err (ToStatusError (Some err) Internal)
        | None =>
          match CleanWorkflow cleaner wf with
          | (_, _, Some err) =>
              (* should this be InvalidArgument? *)
              Err (ToStatusError
                     (Some (wrapError "unable to CleanFields in request: " err))
                     Internal)
          | (true, newWf, None) => Ok newWf
          | (false, _, None) => Ok wf
          end
        end
      end
    end
  end.

(** The server with another hydrator. *)
Definition withHydrator (s : workflowServer) (h : Hydrator) : workflowServer :=
  {| instanceIDService := instanceIDService s;
     offloadNodeStatusRepo := offloadNodeStatusRepo s;
     hydrator := h;
     wfArchive := wfArchive s;
     wfLister := wfLister s;
     wfReflector := wfReflector s |}.

(** X5. When the fields asked for exclude [status.nodes], [GetWorkflow]
    does not hydrate: the reply is the same with any hydrator, also one
    that fails; and for a workflow that is found and valid it is the
    projection of the stored workflow if the cleaner applies one, the
    stored workflow otherwise. *)
Theorem GetWorkflow_skips_hydration s ctx wfClient req :
  WillExclude (NewCleaner (get_Fields req)) "status.nodes" = true ->
  (forall h,
     GetWorkflow (withHydrator s h) ctx wfClient req
     = GetWorkflow s ctx wfClient req)
  /\ (forall wf,
        getWorkflow s ctx wfClient (get_Namespace req) (get_Name req)
          (default emptyGetOptions (get_GetOptions req)) = Ok wf ->
        Validate (instanceIDService s) (Some wf) = None ->
        forall ok newWf,
          CleanWorkflow (NewCleaner (get_Fields req)) wf = (ok, newWf, None) ->
          GetWorkflow s ctx wfClient req = Ok (if ok then newWf else wf)).
Proof.
  intros Hex. split.
  - intros h. unfold GetWorkflow.
    replace (getWorkflow (withHydrator s h)) with (getWorkflow s) by reflexivity.
    replace (validateWorkflow (withHydrator s h)) with (validateWorkflow s)
      by reflexivity.
    rewrite Hex. reflexivity.
  - intros wf Hget Hvalid ok newWf Hclean. unfold GetWorkflow.
    rewrite Hget. unfold validateWorkflow, pointerOf. rewrite Hvalid.
    cbn [ToStatusError]. rewrite Hex. cbn [negb]. rewrite Hclean.
    now destruct ok.
Qed.

End GetWorkflow.

Lemma GetWorkflow_skips_hydration_witness :
  GetWorkflow
    (fun _ => {| WillExclude _ := true;
                 CleanList l := (false, l, None);
                 CleanWorkflow wf := (false, wf, None) |})
    (withHydrator Examples.scenarioServer
       {| Hydrate wf := (wf, Some (errorString "offload store is down"));
          Dehydrate wf := (wf, None) |})
    Examples.allowAll
    {| wf_Get _ name _ := (Some (Examples.workflow name 0 0), None);
       wf_List _ _ := Err None; wf_Create _ _ := Err None;
       wf_Watch _ _ := None |}
    {| get_Name := "b"; get_Namespace := "ns1"; get_GetOptions := None;
       get_Fields := "metadata" |}
  = Ok (Examples.workflow "b" 0 0).
Proof.
  refine (eq_trans
            (proj1 (GetWorkflow_skips_hydration _ Examples.scenarioServer
                      Examples.allowAll _ _ _) _) _);
    reflexivity.
Defined.

(** * Further properties of [CreateWorkflow] and [SetWorkflow] *)

Section CreateWorkflowMore.

Variable LabelCreator : Context -> wfv1.Workflow -> wfv1.Workflow.
Variable ValidateWorkflow :
  workflowServer -> Context -> wfv1.Workflow -> wfv1.Workflow * option error.
Variable CreateServerDryRun :
  wfv1.Workflow -> WorkflowInterface -> result wfv1.Workflow.

(** What the validation makes of the body of a request: the namespace of
    the request is filled in if the body has none, the labels of the
    instance and of the creator are set, and the workflow is validated. *)
Definition validatedBody (s : workflowServer) (ctx : Context)
    (req : workflowpkg.WorkflowCreateRequest) (body : wfv1.Workflow)
  : wfv1.Workflow * option error :=
  ValidateWorkflow s ctx
    (LabelCreator ctx
       (Label (instanceIDService s)
          (if String.eqb (wfv1.Namespace body) ""
           then wfv1.withNamespace body (workflowpkg.create_Namespace req)
           else body))).

(** X6. A request without a body, a body that fails the validation and a
    client-side dry run are answered without any call to the substrate:
    the first two with InvalidArgument, the dry run with the validated
    workflow, also when a server-side dry run is asked for as well. *)
Theorem CreateWorkflow_without_substrate s ctx req :
  (workflowpkg.create_Workflow req = None ->
   forall wfClient,
     CreateWorkflow LabelCreator ValidateWorkflow CreateServerDryRun
       s ctx wfClient req
     = Err (Some (statusError InvalidArgument "workflow body not specified")))
  /\ (forall body wf err,
        workflowpkg.create_Workflow req = Some body ->
        validatedBody s ctx req body = (wf, Some err) ->
        carriesStatus err = false ->
        forall wfClient,
          CreateWorkflow LabelCreator ValidateWorkflow CreateServerDryRun
            s ctx wfClient req
          = Err (Some (statusError InvalidArgument (Error err))))
  /\ (forall body wf dryRun,
        workflowpkg.create_Workflow req = Some body ->
        validatedBody s ctx req body = (wf, None) ->
        workflowpkg.create_CreateOptions req = Some dryRun ->
        dryRun <> [] ->
        forall wfClient,
          CreateWorkflow LabelCreator ValidateWorkflow CreateServerDryRun
            s ctx wfClient req
          = Ok wf).
Proof.
  unfold CreateWorkflow, validatedBody. repeat split.
  - intros -> wfClient. reflexivity.
  - intros body wf err -> -> Hlow wfClient. now rewrite ToStatusError_code.
  - intros body wf dryRun -> -> -> Hne wfClient.
    destruct dryRun as [|x dryRun]; [contradiction|].
    assert (Hlen : (0 <? len (x :: dryRun)) = true).
    { apply Z.ltb_lt. unfold len. cbn [length]. lia. }
    now rewrite Hlen.
Qed.

End CreateWorkflowMore.

Lemma CreateWorkflow_without_substrate_witness :
  CreateWorkflow (fun _ wf => wf) (fun _ _ wf => (wf, None)) (fun wf _ => Ok wf)
    Examples.scenarioServer Examples.allowAll CreateExamples.timingOut
    {| workflowpkg.create_Namespace := "ns1";
       workflowpkg.create_Workflow := Some CreateExamples.named;
       workflowpkg.create_ServerDryRun := true;
       workflowpkg.create_CreateOptions := Some ["All"] |}
  = Ok CreateExamples.named.
Proof.
  refine (proj2 (proj2 (CreateWorkflow_without_substrate
                          (fun _ wf => wf) (fun _ _ wf => (wf, None))
                          (fun wf _ => Ok wf)
                          Examples.scenarioServer Examples.allowAll _))
            CreateExamples.named CreateExamples.named ["All"] _ _ _ _
            CreateExamples.timingOut).
  - reflexivity.
  - reflexivity.
  - reflexivity.
  - discriminate.
Defined.

Section SetWorkflowMore.

Variable Cluster : Type.
Variable clientAt : Cluster -> WorkflowInterface.
Variable util_SetWorkflow :
  Cluster -> string -> Hydrator -> string -> string -> SetOperationValues ->
  Cluster * option error.

(** X7. Output parameters that do not parse are rejected with
    InvalidArgument and nothing is set; and output parameters that are
    empty are not parsed at all: the operation is the same with any
    parser. *)
Theorem SetWorkflow_output_parameters s ctx c req json_Unmarshal :
  phasePassesValidation (workflowpkg.set_Phase req) = true ->
  (forall wf partial err,
     found Cluster clientAt s ctx c req wf ->
     workflowpkg.set_OutputParameters req <> "" ->
     json_Unmarshal (workflowpkg.set_OutputParameters req) = (partial, Some err) ->
     SetWorkflow Cluster clientAt util_SetWorkflow json_Unmarshal s ctx c req
     = (c, Err (Some (statusError InvalidArgument
                        ("unable to parse output parameter set request: "
                         +:+ Error err)))))
  /\ (workflowpkg.set_OutputParameters req = "" ->
      forall json_Unmarshal',
        SetWorkflow Cluster clientAt util_SetWorkflow json_Unmarshal' s ctx c req
        = SetWorkflow Cluster clientAt util_SetWorkflow json_Unmarshal s ctx c req).
Proof.
  intros Hphase. split.
  - intros wf partial err (Hget & Hvalid) Hne Hparse. unfold SetWorkflow.
    rewrite Hget. unfold validateWorkflow, pointerOf. rewrite Hvalid.
    cbn [ToStatusError]. rewrite Hphase.
    destruct (String.eqb_spec (workflowpkg.set_OutputParameters req) "");
      [contradiction|].
    cbn [negb]. rewrite Hparse. reflexivity.
  - intros Hempty json_Unmarshal'. unfold SetWorkflow. rewrite Hempty.
    reflexivity.
Qed.

End SetWorkflowMore.

Lemma SetWorkflow_output_parameters_witness :
  SetWorkflow SetExamples.Cluster SetExamples.clientAt SetExamples.setWorkflow
    (fun _ => (∅, Some (errorString "unexpected end of JSON input")))
    Examples.scenarioServer Examples.allowAll 0%nat
    {| workflowpkg.set_Name := "b"; workflowpkg.set_Namespace := "ns1";
       workflowpkg.set_NodeFieldSelector := ""; workflowpkg.set_Message := "";
       workflowpkg.set_Phase := "Succeeded";
       workflowpkg.set_OutputParameters := "{" |}
  = (0%nat,
     Err (Some (statusError InvalidArgument
                  "unable to parse output parameter set request: unexpected end of JSON input"))).
Proof.
  refine (proj1 (SetWorkflow_output_parameters
                   SetExamples.Cluster SetExamples.clientAt
                   SetExamples.setWorkflow Examples.scenarioServer
                   Examples.allowAll 0%nat _ _ _)
            (Examples.workflow "b" 0 0) ∅
            (errorString "unexpected end of JSON input") _ _ _).
  - reflexivity.
  - split; reflexivity.
  - discriminate.
  - reflexivity.
Defined.

(** * The other lifecycle operations *)

(** The requests of [workflowpkg] for the operations below. *)
Record WorkflowDeleteRequest := {
  del_Name : string;
  del_Namespace : string;
  del_Force : bool
}.

Record WorkflowResubmitRequest := {
  resubmit_Name : string;
  resubmit_Namespace : string;
  resubmit_Memoized : bool;
  resubmit_Parameters : list string
}.

Record WorkflowResumeRequest := {
  resume_Name : string;
  resume_Namespace : string;
  resume_NodeFieldSelector : string
}.

Record WorkflowSuspendRequest := {
  suspend_Name : string;
  suspend_Namespace : string
}.

Record WorkflowTerminateRequest := {
  terminate_Name : string;
  terminate_Namespace : string
}.

Record WorkflowStopRequest := {
  stop_Name : string;
  stop_Namespace : string;
  stop_NodeFieldSelector : string;
  stop_Message : string
}.

(** The merge patch of a forced delete: the finalizers are set to null. *)
Definition finalizersPatch : string :=
  "{" +:+ dquote +:+ "metadata" +:+ dquote +:+ ":{" +:+ dquote +:+ "finalizers"
  +:+ dquote +:+ ":null}}".

(** The lines every operation below starts with: the workflow is looked
    up (an error is re-coded with Internal) and its identity is validated
    (an error is re-coded with InvalidArgument); the nil workflow of a
    lookup without an error is dereferenced by what follows. *)
Definition lookup (s : workflowServer) (ctx : Context)
    (wfClient : WorkflowInterface) (namespace name : string)
  : result wfv1.Workflow :=
  match getWorkflow s ctx wfClient namespace name emptyGetOptions with
  | Err (Some err) => Err (ToStatusError (Some err) Internal)
  | Panic => Panic
  | r =>
    match validateWorkflow s (pointerOf r) with
    | Some err => Err (ToStatusError (Some err) InvalidArgument)
    | None => match pointerOf r with Some wf => Ok wf | None => Panic end
    end
  end.

Section LifecycleMore.

Variable Cluster : Type.
Variable clientAt : Cluster -> WorkflowInterface.

(** [Workflows(namespace).Patch(ctx, name, types.MergePatchType, patch,
    opts)], of which only the error is read, and
    [Workflows(namespace).Delete(ctx, name, opts)], whose options carry the
    propagation policy of the environment. *)
Variable wf_Patch : Cluster -> string -> string -> string -> Cluster * option error.
Variable wf_Delete : Cluster -> string -> string -> Cluster * option error.

(** [util.ResumeWorkflow(ctx, wfIf, hydrator, name, nodeFieldSelector)],
    [util.SuspendWorkflow(ctx, wfIf, name)],
    [util.TerminateWorkflow(ctx, wfIf, name)],
    [util.StopWorkflow(ctx, wfIf, hydrator, name, nodeFieldSelector,
    message)], with the namespace of [wfIf] first. *)
Variable util_ResumeWorkflow :
  Cluster -> string -> Hydrator -> string -> string -> Cluster * option error.
Variable util_SuspendWorkflow : Cluster -> string -> string -> Cluster * option error.
Variable util_TerminateWorkflow : Cluster -> string -> string -> Cluster * option error.
Variable util_StopWorkflow :
  Cluster -> string -> Hydrator -> string -> string -> string ->
  Cluster * option error.

(** [util.FormulateResubmitWorkflow(ctx, wf, memoized, parameters)],
    [creator.LabelCreator] and [util.SubmitWorkflow(ctx, wfIf, wfClient,
    namespace, wf, wfDefaults, opts)]. *)
Variable FormulateResubmitWorkflow :
  wfv1.Workflow -> bool -> list string -> option wfv1.Workflow * option error.
Variable LabelCreator : Context -> option wfv1.Workflow -> option wfv1.Workflow.
Variable util_SubmitWorkflow :
  Cluster -> string -> option wfv1.Workflow ->
  Cluster * (option wfv1.Workflow * option error).

(** After a mutation: [Internal] on its error, else the workflow is read
    again and returned. *)
Definition thenRefetch (r : Cluster * option error) (namespace name : string)
  : Cluster * result wfv1.Workflow :=
  match r with
  | (c', Some err) => (c', Err (ToStatusError (Some err) Internal))
  | (c', None) => (c', refetch Cluster clientAt c' namespace name)
  end.

Definition DeleteWorkflow (s : workflowServer) (ctx : Context) (c : Cluster)
    (req : WorkflowDeleteRequest) : Cluster * result unit :=
  match lookup s ctx (clientAt c) (del_Namespace req) (del_Name req) with
  | Err e => (c, Err e)
  | Panic => (c, Panic)
  | Ok wf =>
    let '(c, err) :=
      if del_Force req
      then wf_Patch c (wfv1.Namespace wf) (wfv1.Name wf) finalizersPatch
      else (c, None) in
    match err with
    | Some err => (c, Err (ToStatusError (Some err) Internal))
    | None =>
      match wf_Delete c (wfv1.Namespace wf) (wfv1.Name wf) with
      | (c, Some err) => (c, Err (ToStatusError (Some err) Internal))
      | (c, None) => (c, Ok tt)
      end
    end
  end.

Definition ResubmitWorkflow (s : workflowServer) (ctx : Context) (c : Cluster)
    (req : WorkflowResubmitRequest) : Cluster * result wfv1.Workflow :=
  match lookup s ctx (clientAt c) (resubmit_Namespace req) (resubmit_Name req) with
  | Err e => (c, Err e)
  | Panic => (c, Panic)
  | Ok wf =>
    match FormulateResubmitWorkflow wf (resubmit_Memoized req)
            (resubmit_Parameters req) with
    | (_, Some err) => (c, Err (ToStatusError (Some err) Internal))
    | (newWF, None) =>
      let newWF := LabelCreator ctx newWF in
      match util_SubmitWorkflow c (resubmit_Namespace req) newWF with
      | (c, (_, Some err)) => (c, Err (ToStatusError (Some err) Internal))
      | (c, (created, None)) => (c, returnPointer created)
      end
    end
  end.

Definition ResumeWorkflow (s : workflowServer) (ctx : Context) (c : Cluster)
    (req : WorkflowResumeRequest) : Cluster * result wfv1.Workflow :=
  match lookup s ctx (clientAt c) (resume_Namespace req) (resume_Name req) with
  | Err e => (c, Err e)
  | Panic => (c, Panic)
  | Ok wf =>
    thenRefetch
      (util_ResumeWorkflow c (resume_Namespace req) (hydrator s) (wfv1.Name wf)
         (resume_NodeFieldSelector req))
      (resume_Namespace req) (wfv1.Name wf)
  end.

Definition SuspendWorkflow (s : workflowServer) (ctx : Context) (c : Cluster)
    (req : WorkflowSuspendRequest) : Cluster * result wfv1.Workflow :=
  match lookup s ctx (clientAt c) (suspend_Namespace req) (suspend_Name req) with
  | Err e => (c, Err e)
  | Panic => (c, Panic)
  | Ok wf =>
    thenRefetch
      (util_SuspendWorkflow c (wfv1.Namespace wf) (wfv1.Name wf))
      (suspend_Namespace req) (wfv1.Name wf)
  end.

Definition TerminateWorkflow (s : workflowServer) (ctx : Context) (c : Cluster)
    (req : WorkflowTerminateRequest) : Cluster * result wfv1.Workflow :=
  match lookup s ctx (clientAt c) (terminate_Namespace req) (terminate_Name req) with
  | Err e => (c, Err e)
  | Panic => (c, Panic)
  | Ok wf =>
    thenRefetch
      (util_TerminateWorkflow c (terminate_Namespace req) (wfv1.Name wf))
      (terminate_Namespace req) (wfv1.Name wf)
  end.

Definition StopWorkflow (s : workflowServer) (ctx : Context) (c : Cluster)
    (req : WorkflowStopRequest) : Cluster * result wfv1.Workflow :=
  match lookup s ctx (clientAt c) (stop_Namespace req) (stop_Name req) with
  | Err e => (c, Err e)
  | Panic => (c, Panic)
  | Ok wf =>
    thenRefetch
      (util_StopWorkflow c (stop_Namespace req) (hydrator s) (wfv1.Name wf)
         (stop_NodeFieldSelector req) (stop_Message req))
      (stop_Namespace req) (wfv1.Name wf)
  end.

End LifecycleMore.

Lemma lookup_rejected s ctx wfClient namespace name wf err :
  getWorkflow s ctx wfClient namespace name emptyGetOptions = Ok wf ->
  Validate (instanceIDService s) (Some wf) = Some err ->
  carriesStatus err = false ->
  lookup s ctx wfClient namespace name
  = Err (Some (statusError InvalidArgument (Error err))).
Proof.
  intros Hget Hvalid Hlow. unfold lookup, validateWorkflow. rewrite Hget.
  cbn [pointerOf]. rewrite Hvalid, ToStatusError_code by assumption.
  reflexivity.
Qed.

Lemma lookup_found s ctx wfClient namespace name wf :
  getWorkflow s ctx wfClient namespace name emptyGetOptions = Ok wf ->
  Validate (instanceIDService s) (Some wf) = None ->
  lookup s ctx wfClient namespace name = Ok wf.
Proof.
  intros Hget Hvalid. unfold lookup, validateWorkflow. rewrite Hget.
  cbn [pointerOf]. now rewrite Hvalid.
Qed.

Section LifecycleMoreProperties.

Variable Cluster : Type.
Variable clientAt : Cluster -> WorkflowInterface.
Variable wf_Patch : Cluster -> string -> string -> string -> Cluster * option error.
Variable wf_Delete : Cluster -> string -> string -> Cluster * option error.
Variable util_ResumeWorkflow :
  Cluster -> string -> Hydrator -> string -> string -> Cluster * option error.
Variable util_SuspendWorkflow : Cluster -> string -> string -> Cluster * option error.
Variable util_TerminateWorkflow : Cluster -> string -> string -> Cluster * option error.
Variable util_StopWorkflow :
  Cluster -> string -> Hydrator -> string -> string -> string ->
  Cluster * option error.
Variable FormulateResubmitWorkflow :
  wfv1.Workflow -> bool -> list string -> option wfv1.Workflow * option error.
Variable LabelCreator : Context -> option wfv1.Workflow -> option wfv1.Workflow.
Variable util_SubmitWorkflow :
  Cluster -> string -> option wfv1.Workflow ->
  Cluster * (option wfv1.Workflow * option error).

(** X8. A workflow that fails the validation of its identity is not
    touched: delete, resubmit, resume, suspend, terminate and stop all
    answer InvalidArgument with the message of the validation, and leave
    the substrate as it is. *)
Theorem lifecycle_rejects_invalid_identity
    s ctx c namespace name wf err force memoized parameters selector message :
  getWorkflow s ctx (clientAt c) namespace name emptyGetOptions = Ok wf ->
  Validate (instanceIDService s) (Some wf) = Some err ->
  carriesStatus err = false ->
  let rejected {A} : Cluster * result A :=
    (c, Err (Some (statusError InvalidArgument (Error err)))) in
  DeleteWorkflow Cluster clientAt wf_Patch wf_Delete s ctx c
    {| del_Name := name; del_Namespace := namespace; del_Force := force |}
  = rejected
  /\ ResubmitWorkflow Cluster clientAt FormulateResubmitWorkflow LabelCreator
       util_SubmitWorkflow s ctx c
       {| resubmit_Name := name; resubmit_Namespace := namespace;
          resubmit_Memoized := memoized; resubmit_Parameters := parameters |}
     = rejected
  /\ ResumeWorkflow Cluster clientAt util_ResumeWorkflow s ctx c
       {| resume_Name := name; resume_Namespace := namespace;
          resume_NodeFieldSelector := selector |}
     = rejected
  /\ SuspendWorkflow Cluster clientAt util_SuspendWorkflow s ctx c
       {| suspend_Name := name; suspend_Namespace := namespace |}
     = rejected
  /\ TerminateWorkflow Cluster clientAt util_TerminateWorkflow s ctx c
       {| terminate_Name := name; terminate_Namespace := namespace |}
     = rejected
  /\ StopWorkflow Cluster clientAt util_StopWorkflow s ctx c
       {| stop_Name := name; stop_Namespace := namespace;
          stop_NodeFieldSelector := selector; stop_Message := message |}
     = rejected.
Proof.
  intros Hget Hvalid Hlow rejected.
  pose proof (lookup_rejected _ _ _ _ _ _ _ Hget Hvalid Hlow) as Hlookup.
  unfold DeleteWorkflow, ResubmitWorkflow, ResumeWorkflow, SuspendWorkflow,
    TerminateWorkflow, StopWorkflow.
  cbn [del_Name del_Namespace resubmit_Name resubmit_Namespace resume_Name
         resume_Namespace suspend_Name suspend_Namespace terminate_Name
         terminate_Namespace stop_Name stop_Namespace].
  rewrite Hlookup. repeat split.
Qed.

End LifecycleMoreProperties.

Section DeleteWorkflowProperties.

Variable Cluster : Type.
Variable clientAt : Cluster -> WorkflowInterface.

(** X9. [DeleteWorkflow] deletes the workflow that the lookup resolved, by
    its own namespace and name. Without [Force] nothing is patched. With
    [Force] the finalizers are patched away first; the delete is made in
    the state the patch left, and is not attempted when the patch fails:
    the reply is then the error of the patch, re-coded with Internal. *)
Theorem DeleteWorkflow_force s ctx c req wf wf_Patch wf_Delete :
  lookup s ctx (clientAt c) (del_Namespace req) (del_Name req) = Ok wf ->
  let deleteAt c1 :=
    match wf_Delete c1 (wfv1.Namespace wf) (wfv1.Name wf) with
    | (c2, Some err) => (c2, Err (ToStatusError (Some err) Internal))
    | (c2, None) => (c2, Ok tt)
    end in
  (del_Force req = false ->
   forall wf_Patch',
     DeleteWorkflow Cluster clientAt wf_Patch' wf_Delete s ctx c req = deleteAt c)
  /\ (del_Force req = true ->
      forall c1,
        wf_Patch c (wfv1.Namespace wf) (wfv1.Name wf) finalizersPatch = (c1, None) ->
        DeleteWorkflow Cluster clientAt wf_Patch wf_Delete s ctx c req = deleteAt c1)
  /\ (del_Force req = true ->
      forall c1 err,
        wf_Patch c (wfv1.Namespace wf) (wfv1.Name wf) finalizersPatch
        = (c1, Some err) ->
        carriesStatus err = false ->
        forall wf_Delete',
          DeleteWorkflow Cluster clientAt wf_Patch wf_Delete' s ctx c req
          = (c1, Err (Some (statusError Internal (Error err))))).
Proof.
  intros Hlookup deleteAt. unfold DeleteWorkflow. rewrite Hlookup.
  repeat split.
  - intros -> wf_Patch'. subst deleteAt. cbn beta.
    now destruct (wf_Delete c _ _) as [c2 [e|]].
  - intros -> c1 ->. subst deleteAt. cbn beta.
    now destruct (wf_Delete c1 _ _) as [c2 [e|]].
  - intros -> c1 err -> Hlow wf_Delete'. now rewrite ToStatusError_code.
Qed.

End DeleteWorkflowProperties.

Module DeleteExamples.

(** A substrate that is the list of the names of its workflows, each with
    a finalizer until it is patched away; a workflow with a finalizer is
    not deleted. *)
Definition Cluster := list (string * bool).

Definition clientAt (c : Cluster) : WorkflowInterface :=
  {| wf_Get _ name _ :=
       if existsb (fun w => String.eqb (fst w) name) c
       then (Some (Examples.workflow name 0 0), None)
       else (None, Some (apiStatusError StatusReasonNotFound "not found"));
     wf_List _ _ := Err None; wf_Create _ _ := Err None;
     wf_Watch _ _ := None |}.

Definition patch (c : Cluster) (ns name body : string) : Cluster * option error :=
  (map (fun w => if String.eqb (fst w) name then (fst w, false) else w) c, None).

Definition delete (c : Cluster) (ns name : string) : Cluster * option error :=
  (List.filter (fun w => negb (String.eqb (fst w) name) || snd w) c, None).

Definition request (force : bool) : WorkflowDeleteRequest :=
  {| del_Name := "b"; del_Namespace := "ns1"; del_Force := force |}.

Definition run (force : bool) : Cluster * result unit :=
  DeleteWorkflow Cluster clientAt patch delete Examples.scenarioServer
    Examples.allowAll [("a", true); ("b", true)] (request force).

End DeleteExamples.

Lemma DeleteWorkflow_force_witness :
  DeleteExamples.run true = ([("a", true)], Ok tt).
Proof.
  refine (eq_trans
            (proj1 (proj2 (DeleteWorkflow_force DeleteExamples.Cluster
                             DeleteExamples.clientAt Examples.scenarioServer
                             Examples.allowAll [("a", true); ("b", true)]
                             (DeleteExamples.request true)
                             (Examples.workflow "b" 0 0)
                             DeleteExamples.patch DeleteExamples.delete _))
               _ [("a", true); ("b", false)] _) _);
    reflexivity.
Defined.

(** Without [Force] the finalizer stays and keeps the workflow. *)
Example DeleteWorkflow_without_force :
  DeleteExamples.run false = ([("a", true); ("b", true)], Ok tt).
Proof. reflexivity. Qed.

Lemma lifecycle_rejects_invalid_identity_witness :
  TerminateWorkflow DeleteExamples.Cluster DeleteExamples.clientAt
    (fun c _ _ => ([], None))
    {| instanceIDService :=
         {| With o := o; Label wf := wf;
            Validate _ := Some (errorString "workflow is not managed by this instance") |};
       offloadNodeStatusRepo := offloadNodeStatusRepo Examples.scenarioServer;
       hydrator := hydrator Examples.scenarioServer;
       wfArchive := wfArchive Examples.scenarioServer;
       wfLister := wfLister Examples.scenarioServer;
       wfReflector := None |}
    Examples.allowAll [("b", true)]
    {| terminate_Name := "b"; terminate_Namespace := "ns1" |}
  = ([("b", true)],
     Err (Some (statusError InvalidArgument
                  "workflow is not managed by this instance"))).
Proof.
  refine (proj1 (proj2 (proj2 (proj2 (proj2
            (lifecycle_rejects_invalid_identity DeleteExamples.Cluster
               DeleteExamples.clientAt DeleteExamples.patch DeleteExamples.delete
               (fun c _ _ _ _ => (c, None)) (fun c _ _ => (c, None))
               (fun c _ _ => ([], None)) (fun c _ _ _ _ _ => (c, None))
               (fun wf _ _ => (Some wf, None)) (fun _ wf => wf)
               (fun c _ wf => (c, (wf, None)))
               _ Examples.allowAll [("b", true)] "ns1" "b"
               (Examples.workflow "b" 0 0)
               (errorString "workflow is not managed by this instance")
               false false [] "" "" _ _ _))))));
    reflexivity.
Defined.

(** * Further properties of [RetryWorkflow] *)

Section RetryWorkflowMore.

Variable Cluster : Type.
Variable clientAt : Cluster -> WorkflowInterface.
Variable wf_Update :
  Cluster -> string -> wfv1.Workflow -> Cluster * result wfv1.Workflow.
Variable pods_Delete : Cluster -> string -> string -> Cluster * option error.
Variable FormulateRetryWorkflow :
  wfv1.Workflow -> bool -> string -> list string ->
  wfv1.Workflow * list string * option error.


(** The reformulation is the last step before the fan-out. *)
Lemma retryPrepare_reformulation_fails s ctx c req wf wf' partial err :
  lookup s ctx (clientAt c) (workflowpkg.retry_Namespace req)
    (workflowpkg.retry_Name req) = Ok wf ->
  Hydrate (hydrator s) wf = (wf', None) ->
  FormulateRetryWorkflow wf' (workflowpkg.retry_RestartSuccessful req)
    (workflowpkg.retry_NodeFieldSelector req) (workflowpkg.retry_Parameters req)
  = (partial, Some err) ->
  retryPrepare Cluster clientAt FormulateRetryWorkflow s ctx c req
  = Err (ToStatusError (Some err) Internal).
Proof.
  unfold lookup, retryPrepare. intros Hlookup Hhydrate Hformulate.
  destruct (getWorkflow _ _ _ _ _ _) as [found|[e|]|]; try discriminate;
    cbn [pointerOf] in *;
    destruct (validateWorkflow s _); try discriminate.
  injection Hlookup as ->. rewrite Hhydrate, Hformulate.
  now destruct partial.
Qed.

End RetryWorkflowMore.


(** * Further properties of [WatchWorkflows] *)

Section WatchWorkflowsMore.

Variable Stream : Type.
Variable ws_SendHeader : Stream -> Stream * option error.
Variable ws_Send : Stream -> WorkflowWatchEvent -> Stream * option error.
Variable NewCleaner : string -> Cleaner.
Variable WithoutPrefix : Cleaner -> string -> Cleaner.
Variable RecoverWorkflowNameFromSelectorStringIfAny : string -> string.
Variable GenerateFieldSelectorFromWorkflowName : string -> string.

(** What the loop sends for an event it has received: the workflow of the
    event, hydrated if the fields need it and projected, under the type of
    the event; nothing for an event whose object is not a workflow or
    whose hydration or projection fails. *)
Definition forwarded (s : workflowServer) (cleaner : Cleaner) (event : Event)
  : option WorkflowWatchEvent :=
  match ev_Object event with
  | objOther _ => None
  | objWorkflow wf =>
    match (if negb (WillExclude cleaner "status.nodes")
           then Hydrate (hydrator s) wf else (wf, None)) with
    | (_, Some _) => None
    | (wf, None) =>
      match clean cleaner wf with
      | (_, Some _) => None
      | (newWf, None) => Some {| wwe_Type := ev_Type event; wwe_Object := newWf |}
      end
    end
  end.

(** Sending a list of events, one after the other, as long as the sends
    succeed. *)
Fixpoint sendAll (ws : Stream) (outs : list WorkflowWatchEvent)
  : Stream * option error :=
  match outs with
  | [] => (ws, None)
  | out :: outs =>
    match ws_Send ws out with
    | (ws', Some err) => (ws', Some err)
    | (ws', None) => sendAll ws' outs
    end
  end.

(** X11. As long as the loop of a watch runs, the selections it has taken
    are events received, and what it has sent to the caller is exactly one
    event for each of them, in the order received: no event is dropped,
    repeated or reordered. *)
Theorem watchLoop_forwards_in_order s cleaner ws trace ws' :
  watchLoop Stream ws_Send s cleaner ws trace = (ws', None) ->
  exists events outs,
    trace = map received events
    /\ Forall2 (fun event out => forwarded s cleaner event = Some out) events outs
    /\ sendAll ws outs = (ws', None).
Proof.
  revert ws. induction trace as [|x trace IH]; intros ws; cbn [watchLoop].
  - intros [= ->]. exists [], []. repeat split. constructor.
  - destruct x as [|event|]; try discriminate.
    destruct (watchEvent Stream ws_Send s cleaner ws event) as [ws1 [e|]] eqn:Hev;
      [discriminate|].
    intros Hrest. destruct (IH _ Hrest) as (events & outs & -> & Hall & Hsend).
    unfold watchEvent in Hev.
    destruct (ev_Object event) as [wf|other] eqn:Hobj; [|discriminate].
    destruct (if negb (WillExclude cleaner "status.nodes")
              then Hydrate (hydrator s) wf else (wf, None))
      as [wf' [herr|]] eqn:Hhyd; [discriminate|].
    destruct (clean cleaner wf') as [newWf [cerr|]] eqn:Hclean; [discriminate|].
    destruct (ws_Send ws _) as [ws2 [serr|]] eqn:Hws; [discriminate|].
    injection Hev as ->.
    exists (event :: events),
      ({| wwe_Type := ev_Type event; wwe_Object := newWf |} :: outs).
    repeat split.
    + constructor; [|assumption].
      unfold forwarded. now rewrite Hobj, Hhyd, Hclean.
    + cbn [sendAll]. now rewrite Hws.
Qed.

(** X12. The selector of a watch that names a workflow is resolved before
    the watch is opened: the watch is opened on the name of the workflow
    the lookup returns (the most recent one for the alias), and when the
    lookup fails the stream ends with that error re-coded with Internal,
    with nothing sent. A watch without list options, or whose selector
    names no workflow, is opened as asked. *)
Theorem watchOptions_resolves_alias s ctx wfClient req :
  let options :=
    watchOptions RecoverWorkflowNameFromSelectorStringIfAny
      GenerateFieldSelectorFromWorkflowName s ctx wfClient req in
  (workflowpkg.watch_ListOptions req = None ->
   options = inl metav1.emptyListOptions)
  /\ (forall opts,
        workflowpkg.watch_ListOptions req = Some opts ->
        let wfName :=
          RecoverWorkflowNameFromSelectorStringIfAny (metav1.FieldSelector opts) in
        (wfName = "" -> options = inl opts)
        /\ (wfName <> "" ->
            forall wf,
              getWorkflow s ctx wfClient (workflowpkg.watch_Namespace req) wfName
                emptyGetOptions = Ok wf ->
              options
              = inl (metav1.withFieldSelector opts
                       (GenerateFieldSelectorFromWorkflowName (wfv1.Name wf))))
        /\ (wfName <> "" ->
            forall err ws trace,
              getWorkflow s ctx wfClient (workflowpkg.watch_Namespace req) wfName
                emptyGetOptions = Err (Some err) ->
              WatchWorkflows Stream ws_SendHeader ws_Send NewCleaner WithoutPrefix
                RecoverWorkflowNameFromSelectorStringIfAny
                GenerateFieldSelectorFromWorkflowName s ctx wfClient req ws trace
              = (ws, Some (exitReturn (ToStatusError (Some err) Internal))))).
Proof.
  cbn zeta. unfold WatchWorkflows, watchOptions. split.
  - now intros ->.
  - intros opts ->. repeat split.
    + now intros ->.
    + intros Hname wf ->.
      now destruct (String.eqb_spec
        (RecoverWorkflowNameFromSelectorStringIfAny (metav1.FieldSelector opts)) "").
    + intros Hname err ws trace ->.
      now destruct (String.eqb_spec
        (RecoverWorkflowNameFromSelectorStringIfAny (metav1.FieldSelector opts)) "").
Qed.

End WatchWorkflowsMore.

Lemma watchLoop_forwards_in_order_witness :
  exists events outs,
    [received (WatchExamples.event Examples.wf_c);
     received (WatchExamples.event Examples.wf_b)]
    = map received events
    /\ Forall2 (fun event out =>
                  forwarded Examples.scenarioServer Examples.noCleaner event
                  = Some out) events outs
    /\ sendAll WatchExamples.Stream WatchExamples.send [] outs
       = ([{| wwe_Type := "MODIFIED"; wwe_Object := Examples.wf_c |};
           {| wwe_Type := "MODIFIED"; wwe_Object := Examples.wf_b |}], None).
Proof.
  refine (watchLoop_forwards_in_order WatchExamples.Stream WatchExamples.send
            Examples.scenarioServer Examples.noCleaner [] _ _ _).
  reflexivity.
Defined.

Module WatchAliasExamples.

(** A substrate holding the workflows b and c, and a watch on the alias. *)
Definition client : WorkflowInterface :=
  {| wf_Get _ _ _ := (None, None);
     wf_List _ _ := Ok (Examples.page "1" "" 0 [Examples.wf_b; Examples.wf_c]);
     wf_Create _ _ := Err None; wf_Watch _ _ := None |}.

Definition request : workflowpkg.WatchWorkflowsRequest :=
  {| workflowpkg.watch_Namespace := "ns1";
     workflowpkg.watch_ListOptions :=
       Some (metav1.withFieldSelector metav1.emptyListOptions
               "metadata.name=@latest");
     workflowpkg.watch_Fields := "" |}.

End WatchAliasExamples.

(** A watch on the alias is a watch on the workflow it stands for. *)
Lemma watchOptions_resolves_alias_witness :
  watchOptions (fun _ => "@latest") (fun name => "metadata.name=" +:+ name)
    Examples.scenarioServer Examples.allowAll
    WatchAliasExamples.client WatchAliasExamples.request
  = inl (metav1.withFieldSelector metav1.emptyListOptions "metadata.name=c").
Proof.
  refine (proj1 (proj2 (proj2 (watchOptions_resolves_alias
                                 WatchExamples.Stream WatchExamples.sendHeader
                                 WatchExamples.send Examples.newCleaner
                                 (fun c _ => c) (fun _ => "@latest")
                                 (fun name => "metadata.name=" +:+ name)
                                 Examples.scenarioServer Examples.allowAll
                                 WatchAliasExamples.client
                                 WatchAliasExamples.request)
                          (metav1.withFieldSelector metav1.emptyListOptions
                             "metadata.name=@latest") eq_refl))
            _ Examples.wf_c _).
  - discriminate.
  - reflexivity.
Defined.

Section WatchWorkflowsExits.

Variable Stream : Type.
Variable ws_SendHeader : Stream -> Stream * option error.
Variable ws_Send : Stream -> WorkflowWatchEvent -> Stream * option error.
Variable NewCleaner : string -> Cleaner.
Variable WithoutPrefix : Cleaner -> string -> Cleaner.
Variable RecoverWorkflowNameFromSelectorStringIfAny : string -> string.
Variable GenerateFieldSelectorFromWorkflowName : string -> string.

Local Abbreviation WatchWorkflows' :=
  (WatchWorkflows Stream ws_SendHeader ws_Send NewCleaner WithoutPrefix
     RecoverWorkflowNameFromSelectorStringIfAny
     GenerateFieldSelectorFromWorkflowName).
Local Abbreviation watchOptions' :=
  (watchOptions RecoverWorkflowNameFromSelectorStringIfAny
     GenerateFieldSelectorFromWorkflowName).

(** X13. The exits of a watch before and beside its loop. A watch the
    substrate refuses to open ends with that error re-coded with Internal
    and the stream untouched. A failure to send the header ends the stream
    with that error as it is, not re-coded, whatever would have been
    selected. An event whose object is not a workflow ends an open stream
    with the error made of the object, re-coded with Internal, and is not
    sent. *)
Theorem WatchWorkflows_exits s ctx wfClient req opts ws :
  watchOptions' s ctx wfClient req = inl opts ->
  let watch :=
    wf_Watch wfClient (workflowpkg.watch_Namespace req)
      (With (instanceIDService s) opts) in
  (forall err trace,
     watch = Some err ->
     WatchWorkflows' s ctx wfClient req ws trace
     = (ws, Some (exitReturn (ToStatusError (Some err) Internal))))
  /\ (forall ws' err trace,
        watch = None ->
        ws_SendHeader ws = (ws', Some err) ->
        WatchWorkflows' s ctx wfClient req ws trace
        = (ws', Some (exitReturn (Some err))))
  /\ (forall ws' pre ws1 type fromObject rest,
        watch = None ->
        ws_SendHeader ws = (ws', None) ->
        WatchWorkflows' s ctx wfClient req ws pre = (ws1, None) ->
        WatchWorkflows' s ctx wfClient req ws
          (pre ++ received {| ev_Type := type; ev_Object := objOther fromObject |}
               :: rest)
        = (ws1, Some (exitReturn (ToStatusError (Some fromObject) Internal)))).
Proof.
  intros Hopts watch. subst watch. unfold WatchWorkflows. rewrite Hopts.
  repeat split.
  - now intros err trace ->.
  - now intros ws' err trace -> ->.
  - intros ws' pre ws1 type fromObject rest -> -> Hpre.
    now rewrite (watchLoop_app _ _ _ _ _ _ _ _ Hpre).
Qed.

End WatchWorkflowsExits.

Lemma WatchWorkflows_exits_witness :
  WatchExamples.watch
    [received (WatchExamples.event Examples.wf_c);
     received {| ev_Type := "ERROR";
                 ev_Object := objOther (apiStatusError StatusReasonUnknown "too old") |};
     received (WatchExamples.event Examples.wf_b)]
  = ([{| wwe_Type := "MODIFIED"; wwe_Object := Examples.wf_c |}],
     Some (exitReturn
             (ToStatusError (Some (apiStatusError StatusReasonUnknown "too old")) Internal))).
Proof.
  refine (proj2 (proj2 (WatchWorkflows_exits
                          WatchExamples.Stream WatchExamples.sendHeader
                          WatchExamples.send Examples.newCleaner (fun c _ => c)
                          (fun _ => "") (fun name => name)
                          Examples.scenarioServer Examples.allowAll
                          WatchExamples.client WatchExamples.request
                          metav1.emptyListOptions [] eq_refl))
            [] [received (WatchExamples.event Examples.wf_c)] _ "ERROR"
            (apiStatusError StatusReasonUnknown "too old")
            [received (WatchExamples.event Examples.wf_b)] eq_refl eq_refl eq_refl).
Defined.

(** * [WatchEvents] *)

(** [workflowpkg.WatchEventsRequest]. *)
Record WatchEventsRequest := {
  events_Namespace : string;
  events_ListOptions : option metav1.ListOptions
}.

(** The object of a [watch.Event] of the event watch: a [corev1.Event] or
    something else, which [apierr.FromObject] turns into an error. *)
Inductive eventObject (E : Type) :=
| objEvent (e : E)
| objNotEvent (fromObject : error).
Arguments objEvent {E} e.
Arguments objNotEvent {E} fromObject.

(** The case a [select] of the loop takes. *)
Inductive eventSelected (E : Type) :=
| eventCtxDone                          (* <-ctx.Done() *)
| eventReceived (object : eventObject E) (* <-watch.ResultChan(), open *)
| eventClosed.                          (* the same receive with open == false *)
Arguments eventCtxDone {E}.
Arguments eventReceived {E} object.
Arguments eventClosed {E}.

Section WatchEvents.

(** [corev1.Event], the state of the stream to the caller and the event
    watch of the Kubernetes client, [CoreV1().Events(namespace).Watch]. *)
Variable CoreEvent : Type.
Variable Stream : Type.
Variable ws_SendHeader : Stream -> Stream * option error.
Variable ws_Send : Stream -> CoreEvent -> Stream * option error.
Variable events_Watch : string -> metav1.ListOptions -> option error.

(** Lines 387-407: the loop, along the cases its [select]s take. [None]:
    the loop is blocked in a [select] at the end of the trace. *)
Fixpoint eventLoop (ws : Stream) (trace : list (eventSelected CoreEvent))
  : Stream * option exit :=
  match trace with
  | [] => (ws, None)
  | eventCtxDone :: _ => (ws, Some (exitReturn None))
  | eventClosed :: _ =>
      (ws, Some (exitReturn (ToStatusError (Some io_EOF) ResourceExhausted)))
  | eventReceived (objNotEvent fromObject) :: _ =>
      (* object is probably metav1.Status, FromObject can deal with
         anything *)
      (ws, Some (exitReturn (ToStatusError (Some fromObject) Internal)))
  | eventReceived (objEvent e) :: trace =>
    match ws_Send ws e with
    | (ws', Some err) =>
        (ws', Some (exitReturn (ToStatusError (Some err) Internal)))
    | (ws', None) => eventLoop ws' trace
    end
  end.

Definition WatchEvents (s : workflowServer) (req : WatchEventsRequest)
    (ws : Stream) (trace : list (eventSelected CoreEvent))
  : Stream * option exit :=
  let opts :=
    match events_ListOptions req with
    | Some opts => opts
    | None => metav1.emptyListOptions
    end in
  let opts := With (instanceIDService s) opts in
  match events_Watch (events_Namespace req) opts with
  | Some err => (ws, Some (exitReturn (ToStatusError (Some err) Internal)))
  | None =>
    match ws_SendHeader ws with
    | (ws', Some err) =>
        (ws', Some (exitReturn (ToStatusError (Some err) Internal)))
    | (ws', None) => eventLoop ws' trace
    end
  end.

(** Sending a list of events, one after the other, as long as the sends
    succeed. *)
Fixpoint sendEvents (ws : Stream) (events : list CoreEvent)
  : Stream * option error :=
  match events with
  | [] => (ws, None)
  | e :: events =>
    match ws_Send ws e with
    | (ws', Some err) => (ws', Some err)
    | (ws', None) => sendEvents ws' events
    end
  end.

Lemma eventLoop_app ws pre ws1 rest :
  eventLoop ws pre = (ws1, None) ->
  eventLoop ws (pre ++ rest) = eventLoop ws1 rest.
Proof.
  revert ws. induction pre as [|x pre IH]; intros ws; cbn [eventLoop app].
  - now intros [= ->].
  - destruct x as [|[e|fromObject]|]; try discriminate.
    destruct (ws_Send ws e) as [ws2 [err|]]; [discriminate|]. apply IH.
Qed.

Lemma eventLoop_running ws trace ws' :
  eventLoop ws trace = (ws', None) ->
  exists events,
    trace = map (fun e => eventReceived (objEvent e)) events
    /\ sendEvents ws events = (ws', None).
Proof.
  revert ws. induction trace as [|x trace IH]; intros ws; cbn [eventLoop].
  - intros [= ->]. now exists [].
  - destruct x as [|[e|fromObject]|]; try discriminate.
    destruct (ws_Send ws e) as [ws2 [err|]] eqn:Hsend; [discriminate|].
    intros Hrest. destruct (IH _ Hrest) as (events & -> & Hsent).
    exists (e :: events). split; [reflexivity|].
    cbn [sendEvents]. now rewrite Hsend.
Qed.

(** X14. A stream of events that is running has sent the caller the
    events received, unchanged and in order, and nothing else. From there
    the cancellation of the context ends it without an error, the closed
    event channel with the end of file re-coded with ResourceExhausted, an
    object that is not an event with the error made of it and a failed
    send with the failure of the send, both re-coded with Internal. *)
Theorem WatchEvents_running s req ws pre ws1 :
  WatchEvents s req ws pre = (ws1, None) ->
  (exists ws' events,
     ws_SendHeader ws = (ws', None)
     /\ pre = map (fun e => eventReceived (objEvent e)) events
     /\ sendEvents ws' events = (ws1, None))
  /\ forall rest,
       let next x := WatchEvents s req ws (pre ++ x :: rest) in
       next eventCtxDone = (ws1, Some (exitReturn None))
       /\ next eventClosed
          = (ws1, Some (exitReturn (ToStatusError (Some io_EOF) ResourceExhausted)))
       /\ (forall fromObject,
             next (eventReceived (objNotEvent fromObject))
             = (ws1, Some (exitReturn (ToStatusError (Some fromObject) Internal))))
       /\ (forall e ws2 err,
             ws_Send ws1 e = (ws2, Some err) ->
             next (eventReceived (objEvent e))
             = (ws2, Some (exitReturn (ToStatusError (Some err) Internal)))).
Proof.
  unfold WatchEvents.
  destruct (events_Watch _ _) as [werr|]; [discriminate|].
  destruct (ws_SendHeader ws) as [ws' [herr|]]; [discriminate|].
  intros Hpre. split.
  - destruct (eventLoop_running _ _ _ Hpre) as (events & -> & Hsent).
    now exists ws', events.
  - intros rest.
    repeat split; intros; rewrite (eventLoop_app _ _ _ _ Hpre); cbn [eventLoop];
      try reflexivity.
    now rewrite H.
Qed.

(** X15. A stream of events that cannot start: the error of a watch the
    substrate refuses to open and the error of a failed header are both
    re-coded with Internal, whatever would have been selected, and no
    event is sent. *)
Theorem WatchEvents_cannot_start s req ws :
  let watch :=
    events_Watch (events_Namespace req)
      (With (instanceIDService s)
         (default metav1.emptyListOptions (events_ListOptions req))) in
  (forall err trace,
     watch = Some err ->
     WatchEvents s req ws trace
     = (ws, Some (exitReturn (ToStatusError (Some err) Internal))))
  /\ (forall ws' err trace,
        watch = None ->
        ws_SendHeader ws = (ws', Some err) ->
        WatchEvents s req ws trace
        = (ws', Some (exitReturn (ToStatusError (Some err) Internal)))).
Proof.
  intros watch. subst watch. unfold WatchEvents.
  destruct (events_ListOptions req) as [opts|]; cbn [default from_option id];
    (split; [now intros err trace ->|now intros ws' err trace -> ->]).
Qed.

End WatchEvents.

Module WatchEventsExamples.

(** Events are their messages; the stream records what is sent and fails
    from the third event on, and its header fails when asked to. *)
Definition Stream := list string.

Definition sendHeader (fail : bool) (ws : Stream) : Stream * option error :=
  if fail then (ws, Some (errorString "transport is closing")) else (ws, None).

Definition send (ws : Stream) (e : string) : Stream * option error :=
  if (length ws <? 2)%nat then (ws ++ [e], None)
  else (ws, Some (errorString "transport is closing")).

Definition request : WatchEventsRequest :=
  {| events_Namespace := "ns1"; events_ListOptions := None |}.

Definition watch (fail : bool) (trace : list (eventSelected string))
  : Stream * option exit :=
  WatchEvents string Stream (sendHeader fail) send (fun _ _ => None)
    Examples.scenarioServer request [] trace.

End WatchEventsExamples.

Lemma WatchEvents_running_witness :
  WatchEventsExamples.watch false
    [eventReceived (objEvent "pulled"); eventReceived (objEvent "started");
     eventReceived (objEvent "killed"); eventCtxDone]
  = (["pulled"; "started"],
     Some (exitReturn
             (ToStatusError (Some (errorString "transport is closing")) Internal))).
Proof.
  refine (proj2 (proj2 (proj2 (proj2 (WatchEvents_running string
                          WatchEventsExamples.Stream
                          (WatchEventsExamples.sendHeader false)
                          WatchEventsExamples.send (fun _ _ => None)
                          Examples.scenarioServer WatchEventsExamples.request []
                          [eventReceived (objEvent "pulled");
                           eventReceived (objEvent "started")]
                          ["pulled"; "started"] eq_refl) [eventCtxDone])))
            "killed" _ _ eq_refl).
Defined.

Lemma WatchEvents_cannot_start_witness :
  WatchEventsExamples.watch true [eventReceived (objEvent "pulled")]
  = ([], Some (exitReturn
                 (ToStatusError (Some (errorString "transport is closing"))
                    Internal))).
Proof.
  refine (proj2 (WatchEvents_cannot_start string WatchEventsExamples.Stream
                   (WatchEventsExamples.sendHeader true)
                   WatchEventsExamples.send (fun _ _ => None)
                   Examples.scenarioServer WatchEventsExamples.request [])
            [] (errorString "transport is closing")
            [eventReceived (objEvent "pulled")] eq_refl eq_refl).
Defined.

(** * Further properties of the archive retry command *)

(** The requests of the retry calls, in the order of the calls. *)
Definition retryRequests (calls : list archive.call)
  : list archive.RetryArchivedWorkflowRequest :=
  flat_map (fun c => match c with
                     | archive.callRetry req => [req]
                     | _ => []
                     end) calls.

(** The request the command makes for a workflow. *)
Definition requestOf (retryOpts : archive.retryOps) (selector : string)
    (cliSubmitOpts : archive.CliSubmitOpts) (wf : wfv1.Workflow)
  : archive.RetryArchivedWorkflowRequest :=
  {| archive.req_Uid := wfv1.UID wf; archive.req_Namespace := wfv1.Namespace wf;
     archive.req_Name := wfv1.Name wf;
     archive.req_RestartSuccessful := archive.restartSuccessful retryOpts;
     archive.req_NodeFieldSelector := selector;
     archive.req_Parameters := archive.Parameters cliSubmitOpts |}.

(** The workflows of a list whose UID is not in [seen] and comes up for
    the first time. *)
Fixpoint firstByUID (seen : gset string) (wfs : list wfv1.Workflow)
  : list wfv1.Workflow :=
  match wfs with
  | [] => []
  | wf :: wfs =>
    if decide (wfv1.UID wf ∈ seen) then firstByUID seen wfs
    else wf :: firstByUID ({[wfv1.UID wf]} ∪ seen) wfs
  end.

(** A retry that succeeded, with the line printed for it. *)
Definition printed (output : string)
    (done : archive.RetryArchivedWorkflowRequest * option wfv1.Workflow)
  : list archive.call :=
  [archive.callRetry (fst done); archive.callPrint (snd done) output].

Lemma retryRequests_app calls calls' :
  retryRequests (calls ++ calls') = retryRequests calls ++ retryRequests calls'.
Proof. apply flat_map_app. Qed.

Lemma retriedUIDs_printed output done :
  retriedUIDs (flat_map (printed output) done) = map (fun d => archive.req_Uid (fst d)) done.
Proof.
  induction done as [|d done IH]; [reflexivity|].
  cbn [flat_map printed app map]. unfold retriedUIDs in *.
  cbn [flat_map app]. now rewrite IH.
Qed.

Section RetryArchivedMore.

Variable Server : Type.
Variable ParseSelector : string -> string * option error.
Variable listArchivedWorkflows :
  Server -> string -> string -> Z -> wfv1.Workflows * option error.
Variable RetryArchivedWorkflow :
  Server -> archive.RetryArchivedWorkflowRequest ->
  Server * (option wfv1.Workflow * option error).
Variable WaitWatchOrLog :
  Server -> string -> list string -> archive.CliSubmitOpts -> Server * option error.

Local Abbreviation retryEach' :=
  (archive.retryEach Server RetryArchivedWorkflow).
Local Abbreviation command' :=
  (archive.retryArchivedWorkflows Server ParseSelector listArchivedWorkflows
     RetryArchivedWorkflow WaitWatchOrLog).

Lemma retryEach_requests retryOpts selector cliSubmitOpts wfs :
  forall st st' err,
    retryEach' retryOpts selector cliSubmitOpts wfs st = (st', err) ->
    exists new,
      retryRequests (archive.calls Server st')
      = retryRequests (archive.calls Server st) ++ new
      /\ new `prefix_of`
           map (requestOf retryOpts selector cliSubmitOpts)
             (firstByUID (dom (archive.retriedUids Server st)) wfs)
      /\ (err = None ->
          new = map (requestOf retryOpts selector cliSubmitOpts)
                  (firstByUID (dom (archive.retriedUids Server st)) wfs)).
Proof.
  induction wfs as [|wf wfs IH]; intros st st' err;
    cbn [archive.retryEach firstByUID].
  - intros [= <- <-]. exists []. now rewrite app_nil_r.
  - destruct (archive.retriedUids Server st !! wfv1.UID wf) as [b|] eqn:Hseen.
    + rewrite decide_True by (apply elem_of_dom; eauto). apply IH.
    + rewrite decide_False by now apply not_elem_of_dom.
      fold (requestOf retryOpts selector cliSubmitOpts wf).
      destruct (RetryArchivedWorkflow _ _) as [srv [last [e|]]].
      * intros [= <- <-]. cbn [archive.calls].
        exists [requestOf retryOpts selector cliSubmitOpts wf].
        rewrite retryRequests_app. split; [reflexivity|].
        split; [|discriminate]. cbn [map].
        apply prefix_cons, prefix_nil.
      * intros Hrun. destruct (IH _ _ _ Hrun) as (new & Hcalls & Hpre & Hall).
        cbn [archive.calls archive.retriedUids] in Hcalls, Hpre, Hall.
        rewrite dom_insert_L in Hpre, Hall.
        exists (requestOf retryOpts selector cliSubmitOpts wf :: new).
        rewrite Hcalls, retryRequests_app. cbn [map].
        split; [now rewrite <- app_assoc|].
        split; [now apply prefix_cons|].
        intros Hnone. now rewrite (Hall Hnone).
Qed.

(** X16. What the command retries, for a node selector that parses and an
    archive that answers: the workflows the selector matches followed by
    the arguments, each UID at its first appearance, in that order, one
    request each. A command that returns without an error has made all of
    these requests; one that stops has made the first of them. An
    argument that repeats a matched UID is not retried for itself: the
    request carries the name and the namespace of the matched workflow. *)
Theorem retryArchivedWorkflows_requests
    srv retryOpts cliSubmitOpts args selector wfs :
  ParseSelector (archive.nodeFieldSelector retryOpts) = (selector, None) ->
  (if archive.hasSelector retryOpts
   then listArchivedWorkflows srv (archive.fieldSelector retryOpts)
          (archive.labelSelector retryOpts) 0
   else ([], None)) = (wfs, None) ->
  let asked :=
    map (requestOf retryOpts selector cliSubmitOpts)
      (firstByUID ∅
         (wfs ++ map (fun uid =>
                        archive.workflowOfUID uid (archive.namespace retryOpts))
                   args)) in
  let run := command' srv retryOpts cliSubmitOpts args in
  retryRequests (snd (fst run)) `prefix_of` asked
  /\ (snd run = exitReturn None -> retryRequests (snd (fst run)) = asked).
Proof.
  intros Hparse Hlist. cbn zeta. unfold archive.retryArchivedWorkflows.
  rewrite Hparse, Hlist.
  destruct (archive.retryEach _ _ _ _ _ _ _) as [st err] eqn:Hrun.
  destruct (retryEach_requests _ _ _ _ _ _ _ Hrun) as (new & Hcalls & Hpre & Hall).
  cbn [archive.calls archive.retriedUids retryRequests flat_map app] in Hcalls, Hpre, Hall.
  rewrite dom_empty_L in Hpre, Hall. fold retryRequests in Hcalls. subst new.
  destruct err as [err|]; [cbn [fst snd]; split; [assumption|discriminate]|].
  specialize (Hall eq_refl).
  destruct (decide (size (archive.retriedUids Server st) = 1%nat)) as [Hone|_];
    [|cbn [fst snd]; split; [assumption|now intros _]].
  destruct (archive.lastRetried Server st) as [last|];
    [|cbn [fst snd]; split; [assumption|now intros _]].
  destruct (WaitWatchOrLog _ _ _ _) as [srv' err]. cbn [fst snd].
  rewrite retryRequests_app. cbn [retryRequests flat_map app].
  fold retryRequests. rewrite app_nil_r. split; [assumption|now intros _].
Qed.

(** The retries [done], made one after the other from the server state
    [srv], all succeeded and left the server in the state [srv']: each
    entry pairs a request with the workflow that the service returned for
    it. *)
Fixpoint retried (srv : Server)
    (done : list (archive.RetryArchivedWorkflowRequest * option wfv1.Workflow))
    (srv' : Server) : Prop :=
  match done with
  | [] => srv' = srv
  | (req, wf) :: done =>
      exists srv1,
        RetryArchivedWorkflow srv req = (srv1, (wf, None))
        /\ retried srv1 done srv'
  end.

Lemma retried_snoc srv done srv1 req wf srv2 :
  retried srv done srv1 ->
  RetryArchivedWorkflow srv1 req = (srv2, (wf, None)) ->
  retried srv (done ++ [(req, wf)]) srv2.
Proof.
  revert srv. induction done as [|[req0 wf0] done IH]; intros srv; cbn [retried app].
  - intros -> Hretry. now exists srv2.
  - intros (srv' & Hfirst & Hrest) Hretry. exists srv'. split; [assumption|].
    now apply IH.
Qed.

(** The invariant of the loop on the calls: every retry made so far, from
    the server state [srv0] on, succeeded and was printed with the workflow
    it returned, and [lastRetried] is the workflow the last of them
    returned. *)
Definition allPrinted (output : string) (srv0 : Server)
    (done : list (archive.RetryArchivedWorkflowRequest * option wfv1.Workflow))
    (st : archive.loopState Server) : Prop :=
  retried srv0 done (archive.server Server st)
  /\ archive.calls Server st = flat_map (printed output) done
  /\ archive.lastRetried Server st = from_option snd None (last done).

Lemma retryEach_printed retryOpts selector cliSubmitOpts wfs :
  forall st st' err srv0 done,
    retryEach' retryOpts selector cliSubmitOpts wfs st = (st', err) ->
    allPrinted (archive.Output cliSubmitOpts) srv0 done st ->
    exists done',
      match err with
      | None => allPrinted (archive.Output cliSubmitOpts) srv0 (done ++ done') st'
      | Some err =>
          exists req srv1 lastWf,
            retried srv0 (done ++ done') srv1
            /\ archive.calls Server st'
               = flat_map (printed (archive.Output cliSubmitOpts)) (done ++ done')
                 ++ [archive.callRetry req]
            /\ RetryArchivedWorkflow srv1 req
               = (archive.server Server st', (lastWf, Some err))
      end.
Proof.
  induction wfs as [|wf wfs IH]; intros st st' err srv0 done;
    cbn [archive.retryEach].
  - intros [= <- <-] Hinv. exists []. now rewrite app_nil_r.
  - destruct (archive.retriedUids Server st !! wfv1.UID wf) as [b|] eqn:Hseen;
      [apply IH|].
    fold (requestOf retryOpts selector cliSubmitOpts wf).
    destruct (RetryArchivedWorkflow _ _) as [srv [lastWf [e|]]] eqn:Hretry.
    + intros [= <- <-] (Hsrv & Hcalls & _). exists []. rewrite app_nil_r.
      exists (requestOf retryOpts selector cliSubmitOpts wf),
        (archive.server Server st), lastWf.
      cbn [archive.calls archive.server]. now rewrite Hcalls.
    + intros Hrun (Hsrv & Hcalls & Hlast).
      destruct (IH _ _ _ srv0
                  (done ++ [(requestOf retryOpts selector cliSubmitOpts wf, lastWf)])
                  Hrun) as (done' & Hdone).
      { split; [|split]; cbn [archive.calls archive.lastRetried archive.server].
        - exact (retried_snoc _ _ _ _ _ _ Hsrv Hretry).
        - rewrite Hcalls, flat_map_app. cbn [flat_map printed fst snd app].
          reflexivity.
        - now rewrite last_snoc. }
      exists ((requestOf retryOpts selector cliSubmitOpts wf, lastWf) :: done').
      now rewrite <- app_assoc in Hdone.
Qed.

(** X17. The calls of the command, for a node selector that parses and an
    archive that answers, are retries that succeeded, made one after the
    other on the server, each followed by the print of the workflow that
    the service returned for it, and then one of: nothing more, the server
    being as the last retry left it; one more retry, made in that state,
    which failed and whose error the command returns, leaving the server as
    this retry left it; or, after exactly one retry, the wait, watch or log
    of the workflow that this retry returned, by its namespace and name,
    whose outcome is the outcome of the command. The command panics only
    after a single retry that returned no workflow and no error. *)
Theorem retryArchivedWorkflows_calls
    srv retryOpts cliSubmitOpts args selector wfs :
  ParseSelector (archive.nodeFieldSelector retryOpts) = (selector, None) ->
  (if archive.hasSelector retryOpts
   then listArchivedWorkflows srv (archive.fieldSelector retryOpts)
          (archive.labelSelector retryOpts) 0
   else ([], None)) = (wfs, None) ->
  let run := command' srv retryOpts cliSubmitOpts args in
  exists done tail srv1,
    retried srv done srv1
    /\ snd (fst run)
       = flat_map (printed (archive.Output cliSubmitOpts)) done ++ tail
    /\ ((tail = []
         /\ fst (fst run) = srv1
         /\ (snd run = exitReturn None
             \/ (snd run = exitPanic /\ exists req, done = [(req, None)])))
        \/ (exists req lastWf err,
              tail = [archive.callRetry req]
              /\ RetryArchivedWorkflow srv1 req = (fst (fst run), (lastWf, Some err))
              /\ snd run = exitReturn (Some err))
        \/ (exists req last err,
              done = [(req, Some last)]
              /\ tail = [archive.callWaitWatchOrLog (wfv1.Namespace last)
                           [wfv1.Name last]]
              /\ WaitWatchOrLog srv1 (wfv1.Namespace last) [wfv1.Name last]
                   cliSubmitOpts
                 = (fst (fst run), err)
              /\ snd run = exitReturn err)).
Proof.
  intros Hparse Hlist. cbn zeta. unfold archive.retryArchivedWorkflows.
  rewrite Hparse, Hlist.
  destruct (archive.retryEach _ _ _ _ _ _ _) as [st err] eqn:Hrun.
  pose proof (retryEach_retriedOnce Server RetryArchivedWorkflow
                _ _ _ _ _ _ _ Hrun) as Honce.
  destruct (retryEach_printed _ _ _ _ _ _ _ srv [] Hrun) as (done & Hdone);
    [now repeat split|].
  cbn [app] in Hdone.
  destruct err as [err|].
  - destruct Hdone as (req & srv1 & lastWf & Hsrv & Hcalls & Hretry).
    cbn [fst snd].
    exists done, [archive.callRetry req], srv1.
    split; [assumption|]. split; [assumption|].
    right. left. now exists req, lastWf, err.
  - destruct Hdone as (Hsrv & Hcalls & Hlast).
    destruct (decide (size (archive.retriedUids Server st) = 1%nat)) as [Hone|_].
    + rewrite (retriedOnce_size Server st), Hcalls, retriedUIDs_printed,
        length_map in Hone.
      2:{ apply Honce. split; [apply NoDup_nil_2|].
          split; [apply dom_empty_L|]. intros (ns & names & []). }
      destruct done as [|[req lastWf] [|d done]]; try discriminate Hone.
      cbn [last from_option snd] in Hlast. rewrite Hlast.
      destruct lastWf as [lastWf|]; cbn [fst snd].
      * destruct (WaitWatchOrLog _ _ _ _) as [srv' err] eqn:Hwait.
        cbn [fst snd].
        exists [(req, Some lastWf)],
          [archive.callWaitWatchOrLog (wfv1.Namespace lastWf) [wfv1.Name lastWf]],
          (archive.server Server st).
        rewrite Hcalls. split; [assumption|]. split; [reflexivity|].
        right. right. now exists req, lastWf, err.
      * exists [(req, None)], [], (archive.server Server st).
        rewrite Hcalls, app_nil_r.
        split; [assumption|]. split; [reflexivity|]. left.
        split; [reflexivity|]. split; [reflexivity|]. right.
        split; [reflexivity|]. now exists req.
    + cbn [fst snd]. exists done, [], (archive.server Server st).
      rewrite Hcalls, app_nil_r.
      split; [assumption|]. split; [reflexivity|]. left.
      split; [reflexivity|]. split; [reflexivity|]. now left.
Qed.

End RetryArchivedMore.

Module ArchiveRunExamples.

(** A server that counts the retries it is asked for and knows no
    workflow [gone]; an archive whose selector matches the workflow [u1]. *)
Definition retryOpts : archive.retryOps :=
  {| archive.nodeFieldSelector := ""; archive.restartSuccessful := false;
     archive.namespace := "ns1"; archive.labelSelector := "app=x";
     archive.fieldSelector := "" |}.

Definition cliSubmitOpts : archive.CliSubmitOpts :=
  {| archive.Parameters := []; archive.Output := "wide"; archive.Wait := true;
     archive.Watch := false; archive.Log := false |}.

Definition parse (s : string) : string * option error := (s, None).

Definition selected (srv : nat) (fieldSelector labelSelector : string) (limit : Z)
  : wfv1.Workflows * option error :=
  ([Examples.workflow "u1" 0 0], None).

Definition retry (srv : nat) (req : archive.RetryArchivedWorkflowRequest)
  : nat * (option wfv1.Workflow * option error) :=
  if String.eqb (archive.req_Uid req) "gone"
  then (S srv, (None, Some (errorString "not found")))
  else (S srv, (Some (Examples.workflow (archive.req_Uid req) 0 0), None)).

Definition wait (srv : nat) (namespace : string) (names : list string)
    (opts : archive.CliSubmitOpts) : nat * option error := (srv, None).

Definition command (args : list string) : nat * list archive.call * exit :=
  archive.retryArchivedWorkflows nat parse selected retry wait 0%nat
    retryOpts cliSubmitOpts args.

End ArchiveRunExamples.

(** The argument [u1] repeats the workflow the selector matches: the
    command asks for the matched workflow and then for [u2]. *)
Lemma retryArchivedWorkflows_requests_witness :
  retryRequests (snd (fst (ArchiveRunExamples.command ["u2"; "u1"; "u2"])))
  = [requestOf ArchiveRunExamples.retryOpts "" ArchiveRunExamples.cliSubmitOpts
       (Examples.workflow "u1" 0 0);
     requestOf ArchiveRunExamples.retryOpts "" ArchiveRunExamples.cliSubmitOpts
       (archive.workflowOfUID "u2" "ns1")].
Proof.
  refine (proj2 (retryArchivedWorkflows_requests nat ArchiveRunExamples.parse
                   ArchiveRunExamples.selected ArchiveRunExamples.retry
                   ArchiveRunExamples.wait 0%nat ArchiveRunExamples.retryOpts
                   ArchiveRunExamples.cliSubmitOpts ["u2"; "u1"; "u2"] ""
                   [Examples.workflow "u1" 0 0] eq_refl eq_refl) eq_refl).
Defined.

(** The retry of [gone] fails after the one of [u1]: [u2] is not reached. *)
Lemma retryArchivedWorkflows_calls_witness :
  let run := ArchiveRunExamples.command ["gone"; "u2"] in
  run
  = (2%nat,
     [archive.callRetry
        (requestOf ArchiveRunExamples.retryOpts ""
           ArchiveRunExamples.cliSubmitOpts (Examples.workflow "u1" 0 0));
      archive.callPrint (Some (Examples.workflow "u1" 0 0)) "wide";
      archive.callRetry
        (requestOf ArchiveRunExamples.retryOpts ""
           ArchiveRunExamples.cliSubmitOpts (archive.workflowOfUID "gone" "ns1"))],
     exitReturn (Some (errorString "not found")))
  /\ exists done tail srv1,
      retried nat ArchiveRunExamples.retry 0%nat done srv1
      /\ snd (fst run) = flat_map (printed "wide") done ++ tail
      /\ ((tail = []
           /\ fst (fst run) = srv1
           /\ (snd run = exitReturn None
               \/ (snd run = exitPanic /\ exists req, done = [(req, None)])))
          \/ (exists req lastWf err,
                tail = [archive.callRetry req]
                /\ ArchiveRunExamples.retry srv1 req
                   = (fst (fst run), (lastWf, Some err))
                /\ snd run = exitReturn (Some err))
          \/ (exists req last err,
                done = [(req, Some last)]
                /\ tail = [archive.callWaitWatchOrLog (wfv1.Namespace last)
                             [wfv1.Name last]]
                /\ ArchiveRunExamples.wait srv1 (wfv1.Namespace last)
                     [wfv1.Name last] ArchiveRunExamples.cliSubmitOpts
                   = (fst (fst run), err)
                /\ snd run = exitReturn err)).
Proof.
  split; [reflexivity|].
  exact (retryArchivedWorkflows_calls nat ArchiveRunExamples.parse
           ArchiveRunExamples.selected ArchiveRunExamples.retry
           ArchiveRunExamples.wait 0%nat ArchiveRunExamples.retryOpts
           ArchiveRunExamples.cliSubmitOpts ["gone"; "u2"] ""
           [Examples.workflow "u1" 0 0] eq_refl eq_refl).
Defined.

(** * [SubmitWorkflow] *)

Section SubmitWorkflow.

(** The names of the kinds that can be submitted are constants of the
    package [workflow], which is not among the embedded files. *)
Variables CronWorkflowKind CronWorkflowSingular CronWorkflowPlural
  CronWorkflowShortName : string.
Variables WorkflowTemplateKind WorkflowTemplateSingular WorkflowTemplatePlural
  WorkflowTemplateShortName : string.
Variables ClusterWorkflowTemplateKind ClusterWorkflowTemplateSingular
  ClusterWorkflowTemplatePlural ClusterWorkflowTemplateShortName : string.

(** [wfv1.CronWorkflow] and [wfv1.SubmitOpts] with the two fields read
    here. *)
Variable CronWorkflow : Type.
Variable SubmitOpts : Type.
Variable DryRun : SubmitOpts -> bool.
Variable ServerDryRun : SubmitOpts -> bool.

(** [wfClient.ArgoprojV1alpha1().CronWorkflows(namespace).Get(ctx, name,
    opts)]; [common.ConvertCronWorkflowToWorkflow], [None] when it panics,
    and [common.NewWorkflowFromWorkflowTemplate], which return the address
    of a fresh workflow; [creator.LabelCreator]; [util.ApplySubmitOpts];
    [validate.ValidateWorkflow] with the template getters of the namespace
    of the request and the option Submit; [util.CreateServerDryRun]. *)
Variable cronwf_Get : string -> string -> option CronWorkflow * option error.
Variable ConvertCronWorkflowToWorkflow : option CronWorkflow -> option wfv1.Workflow.
Variable NewWorkflowFromWorkflowTemplate : string -> bool -> wfv1.Workflow.
Variable LabelCreator : Context -> wfv1.Workflow -> wfv1.Workflow.
Variable ApplySubmitOpts :
  wfv1.Workflow -> option SubmitOpts -> wfv1.Workflow * option error.
Variable ValidateWorkflow :
  workflowServer -> Context -> string -> wfv1.Workflow ->
  wfv1.Workflow * option error.
Variable CreateServerDryRun :
  wfv1.Workflow -> WorkflowInterface -> result wfv1.Workflow.

Record WorkflowSubmitRequest := {
  submit_Namespace : string;
  submit_ResourceKind : string;
  submit_ResourceName : string;
  submit_SubmitOptions : option SubmitOpts
}.

(** A case of the switch: the kind is one of the names listed. *)
Definition isOneOf (kind : string) (names : list string) : bool :=
  existsb (String.eqb kind) names.

Definition unsupportedKind (kind : string) : error :=
  errorString ("Resource kind '" +:+ kind +:+ "' is not supported for submitting").

(** Lines 778-794: the workflow made of the resource. *)
Definition submitted (req : WorkflowSubmitRequest) : result wfv1.Workflow :=
  let kind := submit_ResourceKind req in
  if isOneOf kind [CronWorkflowKind; CronWorkflowSingular; CronWorkflowPlural;
                   CronWorkflowShortName] then
    match cronwf_Get (submit_Namespace req) (submit_ResourceName req) with
    | (_, Some err) => Err (ToStatusError (Some err) Internal)
    | (cronWf, None) =>
      match ConvertCronWorkflowToWorkflow cronWf with
      | Some wf => Ok wf
      | None => Panic
      end
    end
  else if isOneOf kind [WorkflowTemplateKind; WorkflowTemplateSingular;
                        WorkflowTemplatePlural; WorkflowTemplateShortName] then
    Ok (NewWorkflowFromWorkflowTemplate (submit_ResourceName req) false)
  else if isOneOf kind [ClusterWorkflowTemplateKind; ClusterWorkflowTemplateSingular;
                        ClusterWorkflowTemplatePlural;
                        ClusterWorkflowTemplateShortName] then
    Ok (NewWorkflowFromWorkflowTemplate (submit_ResourceName req) true)
  else Err (ToStatusError (Some (unsupportedKind kind)) InvalidArgument).

(** Lines 796-809: the labels, the submit options and the validation. *)
Definition prepared (s : workflowServer) (ctx : Context)
    (req : WorkflowSubmitRequest) : result wfv1.Workflow :=
  match submitted req with
  | Ok wf =>
    let wf := Label (instanceIDService s) wf in
    let wf := LabelCreator ctx wf in
    match ApplySubmitOpts wf (submit_SubmitOptions req) with
    | (_, Some err) => Err (ToStatusError (Some err) Internal)
    | (wf, None) =>
      match ValidateWorkflow s ctx (submit_Namespace req) wf with
      | (_, Some err) => Err (ToStatusError (Some err) InvalidArgument)
      | (wf, None) => Ok wf
      end
    end
  | r => r
  end.

(** [wfClient] is the workflows of [auth.GetWfClient(ctx)]. *)
Definition SubmitWorkflow (s : workflowServer) (ctx : Context)
    (wfClient : WorkflowInterface) (req : WorkflowSubmitRequest)
  : result wfv1.Workflow :=
  match prepared s ctx req with
  | Ok wf =>
    (* if we are doing a normal dryRun, just return the workflow
       un-altered *)
    if match submit_SubmitOptions req with
       | Some opts => DryRun opts
       | None => false
       end
    then Ok wf
    else if match submit_SubmitOptions req with
            | Some opts => ServerDryRun opts
            | None => false
            end
    then
      (* For a server dry run we require a namespace *)
      let wf :=
        if String.eqb (wfv1.Namespace wf) ""
        then wfv1.withNamespace wf (submit_Namespace req) else wf in
      match CreateServerDryRun wf wfClient with
      | Err (Some err) => Err (ToStatusError (Some err) InvalidArgument)
      | r => r
      end
    else
      match wf_Create wfClient (submit_Namespace req) wf with
      | Err (Some err) => Err (ToStatusError (Some err) InvalidArgument)
      | r => r
      end
  | r => r
  end.


(** X19. A submission that reaches the substrate: for a server-side dry
    run the workflow goes out in the namespace of the request when it has
    none of its own; a failure of the dry run or of the Create call is
    re-coded with InvalidArgument whatever the failure is, a timeout of the
    server included. *)
Theorem SubmitWorkflow_create_failure s ctx wfClient req wf :
  prepared s ctx req = Ok wf ->
  from_option DryRun false (submit_SubmitOptions req) = false ->
  let server := from_option ServerDryRun false (submit_SubmitOptions req) in
  (server = false ->
   forall err,
     wf_Create wfClient (submit_Namespace req) wf = Err (Some err) ->
     SubmitWorkflow s ctx wfClient req
     = Err (ToStatusError (Some err) InvalidArgument)
     /\ (carriesStatus err = false ->
         SubmitWorkflow s ctx wfClient req
         = Err (Some (statusError InvalidArgument (Error err)))))
  /\ (server = true ->
      let sent :=
        if String.eqb (wfv1.Namespace wf) ""
        then wfv1.withNamespace wf (submit_Namespace req) else wf in
      (forall err,
         CreateServerDryRun sent wfClient = Err (Some err) ->
         SubmitWorkflow s ctx wfClient req
         = Err (ToStatusError (Some err) InvalidArgument))
      /\ (forall created,
            CreateServerDryRun sent wfClient = Ok created ->
            SubmitWorkflow s ctx wfClient req = Ok created)).
Proof.
  intros Hprep Hdry server. subst server. unfold SubmitWorkflow.
  rewrite Hprep.
  destruct (submit_SubmitOptions req) as [opts|]; cbn [from_option] in *.
  - rewrite Hdry. split.
    + intros -> err ->. split; [reflexivity|].
      intros Hlow. now rewrite ToStatusError_code.
    + intros ->. cbn zeta. split; [now intros err ->|now intros created ->].
  - split; [|discriminate].
    intros _ err ->. split; [reflexivity|].
    intros Hlow. now rewrite ToStatusError_code.
Qed.

End SubmitWorkflow.

Module SubmitExamples.

(** Submit options are the pair of the two dry-run flags; a resource makes
    a workflow of its name that has no namespace yet, and nothing is
    refused before the substrate. *)
Definition SubmitOpts : Type := bool * bool.

Definition template (name : string) : wfv1.Workflow :=
  wfv1.withNamespace (Examples.workflow name 0 0) "".

Definition request (kind : string) (opts : option SubmitOpts)
  : WorkflowSubmitRequest SubmitOpts :=
  {| submit_Namespace := "ns1"; submit_ResourceKind := kind;
     submit_ResourceName := "hello"; submit_SubmitOptions := opts |}.

Definition submit (wfClient : WorkflowInterface)
    (req : WorkflowSubmitRequest SubmitOpts) : result wfv1.Workflow :=
  SubmitWorkflow "CronWorkflow" "cronworkflow" "cronworkflows" "cwf"
    "WorkflowTemplate" "workflowtemplate" "workflowtemplates" "wftmpl"
    "ClusterWorkflowTemplate" "clusterworkflowtemplate"
    "clusterworkflowtemplates" "cwft"
    unit SubmitOpts fst snd
    (fun _ _ => (Some tt, None)) (fun _ => Some (template "cron"))
    (fun name _ => template name) (fun _ wf => wf) (fun wf _ => (wf, None))
    (fun _ _ _ wf => (wf, None)) (fun wf _ => Ok wf)
    Examples.scenarioServer Examples.allowAll wfClient req.

End SubmitExamples.


(** The timeout that [CreateWorkflow] reports as such is an invalid
    argument of a submission. *)
Lemma SubmitWorkflow_create_failure_witness :
  IsServerTimeout CreateExamples.timeout = true
  /\ SubmitExamples.submit CreateExamples.timingOut
       (SubmitExamples.request "wftmpl" None)
     = Err (Some (statusError InvalidArgument "the server was unable to respond")).
Proof.
  split; [reflexivity|]. unfold SubmitExamples.submit.
  refine (proj2 (proj1 (SubmitWorkflow_create_failure
                          _ _ _ _ _ _ _ _ _ _ _ _ _ _ _ _ _ _ _ _ _ _ _ _ _
                          CreateExamples.timingOut
                          (SubmitExamples.request "wftmpl" None)
                          (SubmitExamples.template "hello") _ _)
                   _ CreateExamples.timeout _) _); reflexivity.
Defined.

(** * The Prometheus exporter: [path] and [port] *)

Module telemetry.

Definition DefaultPrometheusServerPort : Z := 9090.
Definition DefaultPrometheusServerPath : string := "/metrics".

(** [Config], as far as the exporter reads it. *)
Record Config := {
  Enabled : bool;
  Path : string;
  Port : Z;
  IgnoreErrors : bool;
  Secure : bool
}.

Definition path (config : Config) : string :=
  if String.eqb (Path config) "" then DefaultPrometheusServerPath
  else Path config.

Definition port (config : Config) : Z :=
  if Port config =? 0 then DefaultPrometheusServerPort else Port config.

(** Line 80: the address the server listens on, [fmt.Sprintf] of the port
    after a colon. *)
Definition Addr (config : Config) : string := ":" +:+ pretty (port config).

End telemetry.

(** X20. The metrics server is never registered on the empty path nor
    bound to port 0, whatever the configuration: an unset path is
    [/metrics] and an unset port 9090, and a set one is kept. *)
Theorem telemetry_path_and_port config :
  telemetry.path config <> ""
  /\ telemetry.port config <> 0
  /\ telemetry.Addr config <> ":0"
  /\ (telemetry.Path config = "" -> telemetry.path config = "/metrics")
  /\ (telemetry.Path config <> "" -> telemetry.path config = telemetry.Path config)
  /\ (telemetry.Port config = 0 -> telemetry.Addr config = ":9090")
  /\ (telemetry.Port config <> 0 -> telemetry.port config = telemetry.Port config).
Proof.
  assert (Hpath : telemetry.path config <> "").
  { unfold telemetry.path.
    destruct (String.eqb_spec (telemetry.Path config) ""); [discriminate|assumption]. }
  assert (Hport : telemetry.port config <> 0).
  { unfold telemetry.port.
    destruct (Z.eqb_spec (telemetry.Port config) 0); [discriminate|assumption]. }
  repeat split; try assumption.
  - unfold telemetry.Addr. intros Heq.
    assert (Hp : pretty (telemetry.port config) = pretty 0)
      by (injection Heq as Heq; exact Heq).
    apply (inj pretty) in Hp. contradiction.
  - unfold telemetry.path. now intros ->.
  - unfold telemetry.path. intros Hset.
    now destruct (String.eqb_spec (telemetry.Path config) "").
  - unfold telemetry.Addr, telemetry.port. now intros ->.
  - unfold telemetry.port. intros Hset.
    now destruct (Z.eqb_spec (telemetry.Port config) 0).
Qed.

(** * The lifecycle operations on the alias of the latest workflow *)

Lemma getWorkflow_latest s ctx wfClient namespace wfList first rest :
  wf_List wfClient namespace metav1.emptyListOptions = Ok wfList ->
  wfv1.Items wfList = first :: rest ->
  getWorkflow s ctx wfClient namespace latestAlias emptyGetOptions
  = Ok (latestOf first rest).
Proof.
  intros Hlist Hitems. unfold getWorkflow, getLatestWorkflow.
  rewrite Hlist, Hitems.
  assert (Hlatest : latestOf first (first :: rest) = latestOf first rest).
  { unfold latestOf. cbn [fold_left]. unfold metav1.Before.
    now rewrite Z.ltb_irrefl. }
  now rewrite Hlatest.
Qed.

Section LifecycleOnTheAlias.

Variable Cluster : Type.
Variable clientAt : Cluster -> WorkflowInterface.
Variable util_ResumeWorkflow :
  Cluster -> string -> Hydrator -> string -> string -> Cluster * option error.
Variable util_SuspendWorkflow : Cluster -> string -> string -> Cluster * option error.
Variable util_TerminateWorkflow : Cluster -> string -> string -> Cluster * option error.
Variable util_StopWorkflow :
  Cluster -> string -> Hydrator -> string -> string -> string ->
  Cluster * option error.

(** X21. Resume, suspend, terminate and stop asked for the alias of the
    latest workflow act on the workflow the alias stands for when the
    request arrives: the mutation is made on the name of the most recently
    created workflow of the list of the namespace (for suspend in the
    namespace of that workflow, for the others in the one of the request);
    its error is re-coded with Internal, and after a success the reply is
    the workflow of that name read again from the state the mutation left,
    not the alias resolved anew. *)
Theorem lifecycle_on_the_latest_workflow
    s ctx c namespace wfList first rest selector message :
  wf_List (clientAt c) namespace metav1.emptyListOptions = Ok wfList ->
  wfv1.Items wfList = first :: rest ->
  let latest := latestOf first rest in
  Validate (instanceIDService s) (Some latest) = None ->
  let reply (r : Cluster * option error) : Cluster * result wfv1.Workflow :=
    match r with
    | (c', Some err) => (c', Err (ToStatusError (Some err) Internal))
    | (c', None) => (c', refetch Cluster clientAt c' namespace (wfv1.Name latest))
    end in
  ResumeWorkflow Cluster clientAt util_ResumeWorkflow s ctx c
    {| resume_Name := latestAlias; resume_Namespace := namespace;
       resume_NodeFieldSelector := selector |}
  = reply (util_ResumeWorkflow c namespace (hydrator s) (wfv1.Name latest) selector)
  /\ SuspendWorkflow Cluster clientAt util_SuspendWorkflow s ctx c
       {| suspend_Name := latestAlias; suspend_Namespace := namespace |}
     = reply (util_SuspendWorkflow c (wfv1.Namespace latest) (wfv1.Name latest))
  /\ TerminateWorkflow Cluster clientAt util_TerminateWorkflow s ctx c
       {| terminate_Name := latestAlias; terminate_Namespace := namespace |}
     = reply (util_TerminateWorkflow c namespace (wfv1.Name latest))
  /\ StopWorkflow Cluster clientAt util_StopWorkflow s ctx c
       {| stop_Name := latestAlias; stop_Namespace := namespace;
          stop_NodeFieldSelector := selector; stop_Message := message |}
     = reply (util_StopWorkflow c namespace (hydrator s) (wfv1.Name latest)
                selector message).
Proof.
  intros Hlist Hitems latest Hvalid reply.
  pose proof (lookup_found s ctx (clientAt c) namespace latestAlias latest
                (getWorkflow_latest s ctx _ _ _ _ _ Hlist Hitems) Hvalid)
    as Hlookup.
  unfold ResumeWorkflow, SuspendWorkflow, TerminateWorkflow, StopWorkflow.
  cbn [resume_Name resume_Namespace resume_NodeFieldSelector suspend_Name
         suspend_Namespace terminate_Name terminate_Namespace stop_Name
         stop_Namespace stop_NodeFieldSelector stop_Message].
  rewrite Hlookup. repeat split.
Qed.

End LifecycleOnTheAlias.

Module AliasExamples.

(** The substrate is the list of the names terminated so far; it holds
    the workflows b and c, and reads a terminated workflow as finished at
    time 60. *)
Definition Cluster := list string.

Definition clientAt (c : Cluster) : WorkflowInterface :=
  {| wf_Get _ name _ :=
       (Some (Examples.workflow name 50
                (if bool_decide (name ∈ c) then 60 else 0)), None);
     wf_List _ _ := Ok (Examples.page "1" "" 0 [Examples.wf_b; Examples.wf_c]);
     wf_Create _ _ := Err None; wf_Watch _ _ := None |}.

Definition terminate (c : Cluster) (namespace name : string)
  : Cluster * option error := (name :: c, None).

End AliasExamples.

Lemma lifecycle_on_the_latest_workflow_witness :
  TerminateWorkflow AliasExamples.Cluster AliasExamples.clientAt
    AliasExamples.terminate Examples.scenarioServer Examples.allowAll []
    {| terminate_Name := "@latest"; terminate_Namespace := "ns1" |}
  = (["c"], Ok (Examples.workflow "c" 50 60)).
Proof.
  refine (proj1 (proj2 (proj2 (lifecycle_on_the_latest_workflow
                                 AliasExamples.Cluster AliasExamples.clientAt
                                 (fun c _ _ _ _ => (c, None))
                                 (fun c _ _ => (c, None))
                                 AliasExamples.terminate
                                 (fun c _ _ _ _ _ => (c, None))
                                 Examples.scenarioServer Examples.allowAll []
                                 "ns1" _ Examples.wf_b [Examples.wf_c] "" ""
                                 eq_refl eq_refl eq_refl)))).
Defined.
